(** * Automated SMS Sender: the dispatch-and-confirm engine

    A shallow embedding of [automated_SMS_Sender.py]: phone validation,
    template rendering, the thread-pool dispatch of [send_single_sms], the
    status polling of [check_message_status] and the coordinator [send_sms],
    followed by the properties of the engine. *)

From Stdlib Require Import NArith String Ascii.
From stdpp Require Import base list gmap.

Local Open Scope N_scope.

(** ** Python strings *)

(** A Python 3 [str] is a sequence of Unicode code points. *)
Definition char := N.
Definition pystr := list char.

Definition char_of_ascii (a : ascii) : char := N_of_ascii a.

(** An ASCII literal read as a Python string. *)
Fixpoint py (s : string) : pystr :=
  match s with
  | EmptyString => []
  | String a s' => char_of_ascii a :: py s'
  end.

Definition pystr_eqb (a b : pystr) : bool := bool_decide (a = b).

(** ** The Unicode decimal digits

    For a [str] pattern Python's [re] reads [\d] as "any Unicode decimal
    digit" (general category Nd, what [str.isdecimal] accepts), not as
    [[0-9]].  The table lists the first code point of each run of ten
    decimal digits (Unicode 14.0, the database of CPython 3.11); the
    mathematical digits U+1D7CE..U+1D7FF are five such runs. *)
Definition decimal_runs : list N :=
  [ 0x30; 0x660; 0x6f0; 0x7c0; 0x966; 0x9e6; 0xa66; 0xae6; 0xb66; 0xbe6;
    0xc66; 0xce6; 0xd66; 0xde6; 0xe50; 0xed0; 0xf20; 0x1040; 0x1090;
    0x17e0; 0x1810; 0x1946; 0x19d0; 0x1a80; 0x1a90; 0x1b50; 0x1bb0;
    0x1c40; 0x1c50; 0xa620; 0xa8d0; 0xa900; 0xa9d0; 0xa9f0; 0xaa50;
    0xabf0; 0xff10; 0x104a0; 0x10d30; 0x11066; 0x110f0; 0x11136; 0x111d0;
    0x112f0; 0x11450; 0x114d0; 0x11650; 0x116c0; 0x11730; 0x118e0;
    0x11950; 0x11c50; 0x11d50; 0x11da0; 0x16a60; 0x16ac0; 0x16b50;
    0x1d7ce; 0x1d7d8; 0x1d7e2; 0x1d7ec; 0x1d7f6;
    0x1e140; 0x1e2f0; 0x1e950; 0x1fbf0 ].

Definition in_run (c start : N) : bool := (start <=? c) && (c <? start + 10).

(** [\d] *)
Definition is_decimal (c : char) : bool := existsb (in_run c) decimal_runs.

(** [[0-9]] *)
Definition is_ascii_digit (c : char) : bool := (0x30 <=? c) && (c <=? 0x39).

Definition plus_sign : char := 0x2b.
Definition newline : char := 0x0a.

(** ** Phone validation *)

(** The longest prefix of [s] whose characters satisfy [p], and the rest:
    what a greedy [p+] consumes when nothing after it can match [p]. *)
Fixpoint span (p : char -> bool) (s : pystr) : pystr * pystr :=
  match s with
  | [] => ([], [])
  | c :: s' =>
      if p c then let '(ds, tl) := span p s' in (c :: ds, tl)
      else ([], s)
  end.

(** [$] without [re.MULTILINE]: the end of the string, or just before a
    newline that is the last character. *)
Definition at_dollar (rest : pystr) : bool :=
  match rest with
  | [] => true
  | [c] => c =? newline
  | _ => false
  end.

(** [re.match('^\+' digit '+$', phone) is not None] for a digit class. *)
Definition re_match_plus_digits (digit : char -> bool) (phone : pystr) : bool :=
  match phone with
  | c :: rest =>
      (c =? plus_sign) &&
      (let '(ds, tl) := span digit rest in
       negb (Nat.eqb (length ds) 0) && at_dollar tl)
  | [] => false
  end.

(** [def is_valid_phone_number(phone): return re.match(r'^\+\d+$', phone) is not None] *)
Definition is_valid_phone_number (phone : pystr) : bool :=
  re_match_plus_digits is_decimal phone.

(** The expression the specification writes, [^\+[0-9]+$]. *)
Definition matches_spec_regex (phone : pystr) : bool :=
  re_match_plus_digits is_ascii_digit phone.

(** ** Template rendering: [str.replace] *)

(** [Some rest] when [s = p ++ rest]. *)
Fixpoint strip_prefix (p s : pystr) : option pystr :=
  match p, s with
  | [], _ => Some s
  | a :: p', b :: s' => if a =? b then strip_prefix p' s' else None
  | _ :: _, [] => None
  end.

(** The left-to-right scan of [str.replace(old, new)] for a non-empty
    [old]: at each position, an occurrence of [old] is replaced by [new]
    and the scan resumes after it, otherwise the character is copied.
    [fuel] bounds the number of positions visited. *)
Fixpoint replace_scan (fuel : nat) (old new s : pystr) : pystr :=
  match fuel with
  | O => []
  | S fuel' =>
      match s with
      | [] => []
      | c :: s' =>
          match strip_prefix old s with
          | Some rest => new ++ replace_scan fuel' old new rest
          | None => c :: replace_scan fuel' old new s'
          end
      end
  end.

(** [s.replace(old, new)].  For an empty [old] Python puts [new] before
    every character and at the end. *)
Definition replace (old new s : pystr) : pystr :=
  match old with
  | [] => new ++ concat (map (fun c => c :: new) s)
  | _ :: _ => replace_scan (length s) old new s
  end.

Definition placeholder : pystr := py "{Name}".

(** [message_template.replace("{Name}", customer_name)] *)
Definition render (message_template customer_name : pystr) : pystr :=
  replace placeholder customer_name message_template.

(** ** Data, log records and observable events *)

(** One row of the loaded spreadsheet, with its two required columns
    holding text (the specification's Recipient), so that
    [str(row['Phone Number'])] is the cell itself. *)
Record row := { Name : pystr; Phone_Number : pystr }.

(** The records written through [logging]; timestamps are left out. *)
Inductive log_record :=
| InvalidPhoneSkipped (phone : pystr)          (* warning, line 135 *)
| SkippingOptedOut (phone : pystr)             (* info, line 139 *)
| MessageSent (name phone sid : pystr)         (* info, line 59 *)
| FailedToSend (name phone e : pystr)          (* error, line 62 *)
| MessageDelivered (name phone : pystr)        (* info, line 72 *)
| MessageFailed (name phone : pystr)           (* error, line 75 *)
| StatusUnknown (name phone : pystr)           (* warning, line 80 *)
| FailedToCheck (name phone e : pystr)         (* error, line 84 *)
| FailedToAuthenticate (e : pystr)             (* error, line 116 *)
| SendingStarted                               (* info, line 121 *)
| SendingFinished.                             (* info, line 162 *)

(** The calls made on the Twilio client. *)
Inductive call :=
| AccountsFetch (account_sid auth_token : pystr)
| MessagesCreate (body from_ to : pystr)
| MessagesFetch (message_sid : pystr).

(** The outcome of running Python code: a value, or a raised exception
    (carried as its message). *)
Inductive result (A : Type) :=
| Ret (a : A)
| Exc (e : pystr).
Arguments Ret {A} a.
Arguments Exc {A} e.

(** What the run does that can be seen from outside.  A call on the client
    is recorded with the provider's answer: the identifier or status it
    returned, or the exception it raised. *)
Inductive event :=
| Logged (r : log_record)
| Called (c : call) (answer : result pystr)
| Slept (seconds : N)
| ShowError (title text : pystr)
| ShowInfo (title text : pystr)
| SendButton (text fg_color : pystr)
| ProgressMaximum (n : nat)
| ProgressValue (v : nat)
| UpdateIdletasks
| Printed (line : pystr).

(** An entry of [message_sids]: [(message_sid, name, phone)]. *)
Definition sid_entry_t : Type := pystr * pystr * pystr.

(** Python truthiness of what [send_single_sms] returns: [None] and the
    empty string are false. *)
Definition truthy (message_sid : option pystr) : bool :=
  match message_sid with
  | Some (_ :: _) => true
  | _ => false
  end.

(** [not s] for a string. *)
Definition falsy (s : pystr) : bool :=
  match s with [] => true | _ => false end.

(** ** Completion order

    [as_completed] yields the futures as they finish.  The order is the
    scheduler's choice: a schedule is a list of picks, each pick taking
    (modulo the number still pending) one of the pending items; once the
    schedule is used up the rest finish in submission order. *)
Fixpoint as_scheduled {A : Type} (sched : list nat) (pending : list A) : list A :=
  match sched with
  | [] => pending
  | i :: sched' =>
      let k := (i mod length pending)%nat in
      match pending !! k with
      | Some x => x :: as_scheduled sched' (delete k pending)
      | None => []
      end
  end.

(** [enumerate] *)
Fixpoint enumerate_from {A : Type} (n : nat) (l : list A) : list (nat * A) :=
  match l with
  | [] => []
  | x :: l' => (n, x) :: enumerate_from (S n) l'
  end.

(** ** The effect monad

    Code runs against the provider's state [P]; it returns a value or
    raises, and leaves the events it produced. *)
Section Engine.

Context {P : Type}.

Definition M (A : Type) : Type := P -> result A * P * list event.

Definition ret {A} (a : A) : M A := fun p => (Ret a, p, []).

Definition raise {A} (e : pystr) : M A := fun p => (Exc e, p, []).

Definition bind {A B} (m : M A) (k : A -> M B) : M B :=
  fun p =>
    match m p with
    | (Ret a, p1, t1) => let '(r, p2, t2) := k a p1 in (r, p2, t1 ++ t2)
    | (Exc e, p1, t1) => (Exc e, p1, t1)
    end.

Definition emit (ev : event) : M unit := fun p => (Ret tt, p, [ev]).

Definition log (r : log_record) : M unit := emit (Logged r).

(** [try: body / except Exception as e: handler(e)] *)
Definition try_except {A} (body : M A) (handler : pystr -> M A) : M A :=
  fun p =>
    match body p with
    | (Ret a, p1, t1) => (Ret a, p1, t1)
    | (Exc e, p1, t1) => let '(r, p2, t2) := handler e p1 in (r, p2, t1 ++ t2)
    end.

(** Running code to its outcome without propagating it: what a worker
    thread does for the future it serves. *)
Definition attempt {A} (m : M A) : M (result A) :=
  fun p => let '(r, p1, t1) := m p in (Ret r, p1, t1).

(** [future.result()]: the stored value, or the stored exception raised
    again. *)
Definition reraise {A} (r : result A) : M A :=
  match r with
  | Ret a => ret a
  | Exc e => raise e
  end.

Declare Scope engine_scope.
Delimit Scope engine_scope with M.
Notation "x <- m ;; k" := (bind m (fun x => k))
  (at level 20, m at level 99, k at level 200, only parsing) : engine_scope.
Notation "m ;; k" := (bind m (fun _ => k))
  (at level 100, k at level 200, only parsing, right associativity) : engine_scope.
Local Open Scope engine_scope.

(** The provider behind [twilio.rest.Client]: each operation answers or
    raises, and moves the provider's state. *)
Record Client := {
  accounts_fetch : pystr -> pystr -> P -> result unit * P;
  messages_create : pystr -> pystr -> pystr -> P -> result pystr * P;
  messages_fetch_status : pystr -> P -> result pystr * P
}.

Variable client : Client.

(** [Client(account_sid, auth_token); client.api.accounts(sid=account_sid).fetch()] *)
Definition authenticate (account_sid auth_token : pystr) : M unit :=
  fun p =>
    let '(r, p1) := accounts_fetch client account_sid auth_token p in
    (r, p1, [Called (AccountsFetch account_sid auth_token)
               (match r with Ret _ => Ret [] | Exc e => Exc e end)]).

(** [client.messages.create(body=..., from_=..., to=...).sid] *)
Definition create_message (body from_ to : pystr) : M pystr :=
  fun p =>
    let '(r, p1) := messages_create client body from_ to p in
    (r, p1, [Called (MessagesCreate body from_ to) r]).

(** [client.messages(message_sid).fetch().status] *)
Definition fetch_status (message_sid : pystr) : M pystr :=
  fun p =>
    let '(r, p1) := messages_fetch_status client message_sid p in
    (r, p1, [Called (MessagesFetch message_sid) r]).

(** [time.sleep(seconds)] *)
Definition sleep (seconds : N) : M unit := emit (Slept seconds).

(** *** [send_single_sms] *)
Definition send_single_sms (twilio_phone_number customer_name customer_phone
                            message_body : pystr) : M (option pystr) :=
  try_except
    (sid <- create_message message_body twilio_phone_number customer_phone ;;
     log (MessageSent customer_name customer_phone sid) ;;
     ret (Some sid))
    (fun e =>
       log (FailedToSend customer_name customer_phone e) ;;
       ret None).

(** *** [check_message_status] *)

(** [for _ in range(n): ...] followed by the code after the loop. *)
Fixpoint status_loop (n : nat) (message_sid customer_name customer_phone : pystr)
  : M bool :=
  match n with
  | O =>
      log (StatusUnknown customer_name customer_phone) ;;
      ret false
  | S n' =>
      msg_status <- fetch_status message_sid ;;
      if pystr_eqb msg_status (py "delivered") then
        log (MessageDelivered customer_name customer_phone) ;;
        ret true
      else if pystr_eqb msg_status (py "failed")
              || pystr_eqb msg_status (py "undelivered") then
        log (MessageFailed customer_name customer_phone) ;;
        ret false
      else
        sleep 2 ;;
        status_loop n' message_sid customer_name customer_phone
  end.

Definition check_message_status (message_sid customer_name customer_phone : pystr)
  : M bool :=
  try_except
    (status_loop 10 message_sid customer_name customer_phone)
    (fun e =>
       log (FailedToCheck customer_name customer_phone e) ;;
       ret false).

(** *** [send_sms] *)

(** The text of the four entry widgets. *)
Record widgets := {
  sid_entry : pystr;
  token_entry : pystr;
  phone_entry : pystr;
  message_entry : pystr
}.

(** The arguments of one [executor.submit(send_single_sms, ...)]. *)
Record job := {
  job_name : pystr;
  job_phone : pystr;
  job_body : pystr
}.

(** A finished future: the position at which it was submitted and what its
    call returned or raised. *)
Definition future : Type := nat * result (option pystr).

(** Lines 130-144, [for index, row in customer_data.iterrows()].  The
    loop variable [row] stays bound to the row iterated last once the loop
    is over (it is unbound when there was no row), and [futures] grows by
    one job per submitted call. *)
Fixpoint submit_loop (opted_out_numbers : gset pystr) (message_template : pystr)
    (rows : list row) (row_var : option row) (futures : list job)
  : M (option row * list job) :=
  match rows with
  | [] => ret (row_var, futures)
  | row :: rows' =>
      let customer_name := Name row in
      let customer_phone := Phone_Number row in
      if negb (is_valid_phone_number customer_phone) then
        log (InvalidPhoneSkipped customer_phone) ;;
        submit_loop opted_out_numbers message_template rows' (Some row) futures
      else if bool_decide (customer_phone ∈ opted_out_numbers) then
        log (SkippingOptedOut customer_phone) ;;
        submit_loop opted_out_numbers message_template rows' (Some row) futures
      else
        let message_body := render message_template customer_name in
        submit_loop opted_out_numbers message_template rows' (Some row)
          (futures ++ [{| job_name := customer_name;
                          job_phone := customer_phone;
                          job_body := message_body |}])
  end.

(** The pool's workers: every submitted call is run, in the order the
    workers get to the provider, and its outcome is kept in its future.
    [ThreadPoolExecutor(max_workers=5)] keeps at most five calls in flight;
    the order is left to the schedule and is not narrowed to the orders
    five workers allow. *)
Fixpoint run_workers (twilio_phone_number : pystr) (jobs : list (nat * job))
  : M (list future) :=
  match jobs with
  | [] => ret []
  | (i, j) :: jobs' =>
      r <- attempt (send_single_sms twilio_phone_number
                      (job_name j) (job_phone j) (job_body j)) ;;
      futs <- run_workers twilio_phone_number jobs' ;;
      ret ((i, r) :: futs)
  end.

(** Reading the variable [row] after the loop. *)
Definition read_row (row_var : option row) : M row :=
  match row_var with
  | Some row => ret row
  | None => raise (py "cannot access local variable 'row'")
  end.

(** Lines 146-151, [for future in as_completed(futures)]. *)
Fixpoint completed_loop (completed : list future) (row_var : option row)
    (message_sids : list sid_entry_t) (value : nat) : M (list sid_entry_t) :=
  match completed with
  | [] => ret message_sids
  | fut :: completed' =>
      message_sid <- reraise (snd fut) ;;
      message_sids' <-
        (if truthy message_sid then
           row <- read_row row_var ;;
           ret (message_sids ++
                [(default [] message_sid, Name row, Phone_Number row)])
         else ret message_sids) ;;
      emit (ProgressValue (S value)) ;;
      emit UpdateIdletasks ;;
      completed_loop completed' row_var message_sids' (S value)
  end.

(** Lines 154-159, the status checks after all messages have been sent. *)
Fixpoint check_loop (message_sids : list sid_entry_t) : M unit :=
  match message_sids with
  | [] => ret tt
  | (message_sid, customer_name, customer_phone) :: rest =>
      status <- check_message_status message_sid customer_name customer_phone ;;
      (if status then emit (Printed (py "Message sent"))
       else emit (Printed (py "Message haven't sent"))) ;;
      check_loop rest
  end.

(** Lines 120-165: the run proper, once the checks before it have passed.
    [sched_workers] is the order in which the pool's calls reach the
    provider and [sched_completed] the order in which [as_completed]
    yields the futures; both are the scheduler's.  The workers run while
    the submission loop is still going: the trace lists the loop's events
    first and the workers' after them, and only the order among the events
    of one thread, and of the calls at the provider, is meant. *)
Definition run (opted_out_numbers : gset pystr) (rows : list row)
    (twilio_phone_number message_template : pystr)
    (sched_workers sched_completed : list nat) : M (list sid_entry_t) :=
  log SendingStarted ;;
  emit (ProgressMaximum (length rows)) ;;
  emit (ProgressValue 0) ;;
  submitted <- submit_loop opted_out_numbers message_template rows None [] ;;
  futures <- run_workers twilio_phone_number
               (as_scheduled sched_workers (enumerate_from 0 (snd submitted))) ;;
  message_sids <- completed_loop (as_scheduled sched_completed futures)
                    (fst submitted) [] 0 ;;
  check_loop message_sids ;;
  log SendingFinished ;;
  emit (ShowInfo (py "Success") (py "SMS messages processed!")) ;;
  emit (SendButton (py "Messages Processed") (py "green")) ;;
  ret message_sids.

Definition authentication_error_text : pystr :=
  py "Failed to authenticate Twilio credentials." ++ [newline] ++
  py "Please check your Account SID, Auth Token, and Twilio Phone Number.".

(** [send_sms], over the globals [customer_data] ([None] until a
    spreadsheet has been loaded) and [opted_out_numbers].  The Python
    function returns nothing; the embedding returns [message_sids] when the
    run went through, and [None] where the function returns early. *)
Definition send_sms (customer_data : option (list row))
    (opted_out_numbers : gset pystr) (w : widgets)
    (sched_workers sched_completed : list nat)
  : M (option (list sid_entry_t)) :=
  match customer_data with
  | None =>
      emit (ShowError (py "Error") (py "Please load customer data first.")) ;;
      ret None
  | Some rows =>
      let account_sid := sid_entry w in
      let auth_token := token_entry w in
      let twilio_phone_number := phone_entry w in
      if falsy account_sid || falsy auth_token || falsy twilio_phone_number then
        emit (ShowError (py "Error") (py "Please enter all Twilio credentials.")) ;;
        ret None
      else
        let message_template := message_entry w in
        if falsy message_template then
          emit (ShowError (py "Error") (py "Please enter the message text.")) ;;
          ret None
        else
          checked <- attempt (authenticate account_sid auth_token) ;;
          match checked with
          | Exc e =>
              emit (ShowError (py "Authentication Error")
                      authentication_error_text) ;;
              log (FailedToAuthenticate e) ;;
              emit (SendButton (py "Sending Failed") (py "red")) ;;
              ret None
          | Ret _ =>
              message_sids <- run opted_out_numbers rows twilio_phone_number
                                message_template sched_workers sched_completed ;;
              ret (Some message_sids)
          end
  end.

End Engine.

Arguments M P A : clear implicits.
Arguments Client P : clear implicits.

(** ** A scripted provider, for concrete runs

    Its state is the number of status fetches answered so far.  A message
    to a number in [rejected] is refused; any other is accepted and gets
    the identifier "SM" followed by the number.  The [k]-th status fetch
    raises when [statuses k] is [None]. *)
Definition scripted (valid_account : pystr) (rejected : list pystr)
    (statuses : nat -> option pystr) : Client nat :=
  {| accounts_fetch := fun account_sid _ p =>
       if pystr_eqb account_sid valid_account then (Ret tt, p)
       else (Exc (py "HTTP 401 error: Unable to fetch record"), p);
     messages_create := fun body from_ to p =>
       if bool_decide (to ∈ rejected)
       then (Exc (py "HTTP 400 error: Unable to create record"), p)
       else (Ret (py "SM" ++ to), p);
     messages_fetch_status := fun message_sid p =>
       match statuses p with
       | Some st => (Ret st, S p)
       | None => (Exc (py "HTTP 503 error"), S p)
       end |}.

Definition sample_widgets : widgets :=
  {| sid_entry := py "AC1"; token_entry := py "secret";
     phone_entry := py "+15550000000"; message_entry := py "Hi {Name}!" |}.

Definition alice := {| Name := py "Alice"; Phone_Number := py "+15551234567" |}.
Definition bob := {| Name := py "Bob"; Phone_Number := py "bad-phone" |}.
Definition carl := {| Name := py "Carl"; Phone_Number := py "+15559876543" |}.

Definition always (st : string) : nat -> option pystr := fun _ => Some (py st).

(** The scenario of the specification: Bob's number is malformed, Carl
    has opted out, every status fetch answers [delivered]. *)
Definition sample_run : result (option (list sid_entry_t)) * nat * list event :=
  send_sms (scripted (py "AC1") [] (always "delivered"))
    (Some [alice; bob; carl]) {[ py "+15559876543" ]} sample_widgets [] [] 0%nat.

(** A number written with Arabic-Indic digits, U+0661 U+0665 U+0665 ... *)
Definition zahra :=
  {| Name := py "Zahra";
     Phone_Number := plus_sign :: [0x661; 0x665; 0x665; 0x665; 0x660; 0x661; 0x669] |}.

(** The statuses of a scripted provider, one per fetch, then an error. *)
Definition script (sts : list pystr) : nat -> option pystr :=
  fun k => nth_error sts k.



(** ** Reading a run *)

Definition value_of {P A} (x : result A * P * list event) : result A := fst (fst x).
Definition state_of {P A} (x : result A * P * list event) : P := snd (fst x).
Definition trace_of {P A} (x : result A * P * list event) : list event := snd x.

Definition logged (t : list event) : list log_record :=
  omap (fun ev => match ev with Logged r => Some r | _ => None end) t.

(** The sends made: [(body, from_, to)] with the provider's answer. *)
Definition creates (t : list event) : list (pystr * pystr * pystr * result pystr) :=
  omap (fun ev => match ev with
                  | Called (MessagesCreate body from_ to) a => Some (body, from_, to, a)
                  | _ => None
                  end) t.

(** The status fetches made: the identifier asked for and the answer. *)
Definition fetches (t : list event) : list (pystr * result pystr) :=
  omap (fun ev => match ev with
                  | Called (MessagesFetch message_sid) a => Some (message_sid, a)
                  | _ => None
                  end) t.

(** The specification's per-recipient outcomes. *)
Inductive SendOutcome :=
| Sent (messageId : pystr)
| SendFailed (reason : pystr)
| SkippedInvalidPhone
| SkippedOptedOut.

Inductive DeliveryOutcome :=
| Delivered
| Failed
| Unknown.

(** The run keeps no report of its own: a recipient's send outcome is the
    record logged for it, under its phone number. *)
Definition send_outcome_of (r : log_record) : option (pystr * SendOutcome) :=
  match r with
  | InvalidPhoneSkipped phone => Some (phone, SkippedInvalidPhone)
  | SkippingOptedOut phone => Some (phone, SkippedOptedOut)
  | MessageSent _ phone sid => Some (phone, Sent sid)
  | FailedToSend _ phone e => Some (phone, SendFailed e)
  | _ => None
  end.

(** A delivery outcome is the record logged by a status check, under the
    name and phone number the check was given.  A check that ended on an
    exception has determined no status. *)
Definition delivery_outcome_of (r : log_record)
  : option (pystr * pystr * DeliveryOutcome) :=
  match r with
  | MessageDelivered name phone => Some (name, phone, Delivered)
  | MessageFailed name phone => Some (name, phone, Failed)
  | StatusUnknown name phone => Some (name, phone, Unknown)
  | FailedToCheck name phone _ => Some (name, phone, Unknown)
  | _ => None
  end.

Definition send_outcomes (t : list event) : list (pystr * SendOutcome) :=
  omap send_outcome_of (logged t).

Definition delivery_outcomes (t : list event) : list (pystr * pystr * DeliveryOutcome) :=
  omap delivery_outcome_of (logged t).

(** The identifiers of the sends that answered with a non-empty one. *)
Definition sent_sids (t : list event) : list pystr :=
  omap (fun c => match c with
                 | (_, Ret (c0 :: sid)) => Some (c0 :: sid)
                 | _ => None
                 end) (creates t).

(** The run got past its checks: it logged that sending started. *)
Definition started (t : list event) : bool :=
  existsb (fun r => match r with SendingStarted => true | _ => false end)
    (logged t).

(** A row that passes both filters of the submission loop. *)
Definition eligible (opted_out_numbers : gset pystr) (r : row) : bool :=
  is_valid_phone_number (Phone_Number r)
  && negb (bool_decide (Phone_Number r ∈ opted_out_numbers)).

(** The terminal statuses of the specification. *)
Definition terminal (status : pystr) : bool :=
  pystr_eqb status (py "delivered") || pystr_eqb status (py "failed")
  || pystr_eqb status (py "undelivered").

(** The answers the provider gives to [n] fetches of [message_sid] in a
    row, starting from state [p]. *)
Fixpoint answers {P} (client : Client P) (n : nat) (message_sid : pystr) (p : P)
  : list (result pystr) :=
  match n with
  | O => []
  | S n' =>
      let '(r, p1) := messages_fetch_status client message_sid p in
      r :: answers client n' message_sid p1
  end.

(** [sep.join(segments)] *)
Fixpoint join (sep : pystr) (segments : list pystr) : pystr :=
  match segments with
  | [] => []
  | [s] => s
  | s :: rest => s ++ sep ++ join sep rest
  end.

(** [old in s] *)
Fixpoint occurs (old s : pystr) : bool :=
  match strip_prefix old s with
  | Some _ => true
  | None => match s with
            | [] => false
            | _ :: s' => occurs old s'
            end
  end.

(** ** What each part of the run is expected to leave behind *)

(** The job the submission loop builds for a row. *)
Definition job_of (message_template : pystr) (r : row) : job :=
  {| job_name := Name r;
     job_phone := Phone_Number r;
     job_body := render message_template (Name r) |}.

(** The record the submission loop logs for a row it skips. *)
Definition skip_record (opted_out_numbers : gset pystr) (r : row)
  : option log_record :=
  if negb (is_valid_phone_number (Phone_Number r))
  then Some (InvalidPhoneSkipped (Phone_Number r))
  else if bool_decide (Phone_Number r ∈ opted_out_numbers)
  then Some (SkippingOptedOut (Phone_Number r))
  else None.

(** The value of the loop variable after iterating [rows]. *)
Definition last_row (row_var : option row) (rows : list row) : option row :=
  match last rows with
  | Some r => Some r
  | None => row_var
  end.

(** What one worker leaves for a job, given the provider's answer. *)
Definition worker_events (twilio_phone_number : pystr) (j : job)
    (answer : result pystr) : list event :=
  [ Called (MessagesCreate (job_body j) twilio_phone_number (job_phone j)) answer;
    Logged (match answer with
            | Ret sid => MessageSent (job_name j) (job_phone j) sid
            | Exc e => FailedToSend (job_name j) (job_phone j) e
            end) ].

(** What [send_single_sms] returns, given the provider's answer. *)
Definition worker_result (answer : result pystr) : option pystr :=
  match answer with
  | Ret sid => Some sid
  | Exc _ => None
  end.

(** The entry appended for a finished future, if any, when the loop
    variable holds [r]. *)
Definition entry_of (r : row) (fut : future) : option sid_entry_t :=
  match snd fut with
  | Ret (Some (c :: sid)) => Some (c :: sid, Name r, Phone_Number r)
  | _ => None
  end.

(** The progress-bar updates of [n] finished futures, from value [v]. *)
Fixpoint progress_events (v n : nat) : list event :=
  match n with
  | O => []
  | S n' => ProgressValue (S v) :: UpdateIdletasks :: progress_events (S v) n'
  end.

(** ** The status poller as the specification words it

    Poll up to [budget] times; [delivered] gives [Delivered] and
    [failed]/[undelivered] give [Failed], at once; any other status polls
    again; an error abandons the polling with [Unknown]; so does an
    exhausted budget.  The second component counts the polls made. *)
Fixpoint poll_spec (budget : nat) (answers : list (result pystr))
  : DeliveryOutcome * nat :=
  match budget, answers with
  | S budget', Ret status :: rest =>
      if pystr_eqb status (py "delivered") then (Delivered, 1%nat)
      else if pystr_eqb status (py "failed") || pystr_eqb status (py "undelivered")
      then (Failed, 1%nat)
      else let '(o, n) := poll_spec budget' rest in (o, S n)
  | S _, Exc _ :: _ => (Unknown, 1%nat)
  | _, _ => (Unknown, 0%nat)
  end.

(** What a status check returns and leaves behind, given the answers the
    provider has in store for its fetches. *)
Fixpoint poll_value (budget : nat) (answers : list (result pystr)) : bool :=
  match budget, answers with
  | S budget', Ret status :: rest =>
      if pystr_eqb status (py "delivered") then true
      else if pystr_eqb status (py "failed") || pystr_eqb status (py "undelivered")
      then false
      else poll_value budget' rest
  | _, _ => false
  end.

Fixpoint poll_events (budget : nat) (message_sid name phone : pystr)
    (answers : list (result pystr)) : list event :=
  match budget, answers with
  | S budget', Ret status :: rest =>
      Called (MessagesFetch message_sid) (Ret status) ::
      (if pystr_eqb status (py "delivered")
       then [Logged (MessageDelivered name phone)]
       else if pystr_eqb status (py "failed") || pystr_eqb status (py "undelivered")
       then [Logged (MessageFailed name phone)]
       else Slept 2 :: poll_events budget' message_sid name phone rest)
  | S _, Exc e :: _ =>
      [Called (MessagesFetch message_sid) (Exc e);
       Logged (FailedToCheck name phone e)]
  | _, _ => [Logged (StatusUnknown name phone)]
  end.

(** The jobs the submission loop submits for [rows], in order. *)
Definition jobs_of (opted_out_numbers : gset pystr) (message_template : pystr)
    (rows : list row) : list job :=
  map (job_of message_template)
    (List.filter (eligible opted_out_numbers) rows).

(** The records the submission loop logs for [rows], in order. *)
Definition skips_of (opted_out_numbers : gset pystr) (rows : list row)
  : list log_record :=
  omap (skip_record opted_out_numbers) rows.

(** The entries appended for the finished futures, in the order they
    finish. *)
Definition entries_of (row_var : option row) (completed : list future)
  : list sid_entry_t :=
  match row_var with
  | Some r => omap (entry_of r) completed
  | None => []
  end.

(** The futures and the trace the pool leaves, given each submitted job
    with the provider's answer to its send. *)
Definition futures_of (answered : list (nat * job * result pystr)) : list future :=
  map (fun x => (fst (fst x), Ret (worker_result (snd x)))) answered.

Definition workers_trace (twilio_phone_number : pystr)
    (answered : list (nat * job * result pystr)) : list event :=
  concat (map (fun x => worker_events twilio_phone_number (snd (fst x)) (snd x))
            answered).

(** The trace of the status checks, given each entry of [message_sids]
    with the answers the provider has in store when its check begins. *)
Definition checks_trace (checked : list (sid_entry_t * list (result pystr)))
  : list event :=
  concat (map (fun x =>
                 let '(message_sid, name, phone) := fst x in
                 poll_events 10 message_sid name phone (snd x)
                 ++ [Printed (if poll_value 10 (snd x)
                              then py "Message sent"
                              else py "Message haven't sent")])
            checked).

(** The trace of a run that got past its checks, from what the pool and
    the status checks met at the provider. *)
Definition run_trace (opted_out_numbers : gset pystr) (rows : list row)
    (twilio_phone_number : pystr)
    (answered : list (nat * job * result pystr))
    (checked : list (sid_entry_t * list (result pystr))) : list event :=
  [Logged SendingStarted; ProgressMaximum (length rows); ProgressValue 0]
  ++ map Logged (skips_of opted_out_numbers rows)
  ++ workers_trace twilio_phone_number answered
  ++ progress_events 0 (length answered)
  ++ checks_trace checked
  ++ [Logged SendingFinished;
      ShowInfo (py "Success") (py "SMS messages processed!");
      SendButton (py "Messages Processed") (py "green")].

(** The send outcome a row gets from the filters, if they skip it. *)
Definition skip_outcome (opted_out_numbers : gset pystr) (r : row)
  : option (pystr * SendOutcome) :=
  skip_record opted_out_numbers r ≫= send_outcome_of.

(** The send outcome that goes with a send and its answer. *)
Definition create_outcome (c : pystr * pystr * pystr * result pystr)
  : pystr * SendOutcome :=
  (snd (fst c),
   match snd c with
   | Ret sid => Sent sid
   | Exc e => SendFailed e
   end).

(** The number a send was addressed to. *)
Definition create_to (c : pystr * pystr * pystr * result pystr) : pystr :=
  snd (fst c).

(** ** The checks before a run *)

Inductive PreflightError :=
| MissingData
| MissingCredentials
| MissingTemplate
| AuthenticationFailure.

(** The error a run reported, read off the error box it showed. *)
Definition error_of_event (ev : event) : option PreflightError :=
  match ev with
  | ShowError title text =>
      if pystr_eqb text (py "Please load customer data first.")
      then Some MissingData
      else if pystr_eqb text (py "Please enter all Twilio credentials.")
      then Some MissingCredentials
      else if pystr_eqb text (py "Please enter the message text.")
      then Some MissingTemplate
      else if pystr_eqb title (py "Authentication Error")
      then Some AuthenticationFailure
      else None
  | _ => None
  end.

Definition reported_error (t : list event) : option PreflightError :=
  head (omap error_of_event t).

(** The checks in the order [send_sms] makes them: data loaded, the three
    credential fields filled, a message text, and the credentials accepted
    by the provider. *)
Definition preflight {P} (client : Client P) (customer_data : option (list row))
    (w : widgets) (p : P) : option PreflightError :=
  match customer_data with
  | None => Some MissingData
  | Some _ =>
      if falsy (sid_entry w) || falsy (token_entry w) || falsy (phone_entry w)
      then Some MissingCredentials
      else if falsy (message_entry w) then Some MissingTemplate
      else match fst (accounts_fetch client (sid_entry w) (token_entry w) p) with
           | Exc _ => Some AuthenticationFailure
           | Ret _ => None
           end
  end.

(** The identifier a finished future carries, when it is a true value. *)
Definition future_sid (fut : future) : option pystr :=
  match snd fut with
  | Ret (Some (c :: sid)) => Some (c :: sid)
  | _ => None
  end.

(** The values the progress bar was set to, in order. *)
Definition progress_values (t : list event) : list nat :=
  omap (fun ev => match ev with ProgressValue v => Some v | _ => None end) t.

(** The error boxes shown, as preflight errors. *)
Definition errors_shown (t : list event) : list PreflightError :=
  omap error_of_event t.

(** One send is refused, the other accepted. *)
Definition rejecting_run : result (option (list sid_entry_t)) * nat * list event :=
  send_sms (scripted (py "AC1") [py "+15551234567"] (always "delivered"))
    (Some [alice; carl]) ∅ sample_widgets [] [] 0%nat.

(** Alice's message is sent, Bob's number is malformed. *)
Definition misattributed_run : result (option (list sid_entry_t)) * nat * list event :=
  send_sms (scripted (py "AC1") [] (always "delivered"))
    (Some [alice; bob]) ∅ sample_widgets [] [] 0%nat.

(** ** More readings of a run *)

(** The calls made on the client, in the order they reach the provider. *)
Definition calls (t : list event) : list call :=
  omap (fun ev => match ev with Called c _ => Some c | _ => None end) t.

(** The waits, in seconds. *)
Definition sleeps (t : list event) : list N :=
  omap (fun ev => match ev with Slept s => Some s | _ => None end) t.

(** The lines printed on the console. *)
Definition printed (t : list event) : list pystr :=
  omap (fun ev => match ev with Printed line => Some line | _ => None end) t.

(** The values [progress["maximum"]] was set to. *)
Definition progress_maxima (t : list event) : list nat :=
  omap (fun ev => match ev with ProgressMaximum n => Some n | _ => None end) t.

(** The call behind an entry of [creates] and of [fetches]. *)
Definition create_call (c : pystr * pystr * pystr * result pystr) : call :=
  MessagesCreate (fst (fst (fst c))) (snd (fst (fst c))) (snd (fst c)).

Definition fetch_call (f : pystr * result pystr) : call := MessagesFetch (fst f).

(** The statuses at the head of the provider's answers that are not
    terminal: those after which a status check goes on. *)
Fixpoint nonterminal_prefix (answers : list (result pystr)) : list pystr :=
  match answers with
  | Ret status :: rest =>
      if terminal status then [] else status :: nonterminal_prefix rest
  | _ => []
  end.

(** The line printed for a delivery outcome. *)
Definition verdict_line (o : DeliveryOutcome) : pystr :=
  match o with
  | Delivered => py "Message sent"
  | _ => py "Message haven't sent"
  end.

(** ** Loading the spreadsheet: [load_customer_data] *)

(** A cell of a frame: text (a Python [str]), or a value of another type,
    given by the name of its type and by the text that [str] and an
    f-string give for it.  Reading a sheet gives text for a cell that
    holds text, numbers for a column of numbers, and [nan] for a blank
    cell. *)
Inductive cell :=
| Text (s : pystr)
| Other (type_name text : pystr).

Definition nan : cell := Other (py "float") (py "nan").

(** What [pd.read_excel] returns: the column names, which it makes
    distinct, and the rows of cells, each cell as the Series that
    [iterrows] yields for its row holds it.  Every row has a cell under
    every column: the cells of a row are listed in the order of the
    columns, and a cell missing at the end of the list is blank. *)
Record frame := {
  columns : list pystr;
  records : list (list cell)
}.

(** What loading does that can be seen from outside. *)
Inductive load_event :=
| LoadButton (text fg_color : pystr)
| LoadUpdateIdletasks
| AskOpenFilename
| ReadExcel (file_path : pystr)
| LoadShowInfo (title text : pystr)
| LoadShowError (title text : pystr)
| LoadLoggedError (message : pystr).

Definition missing_columns_message : pystr :=
  py "The spreadsheet must contain 'Name' and 'Phone Number' columns.".

(** Lines 28-44, the body of the [try].  [chosen] is what the file dialog
    returns (empty when it is cancelled) and [read_excel] what reading a
    path gives; the global [customer_data] is threaded through.  The
    assignment to the global comes before the check of the columns. *)
Definition load_body (chosen : pystr) (read_excel : pystr -> result frame)
    (customer_data : option frame)
  : result (option frame) * option frame * list load_event :=
  let opening :=
    [LoadButton (py "Loading...") (py "orange"); LoadUpdateIdletasks; AskOpenFilename] in
  if falsy chosen then (Ret None, customer_data, opening)
  else
    match read_excel chosen with
    | Exc e => (Exc e, customer_data, opening ++ [ReadExcel chosen])
    | Ret loaded =>
        if negb (bool_decide (py "Name" ∈ columns loaded))
           || negb (bool_decide (py "Phone Number" ∈ columns loaded))
        then (Exc missing_columns_message, Some loaded,
              opening ++ [ReadExcel chosen])
        else (Ret (Some loaded), Some loaded,
              opening ++
              [ReadExcel chosen;
               LoadShowInfo (py "Success") (py "Customer data loaded successfully!");
               LoadButton (py "Data Loaded") (py "green")])
    end.

(** Lines 45-49, the [except] clause. *)
Definition load_failed (e : pystr) : list load_event :=
  [LoadShowError (py "Error") (py "Failed to load data: " ++ e);
   LoadLoggedError (py "Failed to load data: " ++ e);
   LoadButton (py "Load Failed") (py "red")].

(** [load_customer_data]: the value returned, the global afterwards, and
    the events. *)
Definition load_customer_data (chosen : pystr) (read_excel : pystr -> result frame)
    (customer_data : option frame)
  : option frame * option frame * list load_event :=
  match load_body chosen read_excel customer_data with
  | (Ret returned, global, t) => (returned, global, t)
  | (Exc e, global, t) => (None, global, t ++ load_failed e)
  end.

(** What the load button shows once loading is over. *)
Definition button_left (t : list load_event) : option (pystr * pystr) :=
  last (omap (fun ev => match ev with
                        | LoadButton text fg_color => Some (text, fg_color)
                        | _ => None
                        end) t).

(** The boxes shown while loading. *)
Definition load_boxes (t : list load_event) : list load_event :=
  List.filter (fun ev => match ev with
                         | LoadShowInfo _ _ | LoadShowError _ _ => true
                         | _ => false
                         end) t.

(** ** [send_sms] over a loaded frame

    The run as before, on the frame that [load_customer_data] leaves in
    [customer_data]: the accesses [row['Name']] and [row['Phone Number']]
    are made on the Series of the frame, the phone number is the [str] of
    its cell, and the name is given to [str.replace] as its cell holds
    it. *)

(** A row as [iterrows] yields it: a Series indexed by the columns of the
    frame. *)
Record series := {
  index : list pystr;
  cells : list cell
}.

Definition row_at (data : frame) (cs : list cell) : series :=
  {| index := columns data; cells := cs |}.

Definition iterrows (data : frame) : list series :=
  map (row_at data) (records data).

(** The first position of a label in an index. *)
Fixpoint position (key : pystr) (keys : list pystr) : option nat :=
  match keys with
  | [] => None
  | k :: keys' =>
      if bool_decide (key = k) then Some 0%nat
      else option_map S (position key keys')
  end.

(** The cell of a Series under a label, if the label is in its index. *)
Definition cell_of (row : series) (key : pystr) : option cell :=
  option_map (fun i => nth i (cells row) nan) (position key (index row)).

(** [str(c)], and what an f-string gives for [c]. *)
Definition str_of (c : cell) : pystr :=
  match c with
  | Text s => s
  | Other _ text => text
  end.

(** [str(KeyError(key))] *)
Definition key_error (key : pystr) : pystr := [39] ++ key ++ [39].

(** The message of the [TypeError] that [str.replace] raises for a new
    value that is not a [str]. *)
Definition replace_type_error (type_name : pystr) : pystr :=
  py "replace() argument 2 must be str, not " ++ type_name.

(** An entry of [message_sids]: [(message_sid, row['Name'],
    row['Phone Number'])], the last two as the cells hold them. *)
Definition frame_entry_t : Type := pystr * cell * cell.

(** The entry as [check_message_status] formats it in its records. *)
Definition entry_text (e : frame_entry_t) : sid_entry_t :=
  (fst (fst e), str_of (snd (fst e)), str_of (snd e)).

Section FrameEngine.

Context {P : Type}.
Variable client : Client P.

Declare Scope frame_engine_scope.
Notation "x <- m ;; k" := (bind m (fun x => k))
  (at level 20, m at level 99, k at level 200, only parsing) : frame_engine_scope.
Notation "m ;; k" := (bind m (fun _ => k))
  (at level 100, k at level 200, only parsing, right associativity)
  : frame_engine_scope.
Local Open Scope frame_engine_scope.

(** [row[key]] *)
Definition getitem (row : series) (key : pystr) : M P cell :=
  match cell_of row key with
  | Some c => ret c
  | None => raise (key_error key)
  end.

(** [message_template.replace("{Name}", customer_name)] *)
Definition replace_name (message_template : pystr) (customer_name : cell)
  : M P pystr :=
  match customer_name with
  | Text s => ret (render message_template s)
  | Other type_name _ => raise (replace_type_error type_name)
  end.

(** Lines 131-144, the body of the loop for one row: the call it submits
    to the pool, if it submits one. *)
Definition submit_row (opted_out_numbers : gset pystr) (message_template : pystr)
    (row : series) : M P (option job) :=
  customer_name <- getitem row (py "Name") ;;
  phone_cell <- getitem row (py "Phone Number") ;;
  let customer_phone := str_of phone_cell in
  if negb (is_valid_phone_number customer_phone) then
    log (InvalidPhoneSkipped customer_phone) ;;
    ret None
  else if bool_decide (customer_phone ∈ opted_out_numbers) then
    log (SkippingOptedOut customer_phone) ;;
    ret None
  else
    message_body <- replace_name message_template customer_name ;;
    ret (Some {| job_name := str_of customer_name;
                 job_phone := customer_phone;
                 job_body := message_body |}).

(** Lines 128-144.  An exception of the loop's body is raised inside the
    [with] block; the block's exit waits for the calls submitted so far
    before the exception leaves it, so the loop hands back the jobs it has
    submitted together with the exception that stopped it, and
    [run_on_frame] raises it again once the pool is done. *)
Fixpoint submit_loop_on_frame (opted_out_numbers : gset pystr)
    (message_template : pystr) (rows : list series)
    (row_var : option series) (futures : list job)
  : M P (result (option series) * list job) :=
  match rows with
  | [] => ret (Ret row_var, futures)
  | row :: rows' =>
      submitted <- attempt (submit_row opted_out_numbers message_template row) ;;
      match submitted with
      | Exc e => ret (Exc e, futures)
      | Ret None =>
          submit_loop_on_frame opted_out_numbers message_template rows'
            (Some row) futures
      | Ret (Some j) =>
          submit_loop_on_frame opted_out_numbers message_template rows'
            (Some row) (futures ++ [j])
      end
  end.

(** [row[key]] after the loop. *)
Definition read_row_on_frame (row_var : option series) (key : pystr) : M P cell :=
  match row_var with
  | Some row => getitem row key
  | None => raise (py "cannot access local variable 'row'")
  end.

(** Lines 146-151 *)
Fixpoint completed_loop_on_frame (completed : list future)
    (row_var : option series)
    (message_sids : list frame_entry_t) (value : nat) : M P (list frame_entry_t) :=
  match completed with
  | [] => ret message_sids
  | fut :: completed' =>
      message_sid <- reraise (snd fut) ;;
      message_sids' <-
        (if truthy message_sid then
           name <- read_row_on_frame row_var (py "Name") ;;
           phone <- read_row_on_frame row_var (py "Phone Number") ;;
           ret (message_sids ++ [(default [] message_sid, name, phone)])
         else ret message_sids) ;;
      emit (ProgressValue (S value)) ;;
      emit UpdateIdletasks ;;
      completed_loop_on_frame completed' row_var message_sids' (S value)
  end.

(** Lines 120-165.  The status checks format the name and the number of
    an entry in their records, which is all they do with them. *)
Definition run_on_frame (opted_out_numbers : gset pystr) (data : frame)
    (twilio_phone_number message_template : pystr)
    (sched_workers sched_completed : list nat) : M P (list frame_entry_t) :=
  log SendingStarted ;;
  emit (ProgressMaximum (length (records data))) ;;
  emit (ProgressValue 0) ;;
  submitted <- submit_loop_on_frame opted_out_numbers message_template
                 (iterrows data) None [] ;;
  futures <- run_workers client twilio_phone_number
               (as_scheduled sched_workers (enumerate_from 0 (snd submitted))) ;;
  row_var <- reraise (fst submitted) ;;
  message_sids <- completed_loop_on_frame (as_scheduled sched_completed futures)
                    row_var [] 0 ;;
  check_loop client (map entry_text message_sids) ;;
  log SendingFinished ;;
  emit (ShowInfo (py "Success") (py "SMS messages processed!")) ;;
  emit (SendButton (py "Messages Processed") (py "green")) ;;
  ret message_sids.

(** [send_sms], over the global that [load_customer_data] sets. *)
Definition send_sms_on_frame (customer_data : option frame)
    (opted_out_numbers : gset pystr) (w : widgets)
    (sched_workers sched_completed : list nat)
  : M P (option (list frame_entry_t)) :=
  match customer_data with
  | None =>
      emit (ShowError (py "Error") (py "Please load customer data first.")) ;;
      ret None
  | Some data =>
      let account_sid := sid_entry w in
      let auth_token := token_entry w in
      let twilio_phone_number := phone_entry w in
      if falsy account_sid || falsy auth_token || falsy twilio_phone_number then
        emit (ShowError (py "Error") (py "Please enter all Twilio credentials.")) ;;
        ret None
      else
        let message_template := message_entry w in
        if falsy message_template then
          emit (ShowError (py "Error") (py "Please enter the message text.")) ;;
          ret None
        else
          checked <- attempt (authenticate client account_sid auth_token) ;;
          match checked with
          | Exc e =>
              emit (ShowError (py "Authentication Error")
                      authentication_error_text) ;;
              log (FailedToAuthenticate e) ;;
              emit (SendButton (py "Sending Failed") (py "red")) ;;
              ret None
          | Ret _ =>
              message_sids <- run_on_frame opted_out_numbers data
                                twilio_phone_number message_template
                                sched_workers sched_completed ;;
              ret (Some message_sids)
          end
  end.

End FrameEngine.

(** The row of text that a Series stands for: the [str] of its two
    cells. *)
Definition row_of (s : series) : row :=
  {| Name := str_of (default nan (cell_of s (py "Name")));
     Phone_Number := str_of (default nan (cell_of s (py "Phone Number"))) |}.

(** The Series has a cell under [key]. *)
Definition has_cell (key : pystr) (row : series) : bool :=
  match cell_of row key with
  | Some _ => true
  | None => false
  end.

Definition has_cells (row : series) : bool :=
  has_cell (py "Name") row && has_cell (py "Phone Number") row.

(** The name of the row is text. *)
Definition text_name (row : series) : bool :=
  match cell_of row (py "Name") with
  | Some (Text _) => true
  | _ => false
  end.

(** The row can be handled: its name is text, or the row is skipped and
    its name is never put into the message. *)
Definition renders (opted_out_numbers : gset pystr) (row : series) : bool :=
  text_name row || negb (eligible opted_out_numbers (row_of row)).

(** A run over a frame, its entries read as [check_message_status] formats
    them. *)
Definition map_result {A B} (f : A -> B) (r : result A) : result B :=
  match r with
  | Ret a => Ret (f a)
  | Exc e => Exc e
  end.

Definition map_run {P A B} (f : A -> B) (x : result A * P * list event)
  : result B * P * list event :=
  let '(r, p, t) := x in (map_result f r, p, t).


(** Four sheets: one with the required columns and text in its cells, one
    whose first column has another name, one where the second of three
    customers has no name, and one where numbers were typed as plain
    numbers and a row is blank but for its number. *)
Definition good_frame : frame :=
  {| columns := [py "Name"; py "Phone Number"];
     records := [ [Text (py "Alice"); Text (py "+15551234567")];
                  [Text (py "Bob"); Text (py "bad-phone")] ] |}.

Definition bad_frame : frame :=
  {| columns := [py "Customer"; py "Phone Number"];
     records := [ [Text (py "Alice"); Text (py "+15551234567")] ] |}.


Definition numbers_frame : frame :=
  {| columns := [py "Name"; py "Phone Number"];
     records := [ [Text (py "Alice"); Text (py "+15551234567")];
                  [nan; Other (py "int") (py "15559876543")];
                  [Text (py "Dora"); Other (py "int") (py "15550001111")] ] |}.

(** The files of a sample disk. *)
Definition sample_disk (file_path : pystr) : result frame :=
  if pystr_eqb file_path (py "good.xlsx") then Ret good_frame
  else if pystr_eqb file_path (py "bad.xlsx") then Ret bad_frame
  else if pystr_eqb file_path (py "numbers.xlsx") then Ret numbers_frame
  else Exc (py "[Errno 2] No such file or directory").

(** * Properties *)

Arguments py : simpl never.
Arguments pystr_eqb : simpl never.
Arguments placeholder : simpl never.
Arguments render : simpl never.
Arguments is_valid_phone_number : simpl never.


(** ** Strings *)

Lemma strip_prefix_Some (p s rest : pystr) :
  strip_prefix p s = Some rest <-> s = p ++ rest.
Proof.
  revert s. induction p as [|a p IH]; intros s; simpl.
  - split; congruence.
  - destruct s as [|b s]; [split; discriminate|].
    destruct (N.eqb_spec a b) as [->|Hne].
    + rewrite IH. split; congruence.
    + split; [discriminate | congruence].
Qed.

Lemma strip_prefix_app (p rest : pystr) : strip_prefix p (p ++ rest) = Some rest.
Proof. by apply strip_prefix_Some. Qed.

Lemma strip_prefix_None (p s : pystr) :
  strip_prefix p s = None <-> forall rest, s <> p ++ rest.
Proof.
  split.
  - intros H rest Heq. apply strip_prefix_Some in Heq. congruence.
  - intros H. destruct (strip_prefix p s) as [rest|] eqn:E; [|done].
    apply strip_prefix_Some in E. by destruct (H rest).
Qed.

Lemma occurs_true (old s : pystr) :
  occurs old s = true <-> exists a b, s = a ++ old ++ b.
Proof.
  induction s as [|c s IH]; simpl.
  - destruct (strip_prefix old []) as [rest|] eqn:E.
    + apply strip_prefix_Some in E. split; [|done]. intros _. by exists [], rest.
    + split; [discriminate|]. intros (a & b & Heq).
      destruct a; [|discriminate]. simpl in Heq.
      apply strip_prefix_Some in Heq. congruence.
  - destruct (strip_prefix old (c :: s)) as [rest|] eqn:E.
    + apply strip_prefix_Some in E. split; [|done]. intros _. by exists [], rest.
    + rewrite IH. split.
      * intros (a & b & ->). by exists (c :: a), b.
      * intros (a & b & Heq). destruct a as [|c' a].
        -- simpl in Heq. apply strip_prefix_Some in Heq. congruence.
        -- injection Heq as -> ->. by exists a, b.
Qed.

Lemma occurs_false (old s : pystr) :
  occurs old s = false <-> forall a b, s <> a ++ old ++ b.
Proof.
  rewrite <- not_true_iff_false, occurs_true. split.
  - intros H a b Heq. apply H. by exists a, b.
  - intros H (a & b & Heq). by apply (H a b).
Qed.

(** ** Concrete checks *)

Example render_hi_alice : render (py "Hi {Name}!") (py "Alice") = py "Hi Alice!".
Proof. reflexivity. Qed.

Example render_name_is_not_rescanned :
  render (py "{Name}{Name}") (py "{Name}") = py "{Name}{Name}".
Proof. reflexivity. Qed.

Example valid_e164 : is_valid_phone_number (py "+15551234567") = true.
Proof. reflexivity. Qed.

Example invalid_bad_phone : is_valid_phone_number (py "bad-phone") = false.
Proof. reflexivity. Qed.

Example invalid_without_plus : is_valid_phone_number (py "15551234567") = false.
Proof. reflexivity. Qed.

Example valid_with_final_newline :
  is_valid_phone_number (py "+15551234567" ++ [newline]) = true
  /\ matches_spec_regex (py "+15551234567" ++ [newline]) = true.
Proof. split; reflexivity. Qed.

Example valid_arabic_indic_digits :
  is_valid_phone_number (Phone_Number zahra) = true
  /\ matches_spec_regex (Phone_Number zahra) = false.
Proof. split; reflexivity. Qed.

(** ** The phone pattern *)

Lemma span_spec (digit : char -> bool) (s ds tl : pystr) :
  span digit s = (ds, tl) <->
  s = ds ++ tl /\ Forall (fun c => digit c = true) ds /\
  match tl with [] => True | c :: _ => digit c = false end.
Proof.
  revert ds tl. induction s as [|c s IH]; intros ds tl; cbn [span].
  - split.
    + intros [= <- <-]. by split_and!.
    + intros (Heq & _ & _). symmetry in Heq.
      apply app_eq_nil in Heq as [-> ->]. done.
  - destruct (digit c) eqn:Hc.
    + split.
      * intros Heq. destruct (span digit s) as [ds' tl'] eqn:Hspan.
        injection Heq as <- <-.
        destruct (proj1 (IH ds' tl') eq_refl) as (-> & Hds & Htl).
        split_and!; [done|by constructor|done].
      * intros (Heq & Hds & Htl). destruct ds as [|d ds].
        -- cbn in Heq. subst tl. congruence.
        -- injection Heq as <- ->. apply Forall_cons in Hds as [_ Hds].
           by rewrite (proj2 (IH ds tl)).
    + split.
      * intros [= <- <-]. by split_and!.
      * intros (Heq & Hds & Htl). destruct ds as [|d ds].
        -- cbn in Heq. by subst tl.
        -- injection Heq as <- ->. apply Forall_cons in Hds as [Hd _]. congruence.
Qed.

(** What the pattern accepts: a plus sign, one or more digits of the
    class, and nothing more but, possibly, one final newline. *)
Lemma re_match_plus_digits_spec (digit : char -> bool) (phone : pystr) :
  digit newline = false ->
  re_match_plus_digits digit phone = true <->
  exists ds, ds <> [] /\ Forall (fun c => digit c = true) ds /\
             (phone = plus_sign :: ds \/ phone = plus_sign :: ds ++ [newline]).
Proof.
  intros Hnl. unfold re_match_plus_digits. destruct phone as [|c rest].
  { split; [done|]. by intros (ds & _ & _ & [?|?]). }
  destruct (span digit rest) as [ds tl] eqn:Hspan.
  apply span_spec in Hspan as (-> & Hds & Htl).
  rewrite !andb_true_iff, N.eqb_eq, negb_true_iff, Nat.eqb_neq. split.
  - intros (-> & Hlen & Hdollar). exists ds. split_and!; [by destruct ds|done|].
    destruct tl as [|c' [|c'' tl]]; cbn in Hdollar; [|apply N.eqb_eq in Hdollar|done].
    + left. by rewrite app_nil_r.
    + right. by subst c'.
    - intros (ds' & Hne & Hds' & Hphone).
      assert (forall tl', match tl' with [] => True | c' :: _ => digit c' = false end ->
                          ds ++ tl = ds' ++ tl' -> ds = ds' /\ tl = tl') as Huniq.
      { intros tl' Htl' Heq.
        assert (span digit (ds ++ tl) = (ds, tl)) as H1 by (by apply span_spec).
        assert (span digit (ds ++ tl) = (ds', tl')) as H2
            by (rewrite Heq; by apply span_spec).
        rewrite H1 in H2. by injection H2. }
      destruct Hphone as [[= -> Heq] | [= -> Heq]].
      + destruct (Huniq [] I) as [-> ->]; [by rewrite app_nil_r|].
        split_and!; [done|by destruct ds'|done].
      + destruct (Huniq [newline] Hnl Heq) as [-> ->].
        split_and!; [done|by destruct ds'|done].
Qed.

Lemma ascii_digit_decimal (c : char) :
  is_ascii_digit c = true -> is_decimal c = true.
Proof.
  unfold is_ascii_digit, is_decimal. rewrite andb_true_iff, !N.leb_le.
  intros [Hlo Hhi]. cbn [decimal_runs existsb]. apply orb_true_iff. left.
  unfold in_run. rewrite andb_true_iff, N.leb_le, N.ltb_lt. lia.
Qed.

(** Every number the specification's expression accepts is accepted by
    the code's; the converse fails on the decimal digits outside ASCII. *)
Lemma spec_regex_valid (phone : pystr) :
  matches_spec_regex phone = true -> is_valid_phone_number phone = true.
Proof.
  unfold matches_spec_regex, is_valid_phone_number.
  rewrite !re_match_plus_digits_spec by done.
  intros (ds & Hne & Hds & Hphone). exists ds. split_and!; [done| |done].
  eapply Forall_impl; [exact Hds|]. apply ascii_digit_decimal.
Qed.

(** ** [str.replace] *)

Lemma replace_scan_nil (fuel : nat) (old new : pystr) :
  replace_scan fuel old new [] = [].
Proof. by destruct fuel. Qed.

(** Fuel beyond the length of the string changes nothing: the scan is
    over when the string is. *)
Lemma replace_scan_fuel (old new : pystr) (n m : nat) (s : pystr) :
  old <> [] -> (length s <= n)%nat -> (length s <= m)%nat ->
  replace_scan n old new s = replace_scan m old new s.
Proof.
  intros Hold. revert m s. induction n as [|n IH]; intros m s Hn Hm.
  - destruct s; [|simpl in Hn; lia]. by rewrite !replace_scan_nil.
  - destruct s as [|c s]; [by rewrite !replace_scan_nil|].
    destruct m as [|m]; [simpl in Hm; lia|].
    simpl in Hn, Hm. cbn [replace_scan].
    destruct (strip_prefix old (c :: s)) as [rest|] eqn:E.
    + apply strip_prefix_Some in E.
      assert (length rest < length (c :: s))%nat as Hlen.
      { rewrite E, length_app. destruct old; [done|]. simpl. lia. }
      simpl in Hlen. f_equal. apply IH; lia.
    + f_equal. apply IH; lia.
Qed.

Lemma replace_unfold (old new s : pystr) :
  old <> [] -> replace old new s = replace_scan (length s) old new s.
Proof. by destruct old. Qed.

Lemma replace_scan_cons (fuel : nat) (old new : pystr) (c : char) (s : pystr) :
  replace_scan (S fuel) old new (c :: s) =
  match strip_prefix old (c :: s) with
  | Some rest => new ++ replace_scan fuel old new rest
  | None => c :: replace_scan fuel old new s
  end.
Proof. reflexivity. Qed.

Lemma replace_nil (old new : pystr) : old <> [] -> replace old new [] = [].
Proof. by destruct old. Qed.

Lemma replace_occurrence (old new rest : pystr) :
  old <> [] -> replace old new (old ++ rest) = new ++ replace old new rest.
Proof.
  intros Hold. rewrite !replace_unfold by done.
  pose proof (strip_prefix_app old rest) as E.
  destruct (old ++ rest) as [|c s] eqn:Es; [by destruct old|].
  cbn [length]. rewrite replace_scan_cons, E. f_equal.
  apply replace_scan_fuel; [done| |done].
  apply (f_equal length) in Es. rewrite length_app in Es.
  destruct old; [done|]. simpl in Es. lia.
Qed.

Lemma replace_copy (old new : pystr) (c : char) (s : pystr) :
  old <> [] -> strip_prefix old (c :: s) = None ->
  replace old new (c :: s) = c :: replace old new s.
Proof.
  intros Hold E. rewrite !replace_unfold by done.
  cbn [length]. by rewrite replace_scan_cons, E.
Qed.

(** A string without any occurrence of [old] is returned as it is. *)
Lemma replace_verbatim (old new s : pystr) :
  old <> [] -> occurs old s = false -> replace old new s = s.
Proof.
  intros Hold. induction s as [|c s IH]; intros Hocc.
  - by apply replace_nil.
  - simpl in Hocc.
    destruct (strip_prefix old (c :: s)) eqn:E; [done|].
    rewrite replace_copy by done. f_equal. by apply IH.
Qed.

Lemma placeholder_chars : placeholder = [123; 78; 97; 109; 101; 125].
Proof. reflexivity. Qed.

Lemma placeholder_nonempty : placeholder <> [].
Proof. by rewrite placeholder_chars. Qed.

(** ["{Name}"] overlaps no shifted copy of itself: an occurrence cannot
    start inside a segment that is free of it and run into the occurrence
    that follows the segment. *)
Lemma placeholder_no_overlap (c : char) (s rest : pystr) :
  occurs placeholder (c :: s) = false ->
  strip_prefix placeholder ((c :: s) ++ placeholder ++ rest) = None.
Proof.
  intros Hocc. apply strip_prefix_None. intros r Heq.
  rewrite occurs_false in Hocc.
  apply app_eq_inv in Heq as [(k & Hs & _) | (k & Hp & Hk)].
  - apply (Hocc [] k). by rewrite Hs.
  - rewrite placeholder_chars in Hp, Hk, Hocc.
    destruct s as [|c2 [|c3 [|c4 [|c5 [|c6 [|c7 s]]]]]];
      cbn [app] in Hp, Hk; simplify_eq.
    by apply (Hocc [] []).
Qed.

Lemma render_segment (name s rest : pystr) :
  occurs placeholder s = false ->
  render (s ++ placeholder ++ rest) name = s ++ name ++ render rest name.
Proof.
  unfold render. induction s as [|c s IH]; intros Hocc.
  - cbn [app]. apply replace_occurrence, placeholder_nonempty.
  - rewrite <- !app_comm_cons, replace_copy.
    + f_equal. apply IH.
      cbn [occurs] in Hocc. by destruct (strip_prefix placeholder (c :: s)).
    + apply placeholder_nonempty.
    + by apply (placeholder_no_overlap c s rest).
Qed.

Lemma render_join (name : pystr) (segments : list pystr) :
  Forall (fun s => occurs placeholder s = false) segments ->
  render (join placeholder segments) name = join name segments.
Proof.
  induction 1 as [|s segments Hs _ IH]; [done|].
  destruct segments as [|s' segments].
  - cbn [join]. by apply replace_verbatim; [apply placeholder_nonempty|].
  - change (join placeholder (s :: s' :: segments))
      with (s ++ placeholder ++ join placeholder (s' :: segments)).
    rewrite render_segment by done. by rewrite IH.
Qed.

(** ** Lists *)

Lemma filter_partition {A} (f : A -> bool) (l : list A) :
  List.filter f l ++ List.filter (fun x => negb (f x)) l ≡ₚ l.
Proof.
  induction l as [|x l IH]; [done|]. cbn [List.filter].
  destruct (f x); cbn [negb app].
  - by rewrite IH.
  - by rewrite <- Permutation_middle, IH.
Qed.

Lemma filter_length_le {A} (f : A -> bool) (l : list A) :
  (length (List.filter f l) <= length l)%nat.
Proof.
  induction l as [|x l IH]; [done|]. cbn [List.filter].
  destruct (f x); cbn [length]; lia.
Qed.

Lemma omap_length_le {A B} (f : A -> option B) (l : list A) :
  (length (omap f l) <= length l)%nat.
Proof.
  induction l as [|x l IH]; [done|]. cbn [omap list_omap].
  destruct (f x); cbn [length]; [|etrans; [exact IH|]]; lia.
Qed.

(** ** Reading traces *)

Lemma logged_app (t1 t2 : list event) : logged (t1 ++ t2) = logged t1 ++ logged t2.
Proof. apply omap_app. Qed.

Lemma creates_app (t1 t2 : list event) : creates (t1 ++ t2) = creates t1 ++ creates t2.
Proof. apply omap_app. Qed.

Lemma fetches_app (t1 t2 : list event) : fetches (t1 ++ t2) = fetches t1 ++ fetches t2.
Proof. apply omap_app. Qed.

Lemma send_outcomes_app (t1 t2 : list event) :
  send_outcomes (t1 ++ t2) = send_outcomes t1 ++ send_outcomes t2.
Proof. unfold send_outcomes. by rewrite logged_app, omap_app. Qed.

Lemma delivery_outcomes_app (t1 t2 : list event) :
  delivery_outcomes (t1 ++ t2) = delivery_outcomes t1 ++ delivery_outcomes t2.
Proof. unfold delivery_outcomes. by rewrite logged_app, omap_app. Qed.

Lemma sent_sids_app (t1 t2 : list event) :
  sent_sids (t1 ++ t2) = sent_sids t1 ++ sent_sids t2.
Proof. unfold sent_sids. by rewrite creates_app, omap_app. Qed.

Lemma started_app (t1 t2 : list event) :
  started (t1 ++ t2) = started t1 || started t2.
Proof. unfold started. by rewrite logged_app, existsb_app. Qed.

Lemma logged_map_Logged (l : list log_record) : logged (map Logged l) = l.
Proof. induction l as [|r l IH]; [done|]. cbn. f_equal. exact IH. Qed.

Lemma creates_map_Logged (l : list log_record) : creates (map Logged l) = [].
Proof. by induction l. Qed.

Lemma fetches_map_Logged (l : list log_record) : fetches (map Logged l) = [].
Proof. by induction l. Qed.

Lemma logged_progress (v n : nat) : logged (progress_events v n) = [].
Proof. revert v. induction n as [|n IH]; intros v; [done|]. cbn. apply IH. Qed.

Lemma creates_progress (v n : nat) : creates (progress_events v n) = [].
Proof. revert v. induction n as [|n IH]; intros v; [done|]. cbn. apply IH. Qed.

Lemma fetches_progress (v n : nat) : fetches (progress_events v n) = [].
Proof. revert v. induction n as [|n IH]; intros v; [done|]. cbn. apply IH. Qed.

(** *** What the pool leaves *)

Lemma creates_workers (from_ : pystr) (answered : list (nat * job * result pystr)) :
  creates (workers_trace from_ answered)
  = map (fun x => (job_body (snd (fst x)), from_, job_phone (snd (fst x)), snd x))
      answered.
Proof.
  unfold workers_trace. induction answered as [|x answered IH]; [done|].
  cbn [map concat]. by rewrite creates_app, IH.
Qed.

Lemma fetches_workers (from_ : pystr) (answered : list (nat * job * result pystr)) :
  fetches (workers_trace from_ answered) = [].
Proof.
  unfold workers_trace. induction answered as [|x answered IH]; [done|].
  cbn [map concat]. by rewrite fetches_app, IH.
Qed.

Lemma send_outcomes_workers (from_ : pystr) (answered : list (nat * job * result pystr)) :
  send_outcomes (workers_trace from_ answered)
  = map create_outcome (creates (workers_trace from_ answered)).
Proof.
  unfold workers_trace. induction answered as [|[[i j] a] answered IH]; [done|].
  cbn [map concat]. rewrite send_outcomes_app, creates_app, map_app, IH.
  f_equal. by destruct a.
Qed.

Lemma delivery_outcomes_workers (from_ : pystr)
    (answered : list (nat * job * result pystr)) :
  delivery_outcomes (workers_trace from_ answered) = [].
Proof.
  unfold workers_trace. induction answered as [|[[i j] a] answered IH]; [done|].
  cbn [map concat]. rewrite delivery_outcomes_app, IH. by destruct a.
Qed.

Lemma started_workers (from_ : pystr) (answered : list (nat * job * result pystr)) :
  started (workers_trace from_ answered) = false.
Proof.
  unfold workers_trace. induction answered as [|[[i j] a] answered IH]; [done|].
  cbn [map concat]. rewrite started_app, IH. by destruct a.
Qed.

(** ** The poller against the specification's wording *)

Lemma terminal_false (status : pystr) :
  terminal status = false ->
  pystr_eqb status (py "delivered") = false /\
  pystr_eqb status (py "failed") || pystr_eqb status (py "undelivered") = false.
Proof.
  unfold terminal. rewrite <- orb_assoc. intros H.
  by apply orb_false_elim in H.
Qed.

(** While the statuses fetched are not terminal, the check fetches, sleeps
    two seconds and goes on with one attempt less. *)
Lemma poll_events_pending (n : nat) (message_sid name phone : pystr)
    (pending : list pystr) (tail : list (result pystr)) :
  Forall (fun status => terminal status = false) pending ->
  (length pending <= n)%nat ->
  poll_events n message_sid name phone (map Ret pending ++ tail) =
  concat (map (fun status => [Called (MessagesFetch message_sid) (Ret status); Slept 2])
            pending)
  ++ poll_events (n - length pending) message_sid name phone tail.
Proof.
  intros Hpending. revert n.
  induction Hpending as [|status pending Hst _ IH]; intros n Hn.
  - cbn. by rewrite Nat.sub_0_r.
  - destruct n as [|n]; [cbn in Hn; lia|].
    apply terminal_false in Hst as [Hd Hf].
    cbn [map app poll_events length concat]. rewrite Hd, Hf.
    cbn [Nat.sub]. rewrite IH by (cbn in Hn; lia). done.
Qed.

Lemma poll_value_pending (n : nat) (pending : list pystr) (tail : list (result pystr)) :
  Forall (fun status => terminal status = false) pending ->
  (length pending <= n)%nat ->
  poll_value n (map Ret pending ++ tail) = poll_value (n - length pending) tail.
Proof.
  intros Hpending. revert n.
  induction Hpending as [|status pending Hst _ IH]; intros n Hn.
  - cbn. by rewrite Nat.sub_0_r.
  - destruct n as [|n]; [cbn in Hn; lia|].
    apply terminal_false in Hst as [Hd Hf].
    cbn [map app poll_value length]. rewrite Hd, Hf.
    cbn [Nat.sub]. apply IH. cbn in Hn; lia.
Qed.

Lemma poll_spec_pending (n : nat) (pending : list pystr) (tail : list (result pystr)) :
  Forall (fun status => terminal status = false) pending ->
  (length pending <= n)%nat ->
  poll_spec n (map Ret pending ++ tail) =
  (fst (poll_spec (n - length pending) tail),
   (length pending + snd (poll_spec (n - length pending) tail))%nat).
Proof.
  intros Hpending. revert n.
  induction Hpending as [|status pending Hst _ IH]; intros n Hn.
  - cbn. rewrite Nat.sub_0_r. by destruct (poll_spec n tail).
  - destruct n as [|n]; [cbn in Hn; lia|].
    apply terminal_false in Hst as [Hd Hf].
    cbn [map app poll_spec length]. rewrite Hd, Hf.
    cbn [Nat.sub]. rewrite IH by (cbn in Hn; lia). done.
Qed.

Lemma fetches_pending (message_sid : pystr) (pending : list pystr) :
  fetches (concat (map (fun status =>
                          [Called (MessagesFetch message_sid) (Ret status); Slept 2])
                     pending))
  = map (fun status => (message_sid, Ret status)) pending.
Proof. induction pending as [|status pending IH]; [done|]. cbn. by f_equal. Qed.

Lemma logged_pending (message_sid : pystr) (pending : list pystr) :
  logged (concat (map (fun status =>
                         [Called (MessagesFetch message_sid) (Ret status); Slept 2])
                    pending)) = [].
Proof. induction pending as [|status pending IH]; [done|]. by cbn. Qed.

(** The check does what the specification's poller does: the same
    outcome, as many fetches, the boolean telling [Delivered] apart. *)
Lemma poll_events_refine (n : nat) (message_sid name phone : pystr)
    (answers : list (result pystr)) :
  delivery_outcomes (poll_events n message_sid name phone answers)
    = [(name, phone, fst (poll_spec n answers))]
  /\ fetches (poll_events n message_sid name phone answers)
    = map (fun a => (message_sid, a)) (take (snd (poll_spec n answers)) answers)
  /\ poll_value n answers
    = match fst (poll_spec n answers) with Delivered => true | _ => false end
  /\ (snd (poll_spec n answers) <= n)%nat.
Proof.
  revert answers. induction n as [|n IH]; intros answers.
  - cbn. split_and!; [done|by rewrite take_0|done|lia].
  - destruct answers as [|[status|e] rest].
    + cbn. split_and!; [done|done|done|lia].
    + destruct (IH rest) as (IHo & IHf & IHv & IHn).
      cbn [poll_events poll_spec poll_value].
      destruct (pystr_eqb status (py "delivered"));
        [cbn; split_and!; [done|done|done|lia]|].
      destruct (pystr_eqb status (py "failed") || pystr_eqb status (py "undelivered"));
        [cbn; split_and!; [done|done|done|lia]|].
      destruct (poll_spec n rest) as [o k] eqn:E. cbn [fst snd] in *.
      split_and!; [| |done|lia].
      * change (Called (MessagesFetch message_sid) (Ret status) :: Slept 2 ::
                poll_events n message_sid name phone rest)
          with ([Called (MessagesFetch message_sid) (Ret status); Slept 2] ++
                poll_events n message_sid name phone rest).
        by rewrite delivery_outcomes_app, IHo.
      * change (Called (MessagesFetch message_sid) (Ret status) :: Slept 2 ::
                poll_events n message_sid name phone rest)
          with ([Called (MessagesFetch message_sid) (Ret status); Slept 2] ++
                poll_events n message_sid name phone rest).
        rewrite fetches_app, IHf. done.
    + cbn. split_and!; [done|done|done|lia].
Qed.

(** ** Completion order *)

(** Whatever the schedule, every pending item comes out, once. *)
Lemma as_scheduled_perm {A} (sched : list nat) (pending : list A) :
  as_scheduled sched pending ≡ₚ pending.
Proof.
  revert pending. induction sched as [|i sched IH]; intros pending; [done|].
  cbn [as_scheduled].
  destruct (pending !! (i mod length pending)%nat) as [x|] eqn:E.
  - rewrite IH. symmetry. by apply delete_Permutation.
  - apply lookup_ge_None in E. destruct pending as [|y pending]; [done|].
    pose proof (Nat.mod_upper_bound i (length (y :: pending))) as Hlt.
    cbn [length] in *. lia.
Qed.

(** And every order is some schedule's. *)
Lemma as_scheduled_any_order {A} (pending order : list A) :
  pending ≡ₚ order -> exists sched, as_scheduled sched pending = order.
Proof.
  revert pending. induction order as [|x order IH]; intros pending Hperm.
  - exists []. by apply Permutation_nil_r in Hperm.
  - assert (x ∈ pending) as Hx by (rewrite Hperm; apply list_elem_of_here).
    apply list_elem_of_lookup in Hx as [i Hi].
    pose proof (lookup_lt_Some _ _ _ Hi) as Hlt.
    destruct (IH (delete i pending)) as [sched Hsched].
    { apply (Permutation_cons_inv (a := x)).
      by rewrite <- (delete_Permutation pending i x). }
    exists (i :: sched). cbn [as_scheduled].
    rewrite Nat.mod_small by done. by rewrite Hi, Hsched.
Qed.

Lemma as_scheduled_length {A} (sched : list nat) (pending : list A) :
  length (as_scheduled sched pending) = length pending.
Proof. apply Permutation_length, as_scheduled_perm. Qed.

Lemma as_scheduled_nil {A} (sched : list nat) :
  as_scheduled sched (@nil A) = [].
Proof.
  apply Permutation_nil_r, as_scheduled_perm.
Qed.

Lemma enumerate_from_snd {A} (n : nat) (l : list A) :
  map snd (enumerate_from n l) = l.
Proof. revert n. induction l as [|x l IH]; intros n; [done|]. cbn. by rewrite IH. Qed.

(** *** What the status checks leave *)

Lemma poll_events_quiet (n : nat) (message_sid name phone : pystr)
    (answers : list (result pystr)) :
  creates (poll_events n message_sid name phone answers) = []
  /\ send_outcomes (poll_events n message_sid name phone answers) = []
  /\ started (poll_events n message_sid name phone answers) = false.
Proof.
  revert answers. induction n as [|n IH]; intros answers; [done|].
  destruct answers as [|[status|e] rest]; [done| |done].
  destruct (IH rest) as (IHc & IHs & IHl).
  cbn [poll_events].
  destruct (pystr_eqb status (py "delivered")); [done|].
  by destruct (pystr_eqb status (py "failed") || pystr_eqb status (py "undelivered")).
Qed.

Lemma fetches_poll_events_sid (n : nat) (message_sid name phone : pystr)
    (answers : list (result pystr)) (f : pystr * result pystr) :
  f ∈ fetches (poll_events n message_sid name phone answers) -> fst f = message_sid.
Proof.
  destruct (poll_events_refine n message_sid name phone answers) as (_ & -> & _).
  intros Hf. apply list_elem_of_fmap in Hf as (a & -> & _). done.
Qed.

Lemma creates_checks (checked : list (sid_entry_t * list (result pystr))) :
  creates (checks_trace checked) = [].
Proof.
  unfold checks_trace. induction checked as [|[[[sid name] phone] ans] checked IH];
    [done|].
  cbn [map concat fst snd]. rewrite !creates_app, IH.
  by destruct (poll_events_quiet 10 sid name phone ans) as (-> & _).
Qed.

Lemma send_outcomes_checks (checked : list (sid_entry_t * list (result pystr))) :
  send_outcomes (checks_trace checked) = [].
Proof.
  unfold checks_trace. induction checked as [|[[[sid name] phone] ans] checked IH];
    [done|].
  cbn [map concat fst snd]. rewrite !send_outcomes_app, IH.
  by destruct (poll_events_quiet 10 sid name phone ans) as (_ & -> & _).
Qed.

Lemma started_checks (checked : list (sid_entry_t * list (result pystr))) :
  started (checks_trace checked) = false.
Proof.
  unfold checks_trace. induction checked as [|[[[sid name] phone] ans] checked IH];
    [done|].
  cbn [map concat fst snd]. rewrite !started_app, IH.
  by destruct (poll_events_quiet 10 sid name phone ans) as (_ & _ & ->).
Qed.

(** One delivery outcome per entry of [message_sids], under the name and
    phone number recorded in the entry. *)
Lemma delivery_outcomes_checks (checked : list (sid_entry_t * list (result pystr))) :
  delivery_outcomes (checks_trace checked)
  = map (fun x => (snd (fst (fst x)), snd (fst x), fst (poll_spec 10 (snd x))))
      checked.
Proof.
  unfold checks_trace. induction checked as [|[[[sid name] phone] ans] checked IH];
    [done|].
  cbn [map concat fst snd]. rewrite !delivery_outcomes_app, IH.
  destruct (poll_events_refine 10 sid name phone ans) as (-> & _).
  by destruct (poll_value 10 ans).
Qed.

(** Every status fetch asks for an identifier recorded in [message_sids]. *)
Lemma fetches_checks (checked : list (sid_entry_t * list (result pystr)))
    (f : pystr * result pystr) :
  f ∈ fetches (checks_trace checked) ->
  fst f ∈ map (fun x => fst (fst (fst x))) checked.
Proof.
  unfold checks_trace. induction checked as [|[[[sid name] phone] ans] checked IH];
    [by intros ?%elem_of_nil|].
  cbn [map concat fst snd]. rewrite !fetches_app, !elem_of_app.
  intros [[Hf|Hf]|Hf].
  - apply fetches_poll_events_sid in Hf. rewrite Hf. apply list_elem_of_here.
  - exfalso. destruct (poll_value 10 ans); by apply elem_of_nil in Hf.
  - apply list_elem_of_further. by apply IH.
Qed.

(** *** What the submission loop leaves *)

Lemma skip_record_kind (opted_out_numbers : gset pystr) (r : row) (rec : log_record) :
  skip_record opted_out_numbers r = Some rec ->
  rec = InvalidPhoneSkipped (Phone_Number r) \/ rec = SkippingOptedOut (Phone_Number r).
Proof.
  unfold skip_record.
  destruct (negb (is_valid_phone_number (Phone_Number r))); [left; congruence|].
  destruct (bool_decide (Phone_Number r ∈ opted_out_numbers));
    [right; congruence | discriminate].
Qed.

Lemma send_outcomes_skips (opted_out_numbers : gset pystr) (rows : list row) :
  send_outcomes (map Logged (skips_of opted_out_numbers rows))
  = omap (skip_outcome opted_out_numbers) rows.
Proof.
  unfold send_outcomes, skips_of, skip_outcome. rewrite logged_map_Logged.
  induction rows as [|r rows IH]; [done|].
  cbn [omap list_omap]. destruct (skip_record opted_out_numbers r) as [rec|] eqn:E.
  - apply skip_record_kind in E as [-> | ->]; cbn; f_equal; exact IH.
  - cbn. exact IH.
Qed.

Lemma skips_quiet (opted_out_numbers : gset pystr) (rows : list row) :
  delivery_outcomes (map Logged (skips_of opted_out_numbers rows)) = []
  /\ started (map Logged (skips_of opted_out_numbers rows)) = false.
Proof.
  unfold delivery_outcomes, started, skips_of. rewrite logged_map_Logged.
  induction rows as [|r rows [IH1 IH2]]; [done|].
  cbn [omap list_omap]. destruct (skip_record opted_out_numbers r) as [rec|] eqn:E.
  - apply skip_record_kind in E as [-> | ->]; by split.
  - by split.
Qed.

(** *** What a run leaves *)

Section RunTrace.

Variables (opted_out_numbers : gset pystr) (rows : list row) (from_ : pystr)
  (answered : list (nat * job * result pystr))
  (checked : list (sid_entry_t * list (result pystr))).

Local Abbreviation t := (run_trace opted_out_numbers rows from_ answered checked).

Lemma creates_run : creates t = creates (workers_trace from_ answered).
Proof.
  unfold run_trace. rewrite !creates_app, creates_map_Logged,
    creates_progress, creates_checks. cbn. by rewrite app_nil_r.
Qed.

Lemma fetches_run : fetches t = fetches (checks_trace checked).
Proof.
  unfold run_trace. rewrite !fetches_app, fetches_map_Logged,
    fetches_workers, fetches_progress. cbn. by rewrite app_nil_r.
Qed.

Lemma send_outcomes_run :
  send_outcomes t
  = omap (skip_outcome opted_out_numbers) rows ++ map create_outcome (creates t).
Proof.
  rewrite creates_run. unfold run_trace.
  rewrite !send_outcomes_app, send_outcomes_skips, send_outcomes_workers,
    send_outcomes_checks.
  unfold send_outcomes at 2. rewrite logged_progress. cbn. by rewrite app_nil_r.
Qed.

Lemma delivery_outcomes_run :
  delivery_outcomes t
  = map (fun x => (snd (fst (fst x)), snd (fst x), fst (poll_spec 10 (snd x))))
      checked.
Proof.
  unfold run_trace.
  rewrite !delivery_outcomes_app, delivery_outcomes_workers,
    delivery_outcomes_checks.
  destruct (skips_quiet opted_out_numbers rows) as [-> _].
  unfold delivery_outcomes at 2. rewrite logged_progress. cbn. by rewrite app_nil_r.
Qed.

Lemma started_run : started t = true.
Proof. done. Qed.

End RunTrace.

(** ** The effect monad *)

Section EngineFacts.

Context {P : Type} (client : Client P).

Lemma bind_run {A B} (m : M P A) (k : A -> M P B) (p : P) :
  bind m k p =
  match m p with
  | (Ret a, p1, t1) => let '(r, p2, t2) := k a p1 in (r, p2, t1 ++ t2)
  | (Exc e, p1, t1) => (Exc e, p1, t1)
  end.
Proof. reflexivity. Qed.

Lemma bind_emit_run {B} (ev : event) (k : M P B) (p : P) :
  bind (emit ev) (fun _ => k) p =
  let '(r, p2, t2) := k p in (r, p2, ev :: t2).
Proof. reflexivity. Qed.

Lemma bind_log_run {B} (r : log_record) (k : M P B) (p : P) :
  bind (log r) (fun _ => k) p =
  let '(v, p2, t2) := k p in (v, p2, Logged r :: t2).
Proof. reflexivity. Qed.

(** ** [send_single_sms]: the exception of a send stays in the call *)

Lemma send_single_sms_run (twilio_phone_number name phone body : pystr) (p : P) :
  send_single_sms client twilio_phone_number name phone body p =
  let '(a, p1) := messages_create client body twilio_phone_number phone p in
  (Ret (worker_result a), p1,
   worker_events twilio_phone_number
     {| job_name := name; job_phone := phone; job_body := body |} a).
Proof.
  unfold send_single_sms, try_except, bind, create_message, log, emit, ret.
  by destruct (messages_create client body twilio_phone_number phone p) as [[sid|e] p1].
Qed.

(** ** [check_message_status] *)

Lemma answers_length (n : nat) (message_sid : pystr) (p : P) :
  length (answers client n message_sid p) = n.
Proof.
  revert p. induction n as [|n IH]; intros p; [done|].
  cbn [answers]. destruct (messages_fetch_status client message_sid p).
  cbn [length]. by rewrite IH.
Qed.

(** The loop with its handler: whatever the provider answers, the check
    returns a boolean and its trace is the one the answers determine. *)
Lemma status_loop_run (n : nat) (message_sid name phone : pystr) (p : P) :
  exists p',
    try_except (status_loop client n message_sid name phone)
      (fun e => bind (log (FailedToCheck name phone e)) (fun _ => ret false)) p
    = (Ret (poll_value n (answers client n message_sid p)), p',
       poll_events n message_sid name phone (answers client n message_sid p)).
Proof.
  revert p. induction n as [|n IH]; intros p.
  - exists p. reflexivity.
  - destruct (IH (snd (messages_fetch_status client message_sid p))) as [p' IHp].
    unfold try_except in *. cbn [status_loop answers poll_value poll_events].
    unfold bind at 1. unfold fetch_status.
    destruct (messages_fetch_status client message_sid p) as [[status|e] p1];
      cbn [snd] in IHp.
    + destruct (pystr_eqb status (py "delivered")); [by exists p1|].
      destruct (pystr_eqb status (py "failed") || pystr_eqb status (py "undelivered"));
        [by exists p1|].
      unfold sleep. rewrite bind_emit_run.
      destruct (status_loop client n message_sid name phone p1) as [[[b|e] p2] t2].
      * exists p2. by simplify_eq.
      * exists p'. cbn in IHp. injection IHp as Hv <- Ht.
        cbn. by rewrite <- Hv, <- Ht.
    + by exists p1.
Qed.

Lemma check_message_status_run (message_sid name phone : pystr) (p : P) :
  exists p',
    check_message_status client message_sid name phone p
    = (Ret (poll_value 10 (answers client 10 message_sid p)), p',
       poll_events 10 message_sid name phone (answers client 10 message_sid p)).
Proof. apply status_loop_run. Qed.

(** ** The submission loop *)

Lemma last_row_cons (row_var : option row) (r : row) (rows : list row) :
  last_row (Some r) rows = last_row row_var (r :: rows).
Proof. unfold last_row. rewrite last_cons. by destruct (last rows). Qed.

(** The loop calls nothing: it logs one record per skipped row, builds one
    job per eligible row, and leaves [row] at the last row. *)
Lemma submit_loop_run (opted_out_numbers : gset pystr) (message_template : pystr)
    (rows : list row) (row_var : option row) (futures : list job) (p : P) :
  submit_loop opted_out_numbers message_template rows row_var futures p =
  (Ret (last_row row_var rows,
        futures ++ jobs_of opted_out_numbers message_template rows),
   p, map Logged (skips_of opted_out_numbers rows)).
Proof.
  revert row_var futures.
  induction rows as [|r rows IH]; intros row_var futures.
  - cbn. by rewrite app_nil_r.
  - cbn [submit_loop]. unfold jobs_of, skips_of, skip_record, eligible.
    cbn [List.filter omap list_omap].
    destruct (is_valid_phone_number (Phone_Number r)); cbn [negb andb].
    + destruct (bool_decide (Phone_Number r ∈ opted_out_numbers)); cbn [negb].
      * rewrite bind_log_run, IH, <- last_row_cons. done.
      * rewrite IH, <- last_row_cons, <- app_assoc. done.
    + rewrite bind_log_run, IH, <- last_row_cons. done.
Qed.

(** ** The pool *)

(** Every job handed to the pool is run, whatever the other sends did,
    and every future ends with a value, never with an exception. *)
Lemma run_workers_run (twilio_phone_number : pystr) (jobs : list (nat * job)) (p : P) :
  exists answered p',
    map fst answered = jobs /\
    run_workers client twilio_phone_number jobs p =
    (Ret (futures_of answered), p', workers_trace twilio_phone_number answered).
Proof.
  revert p. induction jobs as [|[i j] jobs IH]; intros p.
  - by exists [], p.
  - cbn [run_workers]. rewrite bind_run. unfold attempt.
    rewrite send_single_sms_run.
    destruct (messages_create client (job_body j) twilio_phone_number
                (job_phone j) p) as [a p1].
    destruct (IH p1) as (answered & p' & Hjobs & Hrun).
    exists ((i, j, a) :: answered), p'. split; [cbn; by rewrite Hjobs|].
    rewrite bind_run, Hrun. cbn. by rewrite app_nil_r.
Qed.

(** ** The completion loop *)

Lemma completed_loop_run (completed : list future) (row_var : option row)
    (message_sids : list sid_entry_t) (value : nat) (p : P) :
  Forall (fun fut => exists o, snd fut = Ret o) completed ->
  (row_var = None -> completed = []) ->
  completed_loop completed row_var message_sids value p =
  (Ret (message_sids ++ entries_of row_var completed), p,
   progress_events value (length completed)).
Proof.
  intros Hret. revert message_sids value.
  induction Hret as [|[i r] completed [o Ho] _ IH]; intros message_sids value Hrow.
  - cbn. unfold entries_of. destruct row_var; cbn; by rewrite app_nil_r.
  - destruct row_var as [row|]; [|by discriminate Hrow].
    cbn [snd] in Ho. subst r.
    cbn [completed_loop snd reraise]. rewrite bind_run. cbn [ret].
    unfold entries_of in *. cbn [omap list_omap]. unfold entry_of at 1. cbn [snd].
    destruct o as [[|c sid]|]; cbn [truthy read_row default].
    + rewrite bind_run. cbn [ret]. rewrite !bind_emit_run, IH by done. done.
    + rewrite !bind_run. cbn [ret]. rewrite !bind_emit_run, IH by done.
      cbn. by rewrite <- app_assoc.
    + rewrite bind_run. cbn [ret]. rewrite !bind_emit_run, IH by done. done.
Qed.

(** ** The status checks *)

Lemma check_loop_run (message_sids : list sid_entry_t) (p : P) :
  exists checked p',
    map fst checked = message_sids /\
    Forall (fun x => length (snd x) = 10%nat) checked /\
    check_loop client message_sids p = (Ret tt, p', checks_trace checked).
Proof.
  revert p. induction message_sids as [|[[message_sid name] phone] rest IH]; intros p.
  - by exists [], p.
  - destruct (check_message_status_run message_sid name phone p) as [p1 Hcheck].
    pose proof (answers_length 10 message_sid p) as Hans.
    remember (answers client 10 message_sid p) as ans eqn:Eans in *. clear Eans.
    destruct (IH p1) as (checked & p' & Hfst & Hlen & Hrun).
    exists ((message_sid, name, phone, ans) :: checked), p'.
    split_and!.
    + cbn. by rewrite Hfst.
    + by constructor.
    + cbn [check_loop]. rewrite bind_run, Hcheck.
      unfold checks_trace. cbn [map concat fst snd].
      destruct (poll_value 10 ans);
        rewrite bind_emit_run, Hrun; by rewrite <- app_assoc.
Qed.

(** ** The run *)

Lemma last_row_None (rows : list row) : last_row None rows = last rows.
Proof. unfold last_row. by destruct (last rows). Qed.

Lemma futures_of_ret (answered : list (nat * job * result pystr)) :
  Forall (fun fut : future => exists o, snd fut = Ret o) (futures_of answered).
Proof.
  unfold futures_of. apply Forall_map, Forall_forall. intros x _. cbn. eauto.
Qed.

(** A run that got past its checks goes through all its phases, whatever
    the provider answers and whatever the scheduler does: it never raises. *)
Lemma run_anatomy (opted_out_numbers : gset pystr) (rows : list row)
    (twilio_phone_number message_template : pystr)
    (sched_workers sched_completed : list nat) (p : P) :
  exists answered checked p',
    map fst answered
      = as_scheduled sched_workers
          (enumerate_from 0 (jobs_of opted_out_numbers message_template rows)) /\
    map fst checked
      = entries_of (last rows) (as_scheduled sched_completed (futures_of answered)) /\
    Forall (fun x => length (snd x) = 10%nat) checked /\
    run client opted_out_numbers rows twilio_phone_number message_template
      sched_workers sched_completed p
    = (Ret (map fst checked), p',
       run_trace opted_out_numbers rows twilio_phone_number answered checked).
Proof.
  destruct (run_workers_run twilio_phone_number
              (as_scheduled sched_workers
                 (enumerate_from 0 (jobs_of opted_out_numbers message_template rows)))
              p) as (answered & p1 & Hanswered & Hworkers).
  destruct (check_loop_run
              (entries_of (last rows)
                 (as_scheduled sched_completed (futures_of answered))) p1)
    as (checked & p' & Hchecked & Hlen & Hchecks).
  exists answered, checked, p'. split_and!; [done..|].
  unfold run. rewrite !bind_log_run, !bind_emit_run, bind_run.
  rewrite submit_loop_run. cbn [fst snd app]. rewrite last_row_None.
  rewrite bind_run, Hworkers, bind_run.
  rewrite completed_loop_run; cycle 1.
  { rewrite as_scheduled_perm. apply futures_of_ret. }
  { intros Hlast. apply last_None in Hlast. subst rows.
    cbn in Hanswered. rewrite as_scheduled_nil in Hanswered.
    apply map_eq_nil in Hanswered. subst answered. apply as_scheduled_nil. }
  cbn [app]. rewrite bind_run, Hchecks, !bind_log_run, !bind_emit_run.
  cbn [ret]. rewrite Hchecked, as_scheduled_length.
  unfold run_trace, futures_of. rewrite length_map, ?app_nil_r.
  cbn [app]. done.
Qed.

(** ** [send_sms] *)

(** Either a check before the run fails: the function shows the matching
    error box and returns without a send; or all pass and the run goes
    through. *)
Lemma send_sms_cases (customer_data : option (list row))
    (opted_out_numbers : gset pystr) (w : widgets)
    (sched_workers sched_completed : list nat) (p : P) :
  (exists err p1 t,
     preflight client customer_data w p = Some err /\
     send_sms client customer_data opted_out_numbers w
       sched_workers sched_completed p = (Ret None, p1, t) /\
     reported_error t = Some err /\ started t = false /\
     creates t = [] /\ fetches t = [])
  \/
  (exists rows answered checked p',
     preflight client customer_data w p = None /\
     customer_data = Some rows /\
     map fst answered
       = as_scheduled sched_workers
           (enumerate_from 0 (jobs_of opted_out_numbers (message_entry w) rows)) /\
     map fst checked
       = entries_of (last rows) (as_scheduled sched_completed (futures_of answered)) /\
     Forall (fun x => length (snd x) = 10%nat) checked /\
     send_sms client customer_data opted_out_numbers w
       sched_workers sched_completed p
     = (Ret (Some (map fst checked)), p',
        Called (AccountsFetch (sid_entry w) (token_entry w)) (Ret [])
        :: run_trace opted_out_numbers rows (phone_entry w) answered checked)).
Proof.
  unfold send_sms, preflight. destruct customer_data as [rows|].
  2:{ left. by exists MissingData, p, [ShowError (py "Error") (py "Please load customer data first.")]. }
  destruct (falsy (sid_entry w) || falsy (token_entry w) || falsy (phone_entry w)).
  { left. by exists MissingCredentials, p,
      [ShowError (py "Error") (py "Please enter all Twilio credentials.")]. }
  destruct (falsy (message_entry w)).
  { left. by exists MissingTemplate, p,
      [ShowError (py "Error") (py "Please enter the message text.")]. }
  rewrite bind_run. unfold attempt, authenticate.
  destruct (accounts_fetch client (sid_entry w) (token_entry w) p) as [[[]|e] p1];
    cbn [fst].
  - right.
    destruct (run_anatomy opted_out_numbers rows (phone_entry w) (message_entry w)
                sched_workers sched_completed p1)
      as (answered & checked & p' & Hanswered & Hchecked & Hlen & Hrun).
    exists rows, answered, checked, p'. split_and!; [done..|].
    rewrite bind_run, Hrun. cbn [ret app]. by rewrite app_nil_r.
  - left. eexists AuthenticationFailure, p1, _. split_and!; [done|reflexivity|done..].
Qed.

Lemma send_sms_started (customer_data : option (list row))
    (opted_out_numbers : gset pystr) (w : widgets)
    (sched_workers sched_completed : list nat) (p : P) :
  started (trace_of (send_sms client customer_data opted_out_numbers w
                       sched_workers sched_completed p)) = true ->
  exists rows answered checked p',
    customer_data = Some rows /\
    map fst answered
      = as_scheduled sched_workers
          (enumerate_from 0 (jobs_of opted_out_numbers (message_entry w) rows)) /\
    map fst checked
      = entries_of (last rows) (as_scheduled sched_completed (futures_of answered)) /\
    Forall (fun x => length (snd x) = 10%nat) checked /\
    send_sms client customer_data opted_out_numbers w
      sched_workers sched_completed p
    = (Ret (Some (map fst checked)), p',
       Called (AccountsFetch (sid_entry w) (token_entry w)) (Ret [])
       :: run_trace opted_out_numbers rows (phone_entry w) answered checked).
Proof.
  intros Hstarted.
  destruct (send_sms_cases customer_data opted_out_numbers w
              sched_workers sched_completed p)
    as [(err & p1 & t1 & _ & Hsend & _ & Hnot & _)
       |(rows & answered & checked & p1 & _ & Hdata & Ha & Hc & Hlen & Hsend)].
  - rewrite Hsend in Hstarted. cbn [trace_of snd] in Hstarted. congruence.
  - by exists rows, answered, checked, p1.
Qed.

End EngineFacts.

(** ** Jobs, futures and entries *)

Lemma skip_outcome_cases (opted_out_numbers : gset pystr) (r : row) :
  skip_outcome opted_out_numbers r =
  if negb (is_valid_phone_number (Phone_Number r))
  then Some (Phone_Number r, SkippedInvalidPhone)
  else if bool_decide (Phone_Number r ∈ opted_out_numbers)
  then Some (Phone_Number r, SkippedOptedOut)
  else None.
Proof.
  unfold skip_outcome, skip_record.
  destruct (negb (is_valid_phone_number (Phone_Number r))); [done|].
  by destruct (bool_decide (Phone_Number r ∈ opted_out_numbers)).
Qed.

Lemma skip_outcome_eligible (opted_out_numbers : gset pystr) (r : row) :
  skip_outcome opted_out_numbers r = None <-> eligible opted_out_numbers r = true.
Proof.
  rewrite skip_outcome_cases. unfold eligible.
  destruct (is_valid_phone_number (Phone_Number r)); cbn [negb andb]; [|done].
  by destruct (bool_decide (Phone_Number r ∈ opted_out_numbers)).
Qed.

(** The skipped rows are the rows that are not eligible. *)
Lemma skip_outcomes_phones (opted_out_numbers : gset pystr) (rows : list row) :
  map fst (omap (skip_outcome opted_out_numbers) rows)
  = map Phone_Number
      (List.filter (fun r => negb (eligible opted_out_numbers r)) rows).
Proof.
  induction rows as [|r rows IH]; [done|].
  cbn [omap list_omap List.filter].
  pose proof (skip_outcome_eligible opted_out_numbers r) as Helig.
  rewrite skip_outcome_cases in *.
  destruct (eligible opted_out_numbers r).
  - destruct Helig as [_ ->]; [|done]. cbn [negb]. exact IH.
  - cbn [negb map].
    destruct (negb (is_valid_phone_number (Phone_Number r))).
    + cbn [map fst]. f_equal. exact IH.
    + destruct (bool_decide (Phone_Number r ∈ opted_out_numbers)).
      * cbn [map fst]. f_equal. exact IH.
      * destruct Helig as [Helig _]. by discriminate Helig.
Qed.

Lemma jobs_of_phones (opted_out_numbers : gset pystr) (message_template : pystr)
    (rows : list row) :
  map job_phone (jobs_of opted_out_numbers message_template rows)
  = map Phone_Number (List.filter (eligible opted_out_numbers) rows).
Proof. unfold jobs_of. rewrite map_map. done. Qed.

(** The pool serves exactly the submitted jobs, in some order. *)
Lemma answered_jobs (sched : list nat) (jobs : list job)
    (answered : list (nat * job * result pystr)) :
  map fst answered = as_scheduled sched (enumerate_from 0 jobs) ->
  map (fun x => snd (fst x)) answered ≡ₚ jobs.
Proof.
  intros Hanswered.
  rewrite <- (enumerate_from_snd 0 jobs) at 1.
  rewrite <- (as_scheduled_perm sched (enumerate_from 0 jobs)), <- Hanswered.
  by rewrite map_map.
Qed.

Lemma creates_to_workers (from_ : pystr) (answered : list (nat * job * result pystr)) :
  map create_to (creates (workers_trace from_ answered))
  = map job_phone (map (fun x => snd (fst x)) answered).
Proof. rewrite creates_workers, !map_map. done. Qed.

Lemma future_sids_sent (from_ : pystr) (answered : list (nat * job * result pystr)) :
  omap future_sid (futures_of answered) = sent_sids (workers_trace from_ answered).
Proof.
  unfold sent_sids. rewrite creates_workers. unfold futures_of.
  induction answered as [|[[i j] [[|c sid]|e]] answered IH]; [done|..];
    cbn; by rewrite ?IH.
Qed.

Lemma entries_sids (r : row) (completed : list future) :
  map (fun e : sid_entry_t => fst (fst e)) (omap (entry_of r) completed)
  = omap future_sid completed.
Proof.
  induction completed as [|[i [[[|c sid]|]|e]] completed IH]; [done|..];
    cbn; by rewrite ?IH.
Qed.

Lemma last_None_answered (opted_out_numbers : gset pystr) (message_template : pystr)
    (sched : list nat) (rows : list row)
    (answered : list (nat * job * result pystr)) :
  map fst answered
    = as_scheduled sched
        (enumerate_from 0 (jobs_of opted_out_numbers message_template rows)) ->
  last rows = None -> answered = [].
Proof.
  intros Hanswered ->%last_None. cbn in Hanswered.
  rewrite as_scheduled_nil in Hanswered. by apply map_eq_nil in Hanswered.
Qed.

(** Every send of a run is the job of an eligible row: addressed to its
    number, with the template rendered for its name. *)
Lemma create_of_eligible_row (opted_out_numbers : gset pystr)
    (message_template from_ : pystr) (sched : list nat) (rows : list row)
    (answered : list (nat * job * result pystr))
    (c : pystr * pystr * pystr * result pystr) :
  map fst answered
    = as_scheduled sched
        (enumerate_from 0 (jobs_of opted_out_numbers message_template rows)) ->
  c ∈ creates (workers_trace from_ answered) ->
  exists r, r ∈ rows /\ eligible opted_out_numbers r = true /\
            fst c = (render message_template (Name r), from_, Phone_Number r).
Proof.
  intros Ha Hc. rewrite creates_workers in Hc.
  apply list_elem_of_fmap in Hc as (x & -> & Hx).
  assert (snd (fst x) ∈ jobs_of opted_out_numbers message_template rows) as Hjob.
  { rewrite <- (answered_jobs _ _ _ Ha).
    by apply (list_elem_of_fmap_2 (fun x : nat * job * result pystr => snd (fst x))). }
  unfold jobs_of in Hjob. apply list_elem_of_fmap in Hjob as (r & Hr & Hin).
  apply list_elem_of_In, filter_In in Hin as [Hin Helig].
  exists r. split_and!; [by apply list_elem_of_In|done|]. cbn [fst]. by rewrite Hr.
Qed.

(** [message_sids] holds the non-empty identifiers the sends returned. *)
Lemma message_sids_sent (opted_out_numbers : gset pystr)
    (message_template from_ : pystr) (sched_workers sched_completed : list nat)
    (rows : list row) (answered : list (nat * job * result pystr))
    (checked : list (sid_entry_t * list (result pystr))) :
  map fst answered
    = as_scheduled sched_workers
        (enumerate_from 0 (jobs_of opted_out_numbers message_template rows)) ->
  map fst checked
    = entries_of (last rows) (as_scheduled sched_completed (futures_of answered)) ->
  map (fun e : sid_entry_t => fst (fst e)) (map fst checked)
    ≡ₚ sent_sids (workers_trace from_ answered).
Proof.
  intros Ha ->. destruct (last rows) as [r|] eqn:Hlast.
  - cbn [entries_of]. rewrite entries_sids, as_scheduled_perm.
    by rewrite (future_sids_sent from_).
  - by rewrite (last_None_answered _ _ _ _ _ Ha Hlast).
Qed.

(** Every status fetch asks for an identifier that a send returned. *)
Lemma fetch_of_create (from_ : pystr) (answered : list (nat * job * result pystr))
    (checked : list (sid_entry_t * list (result pystr)))
    (f : pystr * result pystr) :
  map (fun e : sid_entry_t => fst (fst e)) (map fst checked)
    ≡ₚ sent_sids (workers_trace from_ answered) ->
  f ∈ fetches (checks_trace checked) ->
  exists c, c ∈ creates (workers_trace from_ answered) /\ snd c = Ret (fst f).
Proof.
  intros Hsids Hf. apply fetches_checks in Hf.
  rewrite <- (map_map fst (fun e : sid_entry_t => fst (fst e))), Hsids in Hf.
  unfold sent_sids in Hf. apply list_elem_of_omap in Hf as (c & Hc & Hsid).
  exists c. split; [done|].
  destruct c as [c0 [[|ch sid]|e]]; cbn in Hsid |- *;
    [discriminate | by injection Hsid as <- | discriminate].
Qed.

(** * The claims *)

(** A run that got past its checks, taken apart. *)
Lemma started_anatomy {P} (client : Client P) (customer_data : option (list row))
    (opted_out_numbers : gset pystr) (w : widgets)
    (sched_workers sched_completed : list nat) (p : P) :
  started (trace_of (send_sms client customer_data opted_out_numbers w
                       sched_workers sched_completed p)) = true ->
  exists rows answered checked,
    customer_data = Some rows /\
    map fst answered
      = as_scheduled sched_workers
          (enumerate_from 0 (jobs_of opted_out_numbers (message_entry w) rows)) /\
    map fst checked
      = entries_of (last rows) (as_scheduled sched_completed (futures_of answered)) /\
    value_of (send_sms client customer_data opted_out_numbers w
                sched_workers sched_completed p)
      = Ret (Some (map fst checked)) /\
    trace_of (send_sms client customer_data opted_out_numbers w
                sched_workers sched_completed p)
      = Called (AccountsFetch (sid_entry w) (token_entry w)) (Ret [])
        :: run_trace opted_out_numbers rows (phone_entry w) answered checked.
Proof.
  intros Hstarted.
  destruct (send_sms_started client _ _ _ _ _ _ Hstarted)
    as (rows & answered & checked & p' & Hdata & Ha & Hc & _ & Hrun).
  exists rows, answered, checked. rewrite Hrun. by split_and!.
Qed.

(** The send outcomes of a run: those of the skipped rows, then one per
    send made. *)
Lemma started_send_outcomes (opted_out_numbers : gset pystr) (rows : list row)
    (from_ : pystr) (a : result pystr) (c : call)
    (answered : list (nat * job * result pystr))
    (checked : list (sid_entry_t * list (result pystr))) :
  send_outcomes (Called c a :: run_trace opted_out_numbers rows from_ answered checked)
  = omap (skip_outcome opted_out_numbers) rows
    ++ map create_outcome (creates (workers_trace from_ answered)).
Proof.
  change (send_outcomes (Called c a :: ?t)) with (send_outcomes t).
  by rewrite send_outcomes_run, creates_run.
Qed.

(** ** C1 *)

(** Against C1 as stated: the run keeps no report of the skipped rows.
    With Bob's number malformed, [message_sids] has one entry for two
    recipients. *)
Lemma C1_no_entry_for_a_skipped_recipient :
  exists message_sids,
    value_of (send_sms (scripted (py "AC1") [] (always "delivered"))
                (Some [bob; alice]) ∅ sample_widgets [] [] 0%nat)
      = Ret (Some message_sids)
    /\ length message_sids <> length [bob; alice].
Proof.
  eexists. split; [vm_compute; reflexivity|]. cbn. lia.
Qed.

(** The entries follow the order in which the sends complete, not the
    order of the rows. *)
Example message_sids_in_completion_order :
  value_of (send_sms (scripted (py "AC1") [] (always "delivered"))
              (Some [alice; carl]) ∅ sample_widgets [] [1%nat] 0%nat)
  = Ret (Some [ (py "SM+15559876543", py "Carl", py "+15559876543");
                (py "SM+15551234567", py "Carl", py "+15559876543") ]).
Proof. vm_compute. reflexivity. Qed.

(** C1, as the code has it: a run that got past its checks logs exactly
    one send outcome per row of the input (skipped as invalid, skipped as
    opted out, sent, or failed to send), the phone numbers it logs them
    under being those of the rows, each once; and the identifiers held by
    the entries of [message_sids] are exactly the non-empty identifiers
    the sends returned, one entry each, so at most one entry per row.  The
    name and number an entry holds beside its identifier are not part of
    this statement: they are those of the last row (C8, C10). *)
Theorem C1_one_send_outcome_per_recipient {P} (client : Client P)
    (customer_data : option (list row)) (opted_out_numbers : gset pystr)
    (w : widgets) (sched_workers sched_completed : list nat) (p : P) :
  started (trace_of (send_sms client customer_data opted_out_numbers w
                       sched_workers sched_completed p)) = true ->
  exists rows message_sids,
    customer_data = Some rows /\
    value_of (send_sms client customer_data opted_out_numbers w
                sched_workers sched_completed p) = Ret (Some message_sids) /\
    map fst (send_outcomes
               (trace_of (send_sms client customer_data opted_out_numbers w
                            sched_workers sched_completed p)))
      ≡ₚ map Phone_Number rows /\
    map (fun e : sid_entry_t => fst (fst e)) message_sids
      ≡ₚ sent_sids (trace_of (send_sms client customer_data opted_out_numbers w
                                sched_workers sched_completed p)) /\
    (length message_sids <= length rows)%nat.
Proof.
  intros Hstarted.
  destruct (started_anatomy client _ _ _ _ _ _ Hstarted)
    as (rows & answered & checked & Hdata & Ha & Hc & Hvalue & Htrace).
  exists rows, (map fst checked). rewrite Htrace.
  pose proof (message_sids_sent _ _ (phone_entry w) _ _ _ _ _ Ha Hc) as Hsids.
  split_and!; [done|done| | |].
  - rewrite started_send_outcomes, map_app, skip_outcomes_phones.
    rewrite map_map.
    change (map (fun x => fst (create_outcome x))
              (creates (workers_trace (phone_entry w) answered)))
      with (map create_to (creates (workers_trace (phone_entry w) answered))).
    rewrite creates_to_workers, (answered_jobs _ _ _ Ha), jobs_of_phones.
    rewrite <- map_app, Permutation_app_comm. by rewrite filter_partition.
  - unfold sent_sids at 1.
    change (creates (Called ?c ?a :: ?t)) with (creates t).
    rewrite creates_run. exact Hsids.
  - apply Permutation_length in Hsids. rewrite !length_map in Hsids.
    rewrite length_map, Hsids. unfold sent_sids.
    etrans; [apply omap_length_le|]. rewrite creates_workers, length_map.
    rewrite <- (length_map (fun x => snd (fst x))), (answered_jobs _ _ _ Ha).
    unfold jobs_of. rewrite length_map. apply filter_length_le.
Qed.

Lemma C1_one_send_outcome_per_recipient_witness :
  exists rows message_sids,
    Some [alice; bob; carl] = Some rows /\
    value_of (send_sms (scripted (py "AC1") [py "+15559876543"] (always "queued"))
                (Some [alice; bob; carl]) ∅ sample_widgets [1%nat] [] 0%nat)
      = Ret (Some message_sids) /\
    map fst (send_outcomes
               (trace_of (send_sms (scripted (py "AC1") [py "+15559876543"]
                                      (always "queued"))
                            (Some [alice; bob; carl]) ∅ sample_widgets
                            [1%nat] [] 0%nat)))
      ≡ₚ map Phone_Number rows /\
    map (fun e : sid_entry_t => fst (fst e)) message_sids
      ≡ₚ sent_sids (trace_of (send_sms (scripted (py "AC1") [py "+15559876543"]
                                          (always "queued"))
                                (Some [alice; bob; carl]) ∅ sample_widgets
                                [1%nat] [] 0%nat)) /\
    (length message_sids <= length rows)%nat.
Proof.
  apply (C1_one_send_outcome_per_recipient
           (scripted (py "AC1") [py "+15559876543"] (always "queued"))
           (Some [alice; bob; carl]) ∅ sample_widgets [1%nat] [] 0%nat).
  vm_compute. reflexivity.
Defined.

(** ** C2 and C3: the rows the filters skip *)

Lemma skip_outcome_same_phone (opted_out_numbers : gset pystr) (r r' : row) :
  Phone_Number r' = Phone_Number r ->
  skip_outcome opted_out_numbers r' = skip_outcome opted_out_numbers r.
Proof. intros Heq. by rewrite !skip_outcome_cases, Heq. Qed.

Lemma eligible_same_phone (opted_out_numbers : gset pystr) (r r' : row) :
  Phone_Number r' = Phone_Number r ->
  eligible opted_out_numbers r' = eligible opted_out_numbers r.
Proof. intros Heq. unfold eligible. by rewrite Heq. Qed.

Lemma skip_outcome_phone (opted_out_numbers : gset pystr) (r : row)
    (x : pystr * SendOutcome) :
  skip_outcome opted_out_numbers r = Some x -> fst x = Phone_Number r.
Proof.
  rewrite skip_outcome_cases.
  destruct (negb (is_valid_phone_number (Phone_Number r))); [by intros [= <-]|].
  by destruct (bool_decide (Phone_Number r ∈ opted_out_numbers)); intros [= <-].
Qed.

(** A row that is not eligible gets the outcome of the filter that skips
    it, and no other; no send is addressed to its number, and every status
    fetch is for a message sent to another number. *)
Lemma skipped_row {P} (client : Client P) (opted_out_numbers : gset pystr)
    (w : widgets) (sched_workers sched_completed : list nat) (p : P)
    (rows : list row) (r : row) :
  started (trace_of (send_sms client (Some rows) opted_out_numbers w
                       sched_workers sched_completed p)) = true ->
  r ∈ rows ->
  eligible opted_out_numbers r = false ->
  (exists o,
      skip_outcome opted_out_numbers r = Some (Phone_Number r, o) /\
      (Phone_Number r, o)
        ∈ send_outcomes (trace_of (send_sms client (Some rows) opted_out_numbers w
                                     sched_workers sched_completed p)) /\
      forall o',
        (Phone_Number r, o')
          ∈ send_outcomes (trace_of (send_sms client (Some rows) opted_out_numbers w
                                       sched_workers sched_completed p)) ->
        o' = o) /\
  (forall c,
      c ∈ creates (trace_of (send_sms client (Some rows) opted_out_numbers w
                               sched_workers sched_completed p)) ->
      create_to c <> Phone_Number r) /\
  (forall f,
      f ∈ fetches (trace_of (send_sms client (Some rows) opted_out_numbers w
                               sched_workers sched_completed p)) ->
      exists c,
        c ∈ creates (trace_of (send_sms client (Some rows) opted_out_numbers w
                                 sched_workers sched_completed p)) /\
        snd c = Ret (fst f) /\ create_to c <> Phone_Number r).
Proof.
  intros Hstarted Hr Helig.
  destruct (started_anatomy client _ _ _ _ _ _ Hstarted)
    as (rows' & answered & checked & [= <-] & Ha & Hc & _ & ->).
  rewrite started_send_outcomes.
  change (creates (Called ?c ?a :: ?t)) with (creates t).
  change (fetches (Called ?c ?a :: ?t)) with (fetches t).
  rewrite creates_run, fetches_run.
  assert (forall c, c ∈ creates (workers_trace (phone_entry w) answered) ->
                    create_to c <> Phone_Number r) as Hnocall.
  { intros c Hin Hto.
    destruct (create_of_eligible_row _ _ _ _ _ _ _ Ha Hin) as (r' & _ & Hr' & Hfst).
    rewrite (eligible_same_phone _ r r') in Hr'; [congruence|].
    unfold create_to in Hto. by rewrite Hfst in Hto. }
  split_and!; [|done|].
  - destruct (skip_outcome opted_out_numbers r) as [[ph o]|] eqn:Hskip;
      [|apply skip_outcome_eligible in Hskip; congruence].
    pose proof (skip_outcome_phone _ _ _ Hskip) as Hph. cbn in Hph. subst ph.
    exists o. split_and!; [done| |].
    + apply elem_of_app. left. apply list_elem_of_omap. by exists r.
    + intros o' [Hin|Hin]%elem_of_app.
      * apply list_elem_of_omap in Hin as (r' & _ & Hskip').
        pose proof (skip_outcome_phone _ _ _ Hskip') as Hph. cbn in Hph.
        rewrite (skip_outcome_same_phone _ r r') in Hskip' by done. congruence.
      * apply list_elem_of_fmap in Hin as (c & Hout & Hin).
        exfalso. apply (Hnocall c Hin). by injection Hout.
  - intros f Hf.
    destruct (fetch_of_create (phone_entry w) answered checked f
                (message_sids_sent _ _ _ _ _ _ _ _ Ha Hc) Hf) as (c & Hin & Hsid).
    exists c. split_and!; [done|done|by apply Hnocall].
Qed.

(** Against C2 as stated: a number written with decimal digits that are
    not ASCII does not match the specification's expression; the filter
    lets it through and the message is sent. *)
Lemma C2_decimal_digit_beyond_ascii_is_sent :
  matches_spec_regex (Phone_Number zahra) = false /\
  send_outcomes
    (trace_of (send_sms (scripted (py "AC1") [] (always "delivered"))
                 (Some [zahra]) ∅ sample_widgets [] [] 0%nat))
  = [(Phone_Number zahra, Sent (py "SM" ++ Phone_Number zahra))] /\
  map create_to
    (creates
       (trace_of (send_sms (scripted (py "AC1") [] (always "delivered"))
                    (Some [zahra]) ∅ sample_widgets [] [] 0%nat)))
  = [Phone_Number zahra].
Proof. split_and!; vm_compute; reflexivity. Qed.

(** C2, as the code has it: a row whose phone string
    [is_valid_phone_number] rejects (no match of [^\+\d+$], where [\d] is
    any Unicode decimal digit) gets the send outcome "skipped as invalid"
    under its number and no other send outcome, no send is addressed to
    it, and every status fetch asks for the identifier returned by a send
    to another number.  Such a string does not match the specification's
    [^\+[0-9]+$] either.  The delivery records of the status checks are
    not part of this statement: they carry the name and number of the last
    row (C8, C10). *)
Theorem C2_invalid_phone_is_skipped {P} (client : Client P)
    (opted_out_numbers : gset pystr) (w : widgets)
    (sched_workers sched_completed : list nat) (p : P)
    (rows : list row) (r : row) :
  started (trace_of (send_sms client (Some rows) opted_out_numbers w
                       sched_workers sched_completed p)) = true ->
  r ∈ rows ->
  is_valid_phone_number (Phone_Number r) = false ->
  matches_spec_regex (Phone_Number r) = false /\
  (Phone_Number r, SkippedInvalidPhone)
    ∈ send_outcomes (trace_of (send_sms client (Some rows) opted_out_numbers w
                                 sched_workers sched_completed p)) /\
  (forall o,
      (Phone_Number r, o)
        ∈ send_outcomes (trace_of (send_sms client (Some rows) opted_out_numbers w
                                     sched_workers sched_completed p)) ->
      o = SkippedInvalidPhone) /\
  (forall c,
      c ∈ creates (trace_of (send_sms client (Some rows) opted_out_numbers w
                               sched_workers sched_completed p)) ->
      create_to c <> Phone_Number r) /\
  (forall f,
      f ∈ fetches (trace_of (send_sms client (Some rows) opted_out_numbers w
                               sched_workers sched_completed p)) ->
      exists c,
        c ∈ creates (trace_of (send_sms client (Some rows) opted_out_numbers w
                                 sched_workers sched_completed p)) /\
        snd c = Ret (fst f) /\ create_to c <> Phone_Number r).
Proof.
  intros Hstarted Hr Hvalid.
  assert (eligible opted_out_numbers r = false) as Helig
      by (unfold eligible; by rewrite Hvalid).
  destruct (skipped_row client _ _ _ _ _ _ _ Hstarted Hr Helig)
    as ((o & Hskip & Hin & Honly) & Hcreates & Hfetches).
  rewrite skip_outcome_cases, Hvalid in Hskip. injection Hskip as <-.
  split_and!; [|done..].
  destruct (matches_spec_regex (Phone_Number r)) eqn:Hspec; [|done].
  apply spec_regex_valid in Hspec. congruence.
Qed.

Lemma C2_invalid_phone_is_skipped_witness :
  matches_spec_regex (Phone_Number bob) = false /\
  (Phone_Number bob, SkippedInvalidPhone) ∈ send_outcomes (trace_of sample_run) /\
  (forall o, (Phone_Number bob, o) ∈ send_outcomes (trace_of sample_run) ->
             o = SkippedInvalidPhone) /\
  (forall c, c ∈ creates (trace_of sample_run) -> create_to c <> Phone_Number bob) /\
  (forall f, f ∈ fetches (trace_of sample_run) ->
             exists c, c ∈ creates (trace_of sample_run) /\
                       snd c = Ret (fst f) /\ create_to c <> Phone_Number bob).
Proof.
  apply (C2_invalid_phone_is_skipped
           (scripted (py "AC1") [] (always "delivered"))
           {[ py "+15559876543" ]} sample_widgets [] [] 0%nat [alice; bob; carl] bob).
  - vm_compute. reflexivity.
  - apply list_elem_of_further, list_elem_of_here.
  - vm_compute. reflexivity.
Defined.

(** Against C3 as stated: a malformed number that is also in the opt-out
    set is logged as invalid, not as opted out; the syntax check comes
    first. *)
Lemma C3_invalid_number_in_opt_out_set_counts_as_invalid :
  Phone_Number bob ∈ ({[ py "bad-phone" ]} : gset pystr) /\
  send_outcomes
    (trace_of (send_sms (scripted (py "AC1") [] (always "delivered"))
                 (Some [bob]) {[ py "bad-phone" ]} sample_widgets [] [] 0%nat))
  = [(Phone_Number bob, SkippedInvalidPhone)].
Proof.
  split; [|vm_compute; reflexivity].
  by apply elem_of_singleton.
Qed.

(** C3, as the code has it: no send is addressed to a row whose phone
    string is in the opt-out set, and every status fetch asks for the
    identifier returned by a send to another number; under its number the
    row gets the send outcome "skipped as opted out" when the string is
    syntactically valid and "skipped as invalid" when it is not, and no
    other send outcome.  The delivery records of the status checks are not
    part of this statement: they carry the name and number of the last row
    (C8, C10). *)
Theorem C3_opted_out_phone_is_skipped {P} (client : Client P)
    (opted_out_numbers : gset pystr) (w : widgets)
    (sched_workers sched_completed : list nat) (p : P)
    (rows : list row) (r : row) :
  started (trace_of (send_sms client (Some rows) opted_out_numbers w
                       sched_workers sched_completed p)) = true ->
  r ∈ rows ->
  Phone_Number r ∈ opted_out_numbers ->
  (Phone_Number r,
   if is_valid_phone_number (Phone_Number r)
   then SkippedOptedOut else SkippedInvalidPhone)
    ∈ send_outcomes (trace_of (send_sms client (Some rows) opted_out_numbers w
                                 sched_workers sched_completed p)) /\
  (forall o,
      (Phone_Number r, o)
        ∈ send_outcomes (trace_of (send_sms client (Some rows) opted_out_numbers w
                                     sched_workers sched_completed p)) ->
      o = if is_valid_phone_number (Phone_Number r)
          then SkippedOptedOut else SkippedInvalidPhone) /\
  (forall c,
      c ∈ creates (trace_of (send_sms client (Some rows) opted_out_numbers w
                               sched_workers sched_completed p)) ->
      create_to c <> Phone_Number r) /\
  (forall f,
      f ∈ fetches (trace_of (send_sms client (Some rows) opted_out_numbers w
                               sched_workers sched_completed p)) ->
      exists c,
        c ∈ creates (trace_of (send_sms client (Some rows) opted_out_numbers w
                                 sched_workers sched_completed p)) /\
        snd c = Ret (fst f) /\ create_to c <> Phone_Number r).
Proof.
  intros Hstarted Hr Hopted.
  assert (bool_decide (Phone_Number r ∈ opted_out_numbers) = true) as Hdec
      by (by apply bool_decide_eq_true).
  assert (eligible opted_out_numbers r = false) as Helig
      by (unfold eligible; rewrite Hdec; apply andb_false_r).
  destruct (skipped_row client _ _ _ _ _ _ _ Hstarted Hr Helig)
    as ((o & Hskip & Hin & Honly) & Hcreates & Hfetches).
  rewrite skip_outcome_cases, Hdec in Hskip.
  destruct (is_valid_phone_number (Phone_Number r));
    injection Hskip as <-; by split_and!.
Qed.

Lemma C3_opted_out_phone_is_skipped_witness :
  (Phone_Number carl, SkippedOptedOut) ∈ send_outcomes (trace_of sample_run) /\
  (forall o, (Phone_Number carl, o) ∈ send_outcomes (trace_of sample_run) ->
             o = SkippedOptedOut) /\
  (forall c, c ∈ creates (trace_of sample_run) -> create_to c <> Phone_Number carl) /\
  (forall f, f ∈ fetches (trace_of sample_run) ->
             exists c, c ∈ creates (trace_of sample_run) /\
                       snd c = Ret (fst f) /\ create_to c <> Phone_Number carl).
Proof.
  apply (C3_opted_out_phone_is_skipped
           (scripted (py "AC1") [] (always "delivered"))
           {[ py "+15559876543" ]} sample_widgets [] [] 0%nat [alice; bob; carl] carl).
  - vm_compute. reflexivity.
  - apply list_elem_of_further, list_elem_of_further, list_elem_of_here.
  - by apply elem_of_singleton.
Defined.

(** ** C4: rendering *)

Lemma occurs_nil (old : pystr) : old <> [] -> occurs old [] = false.
Proof. by destruct old. Qed.

(** The first occurrence: nothing occurs before it. *)
Lemma leftmost_occurrence (old s : pystr) :
  old <> [] -> occurs old s = true ->
  exists a b, s = a ++ old ++ b /\ occurs old a = false.
Proof.
  intros Hold. induction s as [|c s IH]; cbn [occurs]; intros Hocc.
  - destruct (strip_prefix old []) as [rest|] eqn:E; [|done].
    apply strip_prefix_Some in E. exists [], rest. by rewrite occurs_nil.
  - destruct (strip_prefix old (c :: s)) as [rest|] eqn:E.
    + apply strip_prefix_Some in E. exists [], rest. by rewrite occurs_nil.
    + destruct (IH Hocc) as (a & b & -> & Ha). exists (c :: a), b. split; [done|].
      cbn [occurs]. destruct (strip_prefix old (c :: a)) as [rest|] eqn:E'; [|done].
      apply strip_prefix_Some in E'.
      destruct (proj1 (strip_prefix_None _ _) E (rest ++ old ++ b)).
      by rewrite app_comm_cons, E', <- app_assoc.
Qed.

(** Every template is its placeholder-free segments joined by the
    placeholder. *)
Lemma template_segments (message_template : pystr) :
  exists segments,
    segments <> [] /\ message_template = join placeholder segments /\
    Forall (fun s => occurs placeholder s = false) segments.
Proof.
  remember (length message_template) as n eqn:Hn.
  revert message_template Hn. induction (lt_wf n) as [n _ IH]. intros t ->.
  destruct (occurs placeholder t) eqn:Hocc.
  - destruct (leftmost_occurrence _ _ placeholder_nonempty Hocc) as (a & b & -> & Ha).
    destruct (IH (length b)) with (message_template := b)
      as (segments & Hne & -> & Hall); [|done|].
    { rewrite !length_app, placeholder_chars. cbn. lia. }
    exists (a :: segments). split_and!; [done| |by constructor].
    by destruct segments.
  - exists [t]. split_and!; [done|done|by constructor].
Qed.

(** C4: rendering is a function of the template and the recipient's name
    alone (it reads no state and leaves no event), and it replaces each
    occurrence of [{Name}] by the name, once, copying everything else: a
    template is, in some way, placeholder-free segments joined by [{Name}],
    and however it is written so, its rendering is the same segments joined
    by the name.  Other placeholders are part of the segments. *)
Theorem C4_render_replaces_each_placeholder (message_template : pystr) (r : row) :
  (exists segments,
      segments <> [] /\ message_template = join placeholder segments /\
      Forall (fun s => occurs placeholder s = false) segments) /\
  (forall segments,
      message_template = join placeholder segments ->
      Forall (fun s => occurs placeholder s = false) segments ->
      render message_template (Name r) = join (Name r) segments).
Proof.
  split; [apply template_segments|].
  intros segments -> Hall. by apply render_join.
Qed.

Lemma C4_render_replaces_each_placeholder_witness :
  render (py "{Name}, your code is {Code}. Bye {Name}") (Name alice)
  = py "Alice, your code is {Code}. Bye Alice".
Proof.
  apply (proj2 (C4_render_replaces_each_placeholder
                  (py "{Name}, your code is {Code}. Bye {Name}") alice)
           [ []; py ", your code is {Code}. Bye "; [] ]).
  - reflexivity.
  - repeat constructor.
Defined.

(** X19.  In a run, the body of every send is the rendering of the
    template for the name of a row, addressed to the number of that row and
    sent from the number entered in the form. *)
Lemma sends_carry_the_rendering {P} (client : Client P)
    (opted_out_numbers : gset pystr) (w : widgets)
    (sched_workers sched_completed : list nat) (p : P) (rows : list row)
    (c : pystr * pystr * pystr * result pystr) :
  c ∈ creates (trace_of (send_sms client (Some rows) opted_out_numbers w
                           sched_workers sched_completed p)) ->
  exists r, r ∈ rows /\
            fst c = (render (message_entry w) (Name r), phone_entry w, Phone_Number r).
Proof.
  intros Hc.
  destruct (send_sms_cases client (Some rows) opted_out_numbers w
              sched_workers sched_completed p)
    as [(err & p1 & t1 & _ & Hsend & _ & _ & Hnone & _)
       |(rows' & answered & checked & p1 & _ & [= <-] & Ha & _ & _ & Hsend)];
    rewrite Hsend in Hc; cbn [trace_of snd] in Hc.
  - rewrite Hnone in Hc. by apply elem_of_nil in Hc.
  - change (creates (Called ?c ?a :: ?t)) with (creates t) in Hc.
    rewrite creates_run in Hc.
    destruct (create_of_eligible_row _ _ _ _ _ _ _ Ha Hc) as (r & Hr & _ & Hfst).
    by exists r.
Qed.

(** ** C5 and C6: the status poller *)

(** What a check returns and leaves, read through the answers the provider
    has in store. *)
Lemma check_message_status_observed {P} (client : Client P)
    (message_sid name phone : pystr) (p : P) :
  value_of (check_message_status client message_sid name phone p)
    = Ret (poll_value 10 (answers client 10 message_sid p)) /\
  trace_of (check_message_status client message_sid name phone p)
    = poll_events 10 message_sid name phone (answers client 10 message_sid p).
Proof.
  destruct (check_message_status_run client message_sid name phone p) as [p' ->].
  done.
Qed.

(** The check refines the poller of the specification. *)
Lemma check_message_status_refines {P} (client : Client P)
    (message_sid name phone : pystr) (p : P) :
  delivery_outcomes (trace_of (check_message_status client message_sid name phone p))
    = [(name, phone, fst (poll_spec 10 (answers client 10 message_sid p)))]
  /\ fetches (trace_of (check_message_status client message_sid name phone p))
    = map (fun a => (message_sid, a))
        (take (snd (poll_spec 10 (answers client 10 message_sid p)))
           (answers client 10 message_sid p))
  /\ (snd (poll_spec 10 (answers client 10 message_sid p)) <= 10)%nat.
Proof.
  destruct (check_message_status_observed client message_sid name phone p) as [_ ->].
  destruct (poll_events_refine 10 message_sid name phone
              (answers client 10 message_sid p)) as (Ho & Hf & _ & Hn).
  done.
Qed.

(** C5: a status check makes at most ten fetches.  While the statuses it
    fetches are not terminal it goes on; at the first [delivered] it stops
    with [Delivered], at the first [failed] or [undelivered] it stops with
    [Failed], having fetched just that many times; and when ten fetches
    brought no terminal status it stops with [Unknown] after exactly those
    ten. *)
Theorem C5_poll_stops_at_first_terminal_status_or_after_ten {P} (client : Client P)
    (message_sid name phone : pystr) (p : P) (pending : list pystr) :
  Forall (fun status => terminal status = false) pending ->
  (length (fetches (trace_of (check_message_status client message_sid name phone p)))
   <= 10)%nat /\
  (forall status rest,
      answers client 10 message_sid p = map Ret pending ++ Ret status :: rest ->
      terminal status = true ->
      fetches (trace_of (check_message_status client message_sid name phone p))
        = map (fun st => (message_sid, Ret st)) (pending ++ [status]) /\
      value_of (check_message_status client message_sid name phone p)
        = Ret (pystr_eqb status (py "delivered")) /\
      delivery_outcomes (trace_of (check_message_status client message_sid name phone p))
        = [(name, phone,
            if pystr_eqb status (py "delivered") then Delivered else Failed)]) /\
  (answers client 10 message_sid p = map Ret pending ->
   length pending = 10%nat /\
   fetches (trace_of (check_message_status client message_sid name phone p))
     = map (fun st => (message_sid, Ret st)) pending /\
   value_of (check_message_status client message_sid name phone p) = Ret false /\
   delivery_outcomes (trace_of (check_message_status client message_sid name phone p))
     = [(name, phone, Unknown)]).
Proof.
  intros Hpending.
  destruct (check_message_status_observed client message_sid name phone p)
    as [-> ->].
  pose proof (answers_length client 10 message_sid p) as Hlen.
  split_and!.
  - destruct (poll_events_refine 10 message_sid name phone
                (answers client 10 message_sid p)) as (_ & -> & _ & Hn).
    rewrite length_map, length_take. lia.
  - intros status rest Hans Hterminal. rewrite Hans in *.
    rewrite length_app, length_map in Hlen. cbn [length] in Hlen.
    rewrite poll_events_pending, poll_value_pending by (done || lia).
    destruct (10 - length pending)%nat as [|m] eqn:Hm; [lia|].
    cbn [poll_events poll_value].
    rewrite fetches_app, delivery_outcomes_app, fetches_pending.
    unfold delivery_outcomes at 1. rewrite logged_pending. cbn [omap list_omap app].
    rewrite map_app. cbn [map].
    unfold terminal in Hterminal. rewrite <- orb_assoc in Hterminal.
    destruct (pystr_eqb status (py "delivered")); [done|].
    cbn [orb] in Hterminal. rewrite Hterminal. done.
  - intros Hans. rewrite Hans in *. rewrite length_map in Hlen.
    rewrite <- (app_nil_r (map Ret pending)).
    rewrite poll_events_pending, poll_value_pending by (done || lia).
    rewrite Hlen, Nat.sub_diag. cbn [poll_events poll_value].
    rewrite fetches_app, delivery_outcomes_app, fetches_pending.
    unfold delivery_outcomes at 1. rewrite logged_pending.
    split_and!; [done|by rewrite app_nil_r|done|done].
Qed.

Lemma C5_poll_stops_at_first_terminal_status_or_after_ten_witness :
  (fetches (trace_of (check_message_status
                        (scripted (py "AC1") [] (script [py "queued"; py "queued"; py "delivered"]))
                        (py "M1") (py "Alice") (py "+15551234567") 0%nat))
   = [ (py "M1", Ret (py "queued")); (py "M1", Ret (py "queued"));
       (py "M1", Ret (py "delivered")) ] /\
   value_of (check_message_status
               (scripted (py "AC1") [] (script [py "queued"; py "queued"; py "delivered"]))
               (py "M1") (py "Alice") (py "+15551234567") 0%nat)
   = Ret true /\
   delivery_outcomes
     (trace_of (check_message_status
                  (scripted (py "AC1") [] (script [py "queued"; py "queued"; py "delivered"]))
                  (py "M1") (py "Alice") (py "+15551234567") 0%nat))
   = [(py "Alice", py "+15551234567", Delivered)]) /\
  (length (fetches (trace_of (check_message_status
                                (scripted (py "AC1") [] (always "queued"))
                                (py "M2") (py "Alice") (py "+15551234567") 0%nat)))
   = 10%nat /\
   delivery_outcomes
     (trace_of (check_message_status
                  (scripted (py "AC1") [] (always "queued"))
                  (py "M2") (py "Alice") (py "+15551234567") 0%nat))
   = [(py "Alice", py "+15551234567", Unknown)]).
Proof.
  split.
  - apply (proj1 (proj2 (C5_poll_stops_at_first_terminal_status_or_after_ten
             (scripted (py "AC1") [] (script [py "queued"; py "queued"; py "delivered"]))
             (py "M1") (py "Alice") (py "+15551234567") 0%nat
             [py "queued"; py "queued"] ltac:(repeat constructor)))
           (py "delivered") (repeat (Exc (py "HTTP 503 error")) 7));
      vm_compute; reflexivity.
  - destruct (proj2 (proj2 (C5_poll_stops_at_first_terminal_status_or_after_ten
             (scripted (py "AC1") [] (always "queued"))
             (py "M2") (py "Alice") (py "+15551234567") 0%nat
             (repeat (py "queued") 10) ltac:(repeat constructor)))
             ltac:(vm_compute; reflexivity)) as (_ & -> & _ & ->).
    split; vm_compute; reflexivity.
Defined.

(** C6: when a fetch raises, after any number of non-terminal statuses,
    the check makes no further fetch: it logs the failure and returns
    false, and the outcome is [Unknown]. *)
Theorem C6_poll_error_abandons_polling {P} (client : Client P)
    (message_sid name phone : pystr) (p : P) (pending : list pystr)
    (e : pystr) (rest : list (result pystr)) :
  Forall (fun status => terminal status = false) pending ->
  answers client 10 message_sid p = map Ret pending ++ Exc e :: rest ->
  fetches (trace_of (check_message_status client message_sid name phone p))
    = map (fun st => (message_sid, Ret st)) pending ++ [(message_sid, Exc e)] /\
  value_of (check_message_status client message_sid name phone p) = Ret false /\
  logged (trace_of (check_message_status client message_sid name phone p))
    = [FailedToCheck name phone e] /\
  delivery_outcomes (trace_of (check_message_status client message_sid name phone p))
    = [(name, phone, Unknown)].
Proof.
  intros Hpending Hans.
  destruct (check_message_status_observed client message_sid name phone p)
    as [-> ->].
  pose proof (answers_length client 10 message_sid p) as Hlen.
  rewrite Hans in *. rewrite length_app, length_map in Hlen. cbn [length] in Hlen.
  rewrite poll_events_pending, poll_value_pending by (done || lia).
  destruct (10 - length pending)%nat as [|m] eqn:Hm; [lia|].
  cbn [poll_events poll_value]. unfold delivery_outcomes.
  rewrite fetches_app, logged_app, fetches_pending, logged_pending. done.
Qed.

Lemma C6_poll_error_abandons_polling_witness :
  fetches (trace_of (check_message_status
                       (scripted (py "AC1") [] (script [py "queued"; py "sent"]))
                       (py "M3") (py "Alice") (py "+15551234567") 0%nat))
    = [ (py "M3", Ret (py "queued")); (py "M3", Ret (py "sent"));
        (py "M3", Exc (py "HTTP 503 error")) ] /\
  value_of (check_message_status
              (scripted (py "AC1") [] (script [py "queued"; py "sent"]))
              (py "M3") (py "Alice") (py "+15551234567") 0%nat) = Ret false /\
  logged (trace_of (check_message_status
                      (scripted (py "AC1") [] (script [py "queued"; py "sent"]))
                      (py "M3") (py "Alice") (py "+15551234567") 0%nat))
    = [FailedToCheck (py "Alice") (py "+15551234567") (py "HTTP 503 error")] /\
  delivery_outcomes
    (trace_of (check_message_status
                 (scripted (py "AC1") [] (script [py "queued"; py "sent"]))
                 (py "M3") (py "Alice") (py "+15551234567") 0%nat))
    = [(py "Alice", py "+15551234567", Unknown)].
Proof.
  apply (C6_poll_error_abandons_polling
           (scripted (py "AC1") [] (script [py "queued"; py "sent"]))
           (py "M3") (py "Alice") (py "+15551234567") 0%nat
           [py "queued"; py "sent"] (py "HTTP 503 error")
           (repeat (Exc (py "HTTP 503 error")) 7)).
  - repeat constructor.
  - vm_compute. reflexivity.
Defined.

(** ** C7: a failed send stays in its job *)

Lemma progress_values_app (t1 t2 : list event) :
  progress_values (t1 ++ t2) = progress_values t1 ++ progress_values t2.
Proof. apply omap_app. Qed.

Lemma progress_values_events (v n : nat) :
  progress_values (progress_events v n) = seq (S v) n.
Proof.
  revert v. induction n as [|n IH]; intros v; [done|].
  cbn [progress_events seq].
  change (progress_values (ProgressValue (S v) :: UpdateIdletasks :: ?t))
    with (S v :: progress_values t).
  by rewrite IH.
Qed.

Lemma progress_values_Logged (l : list log_record) :
  progress_values (map Logged l) = [].
Proof. by induction l. Qed.

Lemma progress_values_workers (from_ : pystr)
    (answered : list (nat * job * result pystr)) :
  progress_values (workers_trace from_ answered) = [].
Proof.
  unfold workers_trace. induction answered as [|x answered IH]; [done|].
  cbn [map concat]. by rewrite progress_values_app, IH.
Qed.

Lemma progress_values_poll (n : nat) (message_sid name phone : pystr)
    (answers : list (result pystr)) :
  progress_values (poll_events n message_sid name phone answers) = [].
Proof.
  revert answers. induction n as [|n IH]; intros answers; [done|].
  destruct answers as [|[status|e] rest]; [done| |done].
  cbn [poll_events].
  destruct (pystr_eqb status (py "delivered")); [done|].
  destruct (pystr_eqb status (py "failed") || pystr_eqb status (py "undelivered"));
    [done|].
  exact (IH rest).
Qed.

Lemma progress_values_checks (checked : list (sid_entry_t * list (result pystr))) :
  progress_values (checks_trace checked) = [].
Proof.
  unfold checks_trace. induction checked as [|[[[sid name] phone] ans] checked IH];
    [done|].
  cbn [map concat fst snd]. rewrite !progress_values_app, IH, progress_values_poll.
  by destruct (poll_value 10 ans).
Qed.

(** C7: [send_sms] never raises, whatever the provider does.  In a run
    that got past its checks every eligible row has its send made, whether
    or not other sends failed; every send is logged under its own number
    with what the provider answered to it, [SendFailed] for an exception and
    [Sent] for an identifier; the progress bar advances once per send; and
    the run goes on to its end. *)
Theorem C7_send_failure_stays_in_its_job {P} (client : Client P)
    (customer_data : option (list row)) (opted_out_numbers : gset pystr)
    (w : widgets) (sched_workers sched_completed : list nat) (p : P) :
  (exists v,
      value_of (send_sms client customer_data opted_out_numbers w
                  sched_workers sched_completed p) = Ret v) /\
  (started (trace_of (send_sms client customer_data opted_out_numbers w
                        sched_workers sched_completed p)) = true ->
   exists rows,
     customer_data = Some rows /\
     map create_to
       (creates (trace_of (send_sms client customer_data opted_out_numbers w
                             sched_workers sched_completed p)))
       ≡ₚ map Phone_Number (List.filter (eligible opted_out_numbers) rows) /\
     send_outcomes (trace_of (send_sms client customer_data opted_out_numbers w
                                sched_workers sched_completed p))
       ≡ₚ omap (skip_outcome opted_out_numbers) rows
          ++ map create_outcome
              (creates (trace_of (send_sms client customer_data opted_out_numbers w
                                    sched_workers sched_completed p))) /\
     progress_values (trace_of (send_sms client customer_data opted_out_numbers w
                                  sched_workers sched_completed p))
       = seq 0 (S (length (creates
                             (trace_of (send_sms client customer_data
                                          opted_out_numbers w
                                          sched_workers sched_completed p))))) /\
     SendingFinished
       ∈ logged (trace_of (send_sms client customer_data opted_out_numbers w
                             sched_workers sched_completed p))).
Proof.
  split.
  - destruct (send_sms_cases client customer_data opted_out_numbers w
                sched_workers sched_completed p)
      as [(err & p1 & t1 & _ & -> & _)
         |(rows & answered & checked & p1 & _ & _ & _ & _ & _ & ->)]; by eexists.
  - intros Hstarted.
    destruct (started_anatomy client _ _ _ _ _ _ Hstarted)
      as (rows & answered & checked & Hdata & Ha & Hc & _ & ->).
    exists rows. rewrite started_send_outcomes.
    change (creates (Called ?c ?a :: ?t)) with (creates t).
    change (progress_values (Called ?c ?a :: ?t)) with (progress_values t).
    change (logged (Called ?c ?a :: ?t)) with (logged t).
    rewrite creates_run. split_and!; [done| |done| |].
    + by rewrite creates_to_workers, (answered_jobs _ _ _ Ha), jobs_of_phones.
    + unfold run_trace.
      rewrite !progress_values_app, progress_values_Logged, progress_values_workers,
        progress_values_events, progress_values_checks.
      rewrite creates_workers, length_map. cbn. by rewrite app_nil_r.
    + unfold run_trace. rewrite !logged_app, !elem_of_app.
      do 5 right. apply list_elem_of_here.
Qed.

Lemma C7_send_failure_stays_in_its_job_witness :
  value_of rejecting_run
    = Ret (Some [(py "SM+15559876543", py "Carl", py "+15559876543")]) /\
  send_outcomes (trace_of rejecting_run)
    ≡ₚ [ (py "+15551234567", SendFailed (py "HTTP 400 error: Unable to create record"));
         (py "+15559876543", Sent (py "SM+15559876543")) ] /\
  progress_values (trace_of rejecting_run) = [0; 1; 2]%nat /\
  SendingFinished ∈ logged (trace_of rejecting_run).
Proof.
  destruct (C7_send_failure_stays_in_its_job
              (scripted (py "AC1") [py "+15551234567"] (always "delivered"))
              (Some [alice; carl]) ∅ sample_widgets [] [] 0%nat)
    as [_ Hrun].
  destruct Hrun as (rows & [= <-] & _ & Houtcomes & Hprogress & Hfinished);
    [vm_compute; reflexivity|].
  split_and!; [vm_compute; reflexivity| | |exact Hfinished].
  - etrans; [exact Houtcomes|]. vm_compute. reflexivity.
  - etrans; [exact Hprogress|]. vm_compute. reflexivity.
Defined.

(** ** C8 and C10: which recipient a status check is made for *)

Lemma returned_started {P} (client : Client P) (customer_data : option (list row))
    (opted_out_numbers : gset pystr) (w : widgets)
    (sched_workers sched_completed : list nat) (p : P)
    (message_sids : list sid_entry_t) :
  value_of (send_sms client customer_data opted_out_numbers w
              sched_workers sched_completed p) = Ret (Some message_sids) ->
  started (trace_of (send_sms client customer_data opted_out_numbers w
                       sched_workers sched_completed p)) = true.
Proof.
  destruct (send_sms_cases client customer_data opted_out_numbers w
              sched_workers sched_completed p)
    as [(err & p1 & t1 & _ & -> & _)
       |(rows & answered & checked & p1 & _ & _ & _ & _ & _ & ->)]; [done|].
  intros _. reflexivity.
Qed.

(** X20.  One status check per entry of [message_sids], that is per send
    that returned a non-empty identifier; a failed send gets none.  The
    fetches of a check ask for the identifier of its entry. *)
Lemma one_status_check_per_sent_message {P} (client : Client P)
    (customer_data : option (list row)) (opted_out_numbers : gset pystr)
    (w : widgets) (sched_workers sched_completed : list nat) (p : P) :
  started (trace_of (send_sms client customer_data opted_out_numbers w
                       sched_workers sched_completed p)) = true ->
  length (delivery_outcomes
            (trace_of (send_sms client customer_data opted_out_numbers w
                         sched_workers sched_completed p)))
  = length (sent_sids
              (trace_of (send_sms client customer_data opted_out_numbers w
                           sched_workers sched_completed p)))
  /\ forall f,
      f ∈ fetches (trace_of (send_sms client customer_data opted_out_numbers w
                               sched_workers sched_completed p)) ->
      fst f ∈ sent_sids (trace_of (send_sms client customer_data opted_out_numbers w
                                     sched_workers sched_completed p)).
Proof.
  intros Hstarted.
  destruct (started_anatomy client _ _ _ _ _ _ Hstarted)
    as (rows & answered & checked & Hdata & Ha & Hc & _ & ->).
  pose proof (message_sids_sent _ _ (phone_entry w) _ _ _ _ _ Ha Hc) as Hsids.
  change (delivery_outcomes (Called ?c ?a :: ?t)) with (delivery_outcomes t).
  change (fetches (Called ?c ?a :: ?t)) with (fetches t).
  unfold sent_sids. change (creates (Called ?c ?a :: ?t)) with (creates t).
  rewrite delivery_outcomes_run, fetches_run, creates_run.
  fold (sent_sids (workers_trace (phone_entry w) answered)). split.
  - rewrite <- Hsids. by rewrite !length_map.
  - intros f Hf. apply fetches_checks in Hf.
    rewrite <- Hsids. by rewrite map_map.
Qed.

(** C8 fails on the code.  Alice's message is sent and delivered, Bob's
    number is malformed; the one delivery outcome of the run is recorded
    under Bob's name and number, whose send outcome is
    [SkippedInvalidPhone], and none under Alice's. *)
Lemma C8_delivery_outcome_attached_to_a_skipped_recipient :
  send_outcomes (trace_of misattributed_run)
    ≡ₚ [ (py "bad-phone", SkippedInvalidPhone);
         (py "+15551234567", Sent (py "SM+15551234567")) ] /\
  creates (trace_of misattributed_run)
    = [ (py "Hi Alice!", py "+15550000000", py "+15551234567",
         Ret (py "SM+15551234567")) ] /\
  fetches (trace_of misattributed_run)
    = [ (py "SM+15551234567", Ret (py "delivered")) ] /\
  delivery_outcomes (trace_of misattributed_run)
    = [ (py "Bob", py "bad-phone", Delivered) ].
Proof. split_and!; vm_compute; reflexivity. Qed.

(** C10: every entry of [message_sids] carries the name and the phone
    number of the last row of the spreadsheet, the row the submission loop
    iterated last, whichever row its message was sent to; and so does every
    delivery outcome the status checks log. *)
Theorem C10_entries_record_the_last_row {P} (client : Client P)
    (customer_data : option (list row)) (opted_out_numbers : gset pystr)
    (w : widgets) (sched_workers sched_completed : list nat) (p : P)
    (message_sids : list sid_entry_t) :
  value_of (send_sms client customer_data opted_out_numbers w
              sched_workers sched_completed p) = Ret (Some message_sids) ->
  message_sids <> [] ->
  exists rows r,
    customer_data = Some rows /\ last rows = Some r /\
    Forall (fun e : sid_entry_t =>
              snd (fst e) = Name r /\ snd e = Phone_Number r) message_sids /\
    Forall (fun d : pystr * pystr * DeliveryOutcome =>
              fst (fst d) = Name r /\ snd (fst d) = Phone_Number r)
      (delivery_outcomes
         (trace_of (send_sms client customer_data opted_out_numbers w
                      sched_workers sched_completed p))) /\
    length (delivery_outcomes
              (trace_of (send_sms client customer_data opted_out_numbers w
                           sched_workers sched_completed p)))
    = length message_sids.
Proof.
  intros Hvalue Hne.
  destruct (started_anatomy client _ _ _ _ _ _ (returned_started _ _ _ _ _ _ _ _ Hvalue))
    as (rows & answered & checked & Hdata & Ha & Hc & Hvalue' & ->).
  rewrite Hvalue' in Hvalue. injection Hvalue as <-.
  change (delivery_outcomes (Called ?c ?a :: ?t)) with (delivery_outcomes t).
  rewrite delivery_outcomes_run.
  destruct (last rows) as [r|] eqn:Hlast; [|by rewrite Hc in Hne].
  assert (Forall (fun e : sid_entry_t =>
                    snd (fst e) = Name r /\ snd e = Phone_Number r)
            (map fst checked)) as Hall.
  { rewrite Hc. cbn [entries_of]. apply Forall_forall. intros e He.
    apply list_elem_of_omap in He as (fut & _ & He). unfold entry_of in He.
    destruct (snd fut) as [[[|ch sid]|]|]; by simplify_eq. }
  exists rows, r. split_and!; [done|done|done| |by rewrite !length_map].
  apply Forall_map. cbn [fst snd]. by apply Forall_map in Hall.
Qed.

Lemma C10_entries_record_the_last_row_witness :
  exists rows r,
    Some [alice; bob; carl] = Some rows /\ last rows = Some r /\
    Forall (fun e : sid_entry_t =>
              snd (fst e) = Name r /\ snd e = Phone_Number r)
      [(py "SM+15551234567", py "Carl", py "+15559876543")] /\
    Forall (fun d : pystr * pystr * DeliveryOutcome =>
              fst (fst d) = Name r /\ snd (fst d) = Phone_Number r)
      (delivery_outcomes (trace_of sample_run)) /\
    length (delivery_outcomes (trace_of sample_run))
    = length [(py "SM+15551234567", py "Carl", py "+15559876543")].
Proof.
  apply (C10_entries_record_the_last_row
           (scripted (py "AC1") [] (always "delivered"))
           (Some [alice; bob; carl]) {[ py "+15559876543" ]} sample_widgets
           [] [] 0%nat [(py "SM+15551234567", py "Carl", py "+15559876543")]).
  - vm_compute. reflexivity.
  - discriminate.
Defined.

(** ** C9: the checks before a run *)

Lemma errors_shown_app (t1 t2 : list event) :
  errors_shown (t1 ++ t2) = errors_shown t1 ++ errors_shown t2.
Proof. apply omap_app. Qed.

Lemma errors_shown_Logged (l : list log_record) : errors_shown (map Logged l) = [].
Proof. by induction l. Qed.

Lemma errors_shown_workers (from_ : pystr)
    (answered : list (nat * job * result pystr)) :
  errors_shown (workers_trace from_ answered) = [].
Proof.
  unfold workers_trace. induction answered as [|x answered IH]; [done|].
  cbn [map concat]. by rewrite errors_shown_app, IH.
Qed.

Lemma errors_shown_progress (v n : nat) : errors_shown (progress_events v n) = [].
Proof. revert v. induction n as [|n IH]; intros v; [done|]. exact (IH (S v)). Qed.

Lemma errors_shown_poll (n : nat) (message_sid name phone : pystr)
    (answers : list (result pystr)) :
  errors_shown (poll_events n message_sid name phone answers) = [].
Proof.
  revert answers. induction n as [|n IH]; intros answers; [done|].
  destruct answers as [|[status|e] rest]; [done| |done].
  cbn [poll_events].
  destruct (pystr_eqb status (py "delivered")); [done|].
  destruct (pystr_eqb status (py "failed") || pystr_eqb status (py "undelivered"));
    [done|].
  exact (IH rest).
Qed.

Lemma errors_shown_checks (checked : list (sid_entry_t * list (result pystr))) :
  errors_shown (checks_trace checked) = [].
Proof.
  unfold checks_trace. induction checked as [|[[[sid name] phone] ans] checked IH];
    [done|].
  cbn [map concat fst snd]. rewrite !errors_shown_app, IH, errors_shown_poll.
  by destruct (poll_value 10 ans).
Qed.

(** A run that got past its checks shows no error box. *)
Lemma errors_shown_run (opted_out_numbers : gset pystr) (rows : list row)
    (from_ : pystr) (answered : list (nat * job * result pystr))
    (checked : list (sid_entry_t * list (result pystr))) :
  errors_shown (run_trace opted_out_numbers rows from_ answered checked) = [].
Proof.
  unfold run_trace.
  by rewrite !errors_shown_app, errors_shown_Logged, errors_shown_workers,
    errors_shown_progress, errors_shown_checks.
Qed.

Lemma falsy_false (s : pystr) : falsy s = false <-> s <> [].
Proof. by destruct s. Qed.

(** What it takes to pass the checks. *)
Lemma preflight_None {P} (client : Client P) (customer_data : option (list row))
    (w : widgets) (p : P) :
  preflight client customer_data w p = None <->
  (exists rows, customer_data = Some rows) /\
  sid_entry w <> [] /\ token_entry w <> [] /\ phone_entry w <> [] /\
  message_entry w <> [] /\
  exists p1, accounts_fetch client (sid_entry w) (token_entry w) p = (Ret tt, p1).
Proof.
  unfold preflight. destruct customer_data as [rows|].
  2:{ split; [done|]. by intros ([rows ?] & _). }
  rewrite <- !falsy_false.
  destruct (falsy (sid_entry w)); [cbn; split; [done|by intros (_ & ? & _)]|].
  destruct (falsy (token_entry w)); [cbn; split; [done|by intros (_ & _ & ? & _)]|].
  destruct (falsy (phone_entry w));
    [cbn; split; [done|by intros (_ & _ & _ & ? & _)]|].
  destruct (falsy (message_entry w));
    [cbn; split; [done|by intros (_ & _ & _ & _ & ? & _)]|].
  cbn [orb].
  destruct (accounts_fetch client (sid_entry w) (token_entry w) p) as [[[]|e] p1];
    cbn [fst].
  - split; [|done]. intros _. split_and!; eauto.
  - split; [done|]. by intros (_ & _ & _ & _ & _ & p2 & ?).
Qed.

(** Against C9 as stated: with a spreadsheet loaded that has no row, the
    checks pass and the run goes through its phases with nothing to send. *)
Lemma C9_empty_recipient_list_starts_a_run :
  started (trace_of (send_sms (scripted (py "AC1") [] (always "delivered"))
                       (Some []) ∅ sample_widgets [] [] 0%nat)) = true /\
  reported_error (trace_of (send_sms (scripted (py "AC1") [] (always "delivered"))
                              (Some []) ∅ sample_widgets [] [] 0%nat)) = None /\
  value_of (send_sms (scripted (py "AC1") [] (always "delivered"))
              (Some []) ∅ sample_widgets [] [] 0%nat) = Ret (Some []).
Proof. split_and!; vm_compute; reflexivity. Qed.

(** C9, as the code has it: the run starts exactly when a spreadsheet has
    been loaded (with or without rows), the three credential fields and the
    message text are not empty, and the provider accepts the credentials.
    Otherwise the function returns without a send or a status fetch, after
    an error box that tells which check failed: missing data, missing
    credentials, missing message text, or authentication failure, the first
    that fails in this order. *)
Theorem C9_run_starts_only_past_the_checks {P} (client : Client P)
    (customer_data : option (list row)) (opted_out_numbers : gset pystr)
    (w : widgets) (sched_workers sched_completed : list nat) (p : P) :
  reported_error (trace_of (send_sms client customer_data opted_out_numbers w
                              sched_workers sched_completed p))
    = preflight client customer_data w p /\
  (started (trace_of (send_sms client customer_data opted_out_numbers w
                        sched_workers sched_completed p)) = true <->
   (exists rows, customer_data = Some rows) /\
   sid_entry w <> [] /\ token_entry w <> [] /\ phone_entry w <> [] /\
   message_entry w <> [] /\
   exists p1, accounts_fetch client (sid_entry w) (token_entry w) p = (Ret tt, p1)) /\
  (started (trace_of (send_sms client customer_data opted_out_numbers w
                        sched_workers sched_completed p)) = false ->
   value_of (send_sms client customer_data opted_out_numbers w
               sched_workers sched_completed p) = Ret None /\
   creates (trace_of (send_sms client customer_data opted_out_numbers w
                        sched_workers sched_completed p)) = [] /\
   fetches (trace_of (send_sms client customer_data opted_out_numbers w
                        sched_workers sched_completed p)) = [] /\
   exists err,
     reported_error (trace_of (send_sms client customer_data opted_out_numbers w
                                 sched_workers sched_completed p)) = Some err).
Proof.
  rewrite <- preflight_None.
  destruct (send_sms_cases client customer_data opted_out_numbers w
              sched_workers sched_completed p)
    as [(err & p1 & t1 & Hpre & -> & Herr & Hnot & Hcreates & Hfetches)
       |(rows & answered & checked & p1 & Hpre & _ & _ & _ & _ & ->)];
    cbn [trace_of value_of fst snd]; rewrite Hpre.
  - split_and!; [done|by rewrite Hnot|]. intros _. split_and!; eauto.
  - split_and!; [|done|done].
    unfold reported_error.
    change (omap error_of_event (Called ?c ?a :: ?t)) with (errors_shown t).
    by rewrite errors_shown_run.
Qed.

Lemma C9_run_starts_only_past_the_checks_witness :
  reported_error
    (trace_of (send_sms (scripted (py "AC1") [] (always "delivered"))
                 (Some [alice]) ∅
                 {| sid_entry := py "AC1"; token_entry := [];
                    phone_entry := py "+15550000000";
                    message_entry := py "Hi {Name}!" |} [] [] 0%nat))
    = Some MissingCredentials /\
  creates
    (trace_of (send_sms (scripted (py "AC1") [] (always "delivered"))
                 (Some [alice]) ∅
                 {| sid_entry := py "AC1"; token_entry := [];
                    phone_entry := py "+15550000000";
                    message_entry := py "Hi {Name}!" |} [] [] 0%nat)) = [].
Proof.
  destruct (C9_run_starts_only_past_the_checks
              (scripted (py "AC1") [] (always "delivered"))
              (Some [alice]) ∅
              {| sid_entry := py "AC1"; token_entry := [];
                 phone_entry := py "+15550000000";
                 message_entry := py "Hi {Name}!" |} [] [] 0%nat)
    as (Herr & _ & Hnot).
  destruct Hnot as (_ & Hcreates & _); [vm_compute; reflexivity|].
  split; [|exact Hcreates].
  etrans; [exact Herr|]. vm_compute. reflexivity.
Defined.

(** The four error boxes, and a wrong account identifier. *)
Example preflight_errors :
  reported_error (trace_of (send_sms (scripted (py "AC1") [] (always "delivered"))
                              None ∅ sample_widgets [] [] 0%nat))
    = Some MissingData /\
  reported_error
    (trace_of (send_sms (scripted (py "AC1") [] (always "delivered"))
                 (Some [alice]) ∅
                 {| sid_entry := py "AC1"; token_entry := py "secret";
                    phone_entry := py "+15550000000"; message_entry := [] |}
                 [] [] 0%nat))
    = Some MissingTemplate /\
  trace_of (send_sms (scripted (py "AC1") [] (always "delivered"))
              (Some [alice]) ∅
              {| sid_entry := py "AC2"; token_entry := py "secret";
                 phone_entry := py "+15550000000";
                 message_entry := py "Hi {Name}!" |} [] [] 0%nat)
    = [ Called (AccountsFetch (py "AC2") (py "secret"))
               (Exc (py "HTTP 401 error: Unable to fetch record"));
        ShowError (py "Authentication Error") authentication_error_text;
        Logged (FailedToAuthenticate (py "HTTP 401 error: Unable to fetch record"));
        SendButton (py "Sending Failed") (py "red") ].
Proof. split_and!; vm_compute; reflexivity. Qed.

(** * Further properties *)

(** ** [is_valid_phone_number] *)

(** X1.  The numbers the validation accepts: a plus sign, then one or more
    Unicode decimal digits, then nothing, or one newline that ends the
    string. *)
Theorem valid_phone_number_shape (phone : pystr) :
  is_valid_phone_number phone = true <->
  exists digits,
    digits <> [] /\ Forall (fun c => is_decimal c = true) digits /\
    (phone = plus_sign :: digits \/ phone = plus_sign :: digits ++ [newline]).
Proof. unfold is_valid_phone_number. by apply re_match_plus_digits_spec. Qed.

(** ** [check_message_status] *)

Lemma calls_app (t1 t2 : list event) : calls (t1 ++ t2) = calls t1 ++ calls t2.
Proof. apply omap_app. Qed.

Lemma sleeps_app (t1 t2 : list event) : sleeps (t1 ++ t2) = sleeps t1 ++ sleeps t2.
Proof. apply omap_app. Qed.

Lemma printed_app (t1 t2 : list event) : printed (t1 ++ t2) = printed t1 ++ printed t2.
Proof. apply omap_app. Qed.

(** What the events of a check are, whatever the answers. *)
Lemma poll_events_shape (n : nat) (message_sid name phone : pystr)
    (answers : list (result pystr)) :
  (exists record,
      logged (poll_events n message_sid name phone answers) = [record] /\
      (record = MessageDelivered name phone \/ record = MessageFailed name phone \/
       record = StatusUnknown name phone \/
       exists e, record = FailedToCheck name phone e) /\
      (poll_value n answers = true <-> record = MessageDelivered name phone)) /\
  calls (poll_events n message_sid name phone answers)
    = repeat (MessagesFetch message_sid)
        (length (fetches (poll_events n message_sid name phone answers))) /\
  sleeps (poll_events n message_sid name phone answers)
    = repeat 2 (length (nonterminal_prefix (take n answers))) /\
  (n <> 0%nat -> answers <> [] ->
   fetches (poll_events n message_sid name phone answers) <> []).
Proof.
  revert answers. induction n as [|n IH]; intros answers.
  - cbn. split_and!; [|done|done|done].
    exists (StatusUnknown name phone). split_and!; [done|tauto|done].
  - destruct answers as [|[status|e] rest].
    + cbn. split_and!; [|done|done|done].
      exists (StatusUnknown name phone). split_and!; [done|tauto|done].
    + destruct (IH rest) as ((record & Hlog & Hkind & Hvalue) & Hcalls & Hsleeps & _).
      cbn [poll_events poll_value take nonterminal_prefix]. unfold terminal.
      destruct (pystr_eqb status (py "delivered")).
      { cbn. split_and!; [|done|done|done].
        exists (MessageDelivered name phone). split_and!; [done|tauto|done]. }
      destruct (pystr_eqb status (py "failed") || pystr_eqb status (py "undelivered"))
        eqn:Hfailed.
      { rewrite <- orb_assoc, Hfailed. cbn. split_and!; [|done|done|done].
        exists (MessageFailed name phone). split_and!; [done|tauto|done]. }
      rewrite <- orb_assoc, Hfailed. cbn [orb].
      change (Called (MessagesFetch message_sid) (Ret status) :: Slept 2 :: ?t)
        with ([Called (MessagesFetch message_sid) (Ret status); Slept 2] ++ t).
      rewrite logged_app, calls_app, sleeps_app, fetches_app, Hcalls, Hsleeps.
      split_and!; [by exists record|done|done|done].
    + cbn. split_and!; [|done|done|done].
      exists (FailedToCheck name phone e). split_and!; [done|eauto|done].
Qed.

(** X2.  A status check never raises and leaves exactly one log record,
    under the name and number it was given: delivered, failed, unknown or
    failed to check.  It returns true exactly when that record is the
    delivery. *)
Theorem check_message_status_logs_one_record {P} (client : Client P)
    (message_sid name phone : pystr) (p : P) :
  exists returned record,
    value_of (check_message_status client message_sid name phone p) = Ret returned /\
    logged (trace_of (check_message_status client message_sid name phone p))
      = [record] /\
    (record = MessageDelivered name phone \/ record = MessageFailed name phone \/
     record = StatusUnknown name phone \/
     exists e, record = FailedToCheck name phone e) /\
    (returned = true <-> record = MessageDelivered name phone).
Proof.
  destruct (check_message_status_observed client message_sid name phone p)
    as [-> ->].
  destruct (poll_events_shape 10 message_sid name phone
              (answers client 10 message_sid p))
    as ((record & Hlog & Hkind & Hvalue) & _).
  by exists (poll_value 10 (answers client 10 message_sid p)), record.
Qed.

(** X3.  A status check calls the provider at least once and at most ten
    times, and for nothing but the status of the message it was given: it
    never sends, and never asks about another message. *)
Theorem check_message_status_only_fetches_its_message {P} (client : Client P)
    (message_sid name phone : pystr) (p : P) :
  exists fetched,
    (1 <= fetched <= 10)%nat /\
    calls (trace_of (check_message_status client message_sid name phone p))
      = repeat (MessagesFetch message_sid) fetched /\
    length (fetches (trace_of (check_message_status client message_sid name phone p)))
      = fetched.
Proof.
  destruct (check_message_status_observed client message_sid name phone p)
    as [_ ->].
  pose proof (answers_length client 10 message_sid p) as Hlen.
  destruct (poll_events_shape 10 message_sid name phone
              (answers client 10 message_sid p))
    as (_ & Hcalls & _ & Hsome).
  destruct (poll_events_refine 10 message_sid name phone
              (answers client 10 message_sid p)) as (_ & Hfetches & _ & Hle).
  eexists. split_and!; [| |exact Hcalls|reflexivity].
  - destruct (fetches (poll_events 10 message_sid name phone
                         (answers client 10 message_sid p))) eqn:E; cbn; [|lia].
    destruct Hsome; [done| |done]. intros Hnil. by rewrite Hnil in Hlen.
  - rewrite Hfetches, length_map, length_take. lia.
Qed.

Lemma nonterminal_prefix_length (answers : list (result pystr)) :
  (length (nonterminal_prefix answers) <= length answers)%nat.
Proof.
  induction answers as [|[status|e] rest IH]; cbn; [lia| |lia].
  destruct (terminal status); cbn; lia.
Qed.

(** X4.  A status check waits two seconds after every non-terminal status
    it fetches, the tenth included, and at no other time: as many waits as
    there are non-terminal statuses before the first terminal status or
    error among the ten answers, so ten waits when no answer settles the
    status. *)
Theorem check_message_status_waits {P} (client : Client P)
    (message_sid name phone : pystr) (p : P) :
  sleeps (trace_of (check_message_status client message_sid name phone p))
    = repeat 2 (length (nonterminal_prefix (answers client 10 message_sid p))) /\
  (length (sleeps (trace_of (check_message_status client message_sid name phone p)))
   <= 10)%nat.
Proof.
  destruct (check_message_status_observed client message_sid name phone p)
    as [_ ->].
  pose proof (answers_length client 10 message_sid p) as Hlen.
  destruct (poll_events_shape 10 message_sid name phone
              (answers client 10 message_sid p))
    as (_ & _ & Hsleeps & _).
  rewrite firstn_all2 in Hsleeps by lia. rewrite Hsleeps. split; [done|].
  rewrite repeat_length.
  pose proof (nonterminal_prefix_length (answers client 10 message_sid p)). lia.
Qed.

(** ** [send_sms]: the provider's side *)

Lemma calls_Logged (l : list log_record) : calls (map Logged l) = [].
Proof. by induction l. Qed.

Lemma calls_progress (v n : nat) : calls (progress_events v n) = [].
Proof. revert v. induction n as [|n IH]; intros v; [done|]. exact (IH (S v)). Qed.

Lemma calls_workers (from_ : pystr) (answered : list (nat * job * result pystr)) :
  calls (workers_trace from_ answered)
  = map create_call (creates (workers_trace from_ answered)).
Proof.
  unfold workers_trace. induction answered as [|x answered IH]; [done|].
  cbn [map concat]. by rewrite calls_app, creates_app, map_app, IH.
Qed.

Lemma calls_poll (n : nat) (message_sid name phone : pystr)
    (answers : list (result pystr)) :
  calls (poll_events n message_sid name phone answers)
  = map fetch_call (fetches (poll_events n message_sid name phone answers)).
Proof.
  revert answers. induction n as [|n IH]; intros answers; [done|].
  destruct answers as [|[status|e] rest]; [done| |done].
  cbn [poll_events].
  destruct (pystr_eqb status (py "delivered")); [done|].
  destruct (pystr_eqb status (py "failed") || pystr_eqb status (py "undelivered"));
    [done|].
  change (Called (MessagesFetch message_sid) (Ret status) :: Slept 2 :: ?t)
    with ([Called (MessagesFetch message_sid) (Ret status); Slept 2] ++ t).
  by rewrite calls_app, fetches_app, map_app, IH.
Qed.

Lemma calls_checks (checked : list (sid_entry_t * list (result pystr))) :
  calls (checks_trace checked) = map fetch_call (fetches (checks_trace checked)).
Proof.
  unfold checks_trace. induction checked as [|[[[sid name] phone] ans] checked IH];
    [done|].
  cbn [map concat fst snd].
  rewrite !calls_app, !fetches_app, !map_app, IH, calls_poll.
  by destruct (poll_value 10 ans).
Qed.

(** X5.  The two phases of a run, as the provider sees them: the check of
    the credentials first, then all the sends, then all the status
    fetches.  No message is sent once the status checks have begun. *)
Theorem sends_precede_status_fetches {P} (client : Client P)
    (customer_data : option (list row)) (opted_out_numbers : gset pystr)
    (w : widgets) (sched_workers sched_completed : list nat) (p : P) :
  started (trace_of (send_sms client customer_data opted_out_numbers w
                       sched_workers sched_completed p)) = true ->
  calls (trace_of (send_sms client customer_data opted_out_numbers w
                     sched_workers sched_completed p))
  = AccountsFetch (sid_entry w) (token_entry w)
    :: map create_call
         (creates (trace_of (send_sms client customer_data opted_out_numbers w
                               sched_workers sched_completed p)))
    ++ map fetch_call
         (fetches (trace_of (send_sms client customer_data opted_out_numbers w
                               sched_workers sched_completed p))).
Proof.
  intros Hstarted.
  destruct (started_anatomy client _ _ _ _ _ _ Hstarted)
    as (rows & answered & checked & _ & _ & _ & _ & ->).
  change (calls (Called ?c ?a :: ?t)) with (c :: calls t).
  change (creates (Called ?c ?a :: ?t)) with (creates t).
  change (fetches (Called ?c ?a :: ?t)) with (fetches t).
  rewrite creates_run, fetches_run. unfold run_trace.
  rewrite !calls_app, calls_Logged, calls_workers, calls_progress, calls_checks.
  cbn. by rewrite app_nil_r.
Qed.

Lemma sends_precede_status_fetches_witness :
  calls (trace_of sample_run)
  = [ AccountsFetch (py "AC1") (py "secret");
      MessagesCreate (py "Hi Alice!") (py "+15550000000") (py "+15551234567");
      MessagesFetch (py "SM+15551234567") ].
Proof.
  etrans.
  - apply (sends_precede_status_fetches
             (scripted (py "AC1") [] (always "delivered"))
             (Some [alice; bob; carl]) {[ py "+15559876543" ]} sample_widgets
             [] [] 0%nat).
    vm_compute. reflexivity.
  - vm_compute. reflexivity.
Defined.

(** X6.  When no spreadsheet is loaded, a credential field is empty or
    the message text is empty, [send_sms] does not contact the provider at
    all, not even to check the credentials, and logs nothing; when the
    provider rejects the credentials, that check is the only call made. *)
Theorem failed_checks_leave_the_provider_alone {P} (client : Client P)
    (customer_data : option (list row)) (opted_out_numbers : gset pystr)
    (w : widgets) (sched_workers sched_completed : list nat) (p : P)
    (err : PreflightError) :
  preflight client customer_data w p = Some err ->
  calls (trace_of (send_sms client customer_data opted_out_numbers w
                     sched_workers sched_completed p))
    = match err with
      | AuthenticationFailure => [AccountsFetch (sid_entry w) (token_entry w)]
      | _ => []
      end /\
  (err <> AuthenticationFailure ->
   state_of (send_sms client customer_data opted_out_numbers w
               sched_workers sched_completed p) = p /\
   logged (trace_of (send_sms client customer_data opted_out_numbers w
                       sched_workers sched_completed p)) = []).
Proof.
  unfold preflight, send_sms. destruct customer_data as [rows|].
  2:{ by intros [= <-]. }
  destruct (falsy (sid_entry w) || falsy (token_entry w) || falsy (phone_entry w)).
  { by intros [= <-]. }
  destruct (falsy (message_entry w)).
  { by intros [= <-]. }
  rewrite bind_run. unfold attempt, authenticate.
  destruct (accounts_fetch client (sid_entry w) (token_entry w) p) as [[[]|e] p1];
    cbn [fst]; [done|].
  by intros [= <-].
Qed.

Lemma failed_checks_leave_the_provider_alone_witness :
  calls (trace_of (send_sms (scripted (py "AC1") [] (always "delivered"))
                     (Some [alice]) ∅
                     {| sid_entry := py "AC1"; token_entry := py "secret";
                        phone_entry := []; message_entry := py "Hi {Name}!" |}
                     [] [] 7%nat)) = [] /\
  (MissingCredentials <> AuthenticationFailure ->
   state_of (send_sms (scripted (py "AC1") [] (always "delivered"))
               (Some [alice]) ∅
               {| sid_entry := py "AC1"; token_entry := py "secret";
                  phone_entry := []; message_entry := py "Hi {Name}!" |}
               [] [] 7%nat) = 7%nat /\
   logged (trace_of (send_sms (scripted (py "AC1") [] (always "delivered"))
                       (Some [alice]) ∅
                       {| sid_entry := py "AC1"; token_entry := py "secret";
                          phone_entry := []; message_entry := py "Hi {Name}!" |}
                       [] [] 7%nat)) = []).
Proof.
  apply (failed_checks_leave_the_provider_alone
           (scripted (py "AC1") [] (always "delivered"))
           (Some [alice]) ∅
           {| sid_entry := py "AC1"; token_entry := py "secret";
              phone_entry := []; message_entry := py "Hi {Name}!" |}
           [] [] 7%nat MissingCredentials).
  vm_compute. reflexivity.
Defined.

(** ** [send_sms]: the status checks of a run *)

Lemma fetches_checks_grouped (checked : list (sid_entry_t * list (result pystr))) :
  Forall (fun x => length (snd x) = 10%nat) checked ->
  exists counts,
    length counts = length checked /\
    Forall (fun k => (1 <= k <= 10)%nat) counts /\
    map fst (fetches (checks_trace checked))
    = concat (zip_with (fun (e : sid_entry_t) k => repeat (fst (fst e)) k)
                (map fst checked) counts).
Proof.
  unfold checks_trace.
  induction 1 as [|[[[sid name] phone] ans] checked Hlen _ (counts & Hn & Hall & IH)].
  - by exists [].
  - cbn [snd] in Hlen.
    destruct (poll_events_refine 10 sid name phone ans) as (_ & Hfetches & _ & Hle).
    destruct (poll_events_shape 10 sid name phone ans) as (_ & _ & _ & Hsome).
    exists (snd (poll_spec 10 ans) :: counts). split_and!.
    + cbn. by rewrite Hn.
    + constructor; [|done]. split; [|done].
      destruct (snd (poll_spec 10 ans)) eqn:E; [|lia].
      rewrite take_0 in Hfetches. destruct Hsome; [done| |done].
      intros ->. done.
    + cbn [map concat zip_with fst snd].
      rewrite !fetches_app, !map_app, IH, Hfetches, map_map. cbn [fst].
      replace (fetches [Printed (if poll_value 10 ans then py "Message sent"
                                 else py "Message haven't sent")])
        with (@nil (pystr * result pystr)) by (by destruct (poll_value 10 ans)).
      cbn [map app]. f_equal.
      rewrite <- (length_take_le ans (snd (poll_spec 10 ans))) at 2 by lia.
      generalize (take (snd (poll_spec 10 ans)) ans). intros l.
      induction l as [|a l IHl]; [done|]. cbn. by rewrite IHl.
Qed.

Lemma concat_repeat_length {A B} (f : A -> B) (xs : list A) (counts : list nat)
    (bound : nat) :
  Forall (fun k => (k <= bound)%nat) counts ->
  (length (concat (zip_with (fun x k => repeat (f x) k) xs counts))
   <= bound * length xs)%nat.
Proof.
  intros Hall. revert xs. induction Hall as [|k counts Hk _ IH]; intros xs.
  - destruct xs; cbn; lia.
  - destruct xs as [|x xs]; [cbn; lia|].
    cbn [zip_with concat length]. rewrite length_app, repeat_length.
    specialize (IH xs). lia.
Qed.

(** X7.  The status checks run one after the other in the order of
    [message_sids]: the fetches for one message, between one and ten, are
    all made before the first fetch for the next, so a run makes at most ten
    status fetches per entry. *)
Theorem status_fetches_follow_message_sids {P} (client : Client P)
    (customer_data : option (list row)) (opted_out_numbers : gset pystr)
    (w : widgets) (sched_workers sched_completed : list nat) (p : P) :
  started (trace_of (send_sms client customer_data opted_out_numbers w
                       sched_workers sched_completed p)) = true ->
  exists message_sids counts,
    value_of (send_sms client customer_data opted_out_numbers w
                sched_workers sched_completed p) = Ret (Some message_sids) /\
    length counts = length message_sids /\
    Forall (fun k => (1 <= k <= 10)%nat) counts /\
    map fst (fetches (trace_of (send_sms client customer_data opted_out_numbers w
                                  sched_workers sched_completed p)))
    = concat (zip_with (fun (e : sid_entry_t) k => repeat (fst (fst e)) k)
                message_sids counts) /\
    (length (fetches (trace_of (send_sms client customer_data opted_out_numbers w
                                  sched_workers sched_completed p)))
     <= 10 * length message_sids)%nat.
Proof.
  intros Hstarted.
  destruct (send_sms_started client _ _ _ _ _ _ Hstarted)
    as (rows & answered & checked & p' & _ & _ & _ & Hlen & ->).
  cbn [value_of trace_of fst snd].
  change (fetches (Called ?c ?a :: ?t)) with (fetches t). rewrite fetches_run.
  destruct (fetches_checks_grouped checked Hlen) as (counts & Hn & Hall & Hgrouped).
  exists (map fst checked), counts. rewrite length_map.
  split_and!; [done..|].
  rewrite <- (length_map fst (fetches _)), Hgrouped.
  rewrite <- (length_map fst checked).
  apply (concat_repeat_length (fun e : sid_entry_t => fst (fst e))).
  eapply Forall_impl; [exact Hall|]. cbn. lia.
Qed.

Lemma status_fetches_follow_message_sids_witness :
  exists message_sids counts,
    value_of (send_sms (scripted (py "AC1") []
                          (script [py "queued"; py "failed"; py "delivered"]))
                (Some [alice; carl]) ∅ sample_widgets [] [] 0%nat)
      = Ret (Some message_sids) /\
    length counts = length message_sids /\
    Forall (fun k => (1 <= k <= 10)%nat) counts /\
    map fst (fetches (trace_of (send_sms (scripted (py "AC1") []
                                            (script [py "queued"; py "failed";
                                                     py "delivered"]))
                                  (Some [alice; carl]) ∅ sample_widgets
                                  [] [] 0%nat)))
    = concat (zip_with (fun (e : sid_entry_t) k => repeat (fst (fst e)) k)
                message_sids counts) /\
    (length (fetches (trace_of (send_sms (scripted (py "AC1") []
                                            (script [py "queued"; py "failed";
                                                     py "delivered"]))
                                  (Some [alice; carl]) ∅ sample_widgets
                                  [] [] 0%nat)))
     <= 10 * length message_sids)%nat.
Proof.
  apply (status_fetches_follow_message_sids
           (scripted (py "AC1") [] (script [py "queued"; py "failed"; py "delivered"]))
           (Some [alice; carl]) ∅ sample_widgets [] [] 0%nat).
  vm_compute. reflexivity.
Defined.

Lemma printed_Logged (l : list log_record) : printed (map Logged l) = [].
Proof. by induction l. Qed.

Lemma printed_progress (v n : nat) : printed (progress_events v n) = [].
Proof. revert v. induction n as [|n IH]; intros v; [done|]. exact (IH (S v)). Qed.

Lemma printed_workers (from_ : pystr) (answered : list (nat * job * result pystr)) :
  printed (workers_trace from_ answered) = [].
Proof.
  unfold workers_trace. induction answered as [|x answered IH]; [done|].
  cbn [map concat]. by rewrite printed_app, IH.
Qed.

Lemma printed_poll (n : nat) (message_sid name phone : pystr)
    (answers : list (result pystr)) :
  printed (poll_events n message_sid name phone answers) = [].
Proof.
  revert answers. induction n as [|n IH]; intros answers; [done|].
  destruct answers as [|[status|e] rest]; [done| |done].
  cbn [poll_events].
  destruct (pystr_eqb status (py "delivered")); [done|].
  destruct (pystr_eqb status (py "failed") || pystr_eqb status (py "undelivered"));
    [done|].
  exact (IH rest).
Qed.

Lemma printed_checks (checked : list (sid_entry_t * list (result pystr))) :
  printed (checks_trace checked)
  = map (fun x => verdict_line (fst (poll_spec 10 (snd x)))) checked.
Proof.
  unfold checks_trace.
  induction checked as [|[[[sid name] phone] ans] checked IH]; [done|].
  cbn [map concat fst snd]. rewrite !printed_app, IH, printed_poll.
  destruct (poll_events_refine 10 sid name phone ans) as (_ & _ & -> & _).
  by destruct (fst (poll_spec 10 ans)).
Qed.

(** X8.  The console gets one line per status check, in the order of the
    checks: "Message sent" when the check found the message delivered, and
    "Message haven't sent" for every other outcome, a failed delivery and
    an undetermined status alike. *)
Theorem one_printed_line_per_status_check {P} (client : Client P)
    (customer_data : option (list row)) (opted_out_numbers : gset pystr)
    (w : widgets) (sched_workers sched_completed : list nat) (p : P) :
  started (trace_of (send_sms client customer_data opted_out_numbers w
                       sched_workers sched_completed p)) = true ->
  printed (trace_of (send_sms client customer_data opted_out_numbers w
                       sched_workers sched_completed p))
  = map (fun d : pystr * pystr * DeliveryOutcome => verdict_line (snd d))
      (delivery_outcomes
         (trace_of (send_sms client customer_data opted_out_numbers w
                      sched_workers sched_completed p))).
Proof.
  intros Hstarted.
  destruct (started_anatomy client _ _ _ _ _ _ Hstarted)
    as (rows & answered & checked & _ & _ & _ & _ & ->).
  change (printed (Called ?c ?a :: ?t)) with (printed t).
  change (delivery_outcomes (Called ?c ?a :: ?t)) with (delivery_outcomes t).
  rewrite delivery_outcomes_run, map_map. unfold run_trace.
  rewrite !printed_app, printed_Logged, printed_workers, printed_progress.
  rewrite printed_checks. cbn [app]. by rewrite app_nil_r.
Qed.

Lemma one_printed_line_per_status_check_witness :
  printed (trace_of (send_sms (scripted (py "AC1") []
                                 (script [py "queued"; py "failed"; py "delivered"]))
                       (Some [alice; carl]) ∅ sample_widgets [] [] 0%nat))
  = [py "Message haven't sent"; py "Message sent"].
Proof.
  etrans.
  - apply (one_printed_line_per_status_check
             (scripted (py "AC1") [] (script [py "queued"; py "failed"; py "delivered"]))
             (Some [alice; carl]) ∅ sample_widgets [] [] 0%nat).
    vm_compute. reflexivity.
  - vm_compute. reflexivity.
Defined.

(** ** [send_sms]: the rows and the sends *)

Lemma progress_maxima_app (t1 t2 : list event) :
  progress_maxima (t1 ++ t2) = progress_maxima t1 ++ progress_maxima t2.
Proof. apply omap_app. Qed.

Lemma progress_maxima_Logged (l : list log_record) :
  progress_maxima (map Logged l) = [].
Proof. by induction l. Qed.

Lemma progress_maxima_progress (v n : nat) :
  progress_maxima (progress_events v n) = [].
Proof. revert v. induction n as [|n IH]; intros v; [done|]. exact (IH (S v)). Qed.

Lemma progress_maxima_workers (from_ : pystr)
    (answered : list (nat * job * result pystr)) :
  progress_maxima (workers_trace from_ answered) = [].
Proof.
  unfold workers_trace. induction answered as [|x answered IH]; [done|].
  cbn [map concat]. by rewrite progress_maxima_app, IH.
Qed.

Lemma progress_maxima_poll (n : nat) (message_sid name phone : pystr)
    (answers : list (result pystr)) :
  progress_maxima (poll_events n message_sid name phone answers) = [].
Proof.
  revert answers. induction n as [|n IH]; intros answers; [done|].
  destruct answers as [|[status|e] rest]; [done| |done].
  cbn [poll_events].
  destruct (pystr_eqb status (py "delivered")); [done|].
  destruct (pystr_eqb status (py "failed") || pystr_eqb status (py "undelivered"));
    [done|].
  exact (IH rest).
Qed.

Lemma progress_maxima_checks (checked : list (sid_entry_t * list (result pystr))) :
  progress_maxima (checks_trace checked) = [].
Proof.
  unfold checks_trace. induction checked as [|[[[sid name] phone] ans] checked IH];
    [done|].
  cbn [map concat fst snd]. rewrite !progress_maxima_app, IH, progress_maxima_poll.
  by destruct (poll_value 10 ans).
Qed.

Lemma filter_length_all {A} (f : A -> bool) (l : list A) :
  length (List.filter f l) = length l <-> Forall (fun x => f x = true) l.
Proof.
  induction l as [|x l IH]; [done|]. cbn [List.filter].
  pose proof (filter_length_le f l) as Hle.
  destruct (f x) eqn:Hx; cbn [length]; split.
  - intros [= Hlen]. constructor; [done|by apply IH].
  - intros [_ Hall]%Forall_cons. f_equal. by apply IH.
  - lia.
  - intros [Hfx _]%Forall_cons. congruence.
Qed.

Lemma last_seq (n : nat) : last (seq 0 (S n)) = Some n.
Proof. rewrite seq_S. cbn. by rewrite last_snoc. Qed.

(** X9.  The progress bar is scaled to the number of rows of the sheet but
    advances once per submitted send only: at the end of a run it stands at
    the number of eligible rows, and it is full exactly when no row was
    skipped. *)
Theorem progress_counts_the_sends {P} (client : Client P)
    (customer_data : option (list row)) (opted_out_numbers : gset pystr)
    (w : widgets) (sched_workers sched_completed : list nat) (p : P) :
  started (trace_of (send_sms client customer_data opted_out_numbers w
                       sched_workers sched_completed p)) = true ->
  exists rows final,
    customer_data = Some rows /\
    progress_maxima (trace_of (send_sms client customer_data opted_out_numbers w
                                 sched_workers sched_completed p))
      = [length rows] /\
    last (progress_values (trace_of (send_sms client customer_data opted_out_numbers w
                                       sched_workers sched_completed p)))
      = Some final /\
    final = length (List.filter (eligible opted_out_numbers) rows) /\
    (final = length rows <->
     Forall (fun r => eligible opted_out_numbers r = true) rows).
Proof.
  intros Hstarted.
  destruct (started_anatomy client _ _ _ _ _ _ Hstarted)
    as (rows & answered & checked & Hdata & Ha & _ & _ & Htrace).
  exists rows, (length (List.filter (eligible opted_out_numbers) rows)).
  rewrite Htrace.
  change (progress_maxima (Called ?c ?a :: ?t)) with (progress_maxima t).
  change (progress_values (Called ?c ?a :: ?t)) with (progress_values t).
  unfold run_trace.
  split_and!; [done| | |done|apply filter_length_all].
  - rewrite !progress_maxima_app, progress_maxima_Logged, progress_maxima_workers,
      progress_maxima_progress, progress_maxima_checks. done.
  - rewrite !progress_values_app, progress_values_Logged, progress_values_workers,
      progress_values_events, progress_values_checks.
    cbn [progress_values omap list_omap app]. rewrite app_nil_r.
    change (0%nat :: seq 1 (length answered)) with (seq 0 (S (length answered))).
    rewrite last_seq. f_equal.
    rewrite <- (length_map (fun x : nat * job * result pystr => snd (fst x))).
    rewrite (answered_jobs _ _ _ Ha). unfold jobs_of. by rewrite length_map.
Qed.

Lemma progress_counts_the_sends_witness :
  exists rows final,
    Some [alice; bob; carl] = Some rows /\
    progress_maxima (trace_of sample_run) = [length rows] /\
    last (progress_values (trace_of sample_run)) = Some final /\
    final = length (List.filter (eligible {[ py "+15559876543" ]}) rows) /\
    (final = length rows <->
     Forall (fun r => eligible {[ py "+15559876543" ]} r = true) rows).
Proof.
  apply (progress_counts_the_sends
           (scripted (py "AC1") [] (always "delivered"))
           (Some [alice; bob; carl]) {[ py "+15559876543" ]} sample_widgets
           [] [] 0%nat).
  vm_compute. reflexivity.
Defined.

Lemma filter_ext_bool {A} (f g : A -> bool) (l : list A) :
  (forall x, f x = g x) -> List.filter f l = List.filter g l.
Proof.
  intros Hfg. induction l as [|x l IH]; [done|]. cbn. by rewrite Hfg, IH.
Qed.

(** X10.  The module creates [opted_out_numbers] empty and nothing in it
    adds a number.  With the set empty no row is ever skipped as opted out:
    the rows that get a send are exactly those with a valid number. *)
Theorem empty_opt_out_set_skips_nobody {P} (client : Client P)
    (customer_data : option (list row)) (w : widgets)
    (sched_workers sched_completed : list nat) (p : P) :
  started (trace_of (send_sms client customer_data ∅ w
                       sched_workers sched_completed p)) = true ->
  exists rows,
    customer_data = Some rows /\
    (forall phone,
        (phone, SkippedOptedOut)
          ∉ send_outcomes (trace_of (send_sms client customer_data ∅ w
                                       sched_workers sched_completed p))) /\
    map create_to (creates (trace_of (send_sms client customer_data ∅ w
                                        sched_workers sched_completed p)))
      ≡ₚ map Phone_Number
           (List.filter (fun r => is_valid_phone_number (Phone_Number r)) rows).
Proof.
  intros Hstarted.
  destruct (started_anatomy client _ _ _ _ _ _ Hstarted)
    as (rows & answered & checked & Hdata & Ha & _ & _ & ->).
  exists rows. rewrite started_send_outcomes.
  change (creates (Called ?c ?a :: ?t)) with (creates t). rewrite creates_run.
  assert (forall r, eligible ∅ r = is_valid_phone_number (Phone_Number r)) as Helig.
  { intros r. unfold eligible.
    rewrite (bool_decide_eq_false_2 (Phone_Number r ∈ (∅ : gset pystr)))
      by apply not_elem_of_empty.
    apply andb_true_r. }
  split_and!; [done| |].
  - intros phone [Hin|Hin]%elem_of_app.
    + apply list_elem_of_omap in Hin as (r & _ & Hskip).
      rewrite skip_outcome_cases in Hskip.
      rewrite (bool_decide_eq_false_2 (Phone_Number r ∈ (∅ : gset pystr))) in Hskip
        by apply not_elem_of_empty.
      by destruct (negb (is_valid_phone_number (Phone_Number r))).
    + apply list_elem_of_fmap in Hin as (c & Hout & _).
      unfold create_outcome in Hout. by destruct (snd c).
  - rewrite creates_to_workers, (answered_jobs _ _ _ Ha), jobs_of_phones.
    by rewrite (filter_ext_bool _ _ rows Helig).
Qed.

Lemma empty_opt_out_set_skips_nobody_witness :
  exists rows,
    Some [alice; bob; carl] = Some rows /\
    (forall phone,
        (phone, SkippedOptedOut)
          ∉ send_outcomes
              (trace_of (send_sms (scripted (py "AC1") [] (always "delivered"))
                           (Some [alice; bob; carl]) ∅ sample_widgets
                           [] [] 0%nat))) /\
    map create_to
      (creates (trace_of (send_sms (scripted (py "AC1") [] (always "delivered"))
                            (Some [alice; bob; carl]) ∅ sample_widgets
                            [] [] 0%nat)))
      ≡ₚ map Phone_Number
           (List.filter (fun r => is_valid_phone_number (Phone_Number r)) rows).
Proof.
  apply (empty_opt_out_set_skips_nobody
           (scripted (py "AC1") [] (always "delivered"))
           (Some [alice; bob; carl]) sample_widgets [] [] 0%nat).
  vm_compute. reflexivity.
Defined.

(** The witness of [sends_carry_the_rendering]: the one send of the sample
    run is Alice's. *)
Lemma sends_carry_the_rendering_witness :
  exists r, r ∈ [alice; bob; carl] /\
            (py "Hi Alice!", py "+15550000000", py "+15551234567")
            = (render (message_entry sample_widgets) (Name r),
               phone_entry sample_widgets, Phone_Number r).
Proof.
  apply (sends_carry_the_rendering
           (scripted (py "AC1") [] (always "delivered"))
           {[ py "+15559876543" ]} sample_widgets [] [] 0%nat [alice; bob; carl]
           (py "Hi Alice!", py "+15550000000", py "+15551234567",
            Ret (py "SM+15551234567"))).
  vm_compute. apply list_elem_of_here.
Defined.

Lemma filter_length_perm {A} (f : A -> bool) (l1 l2 : list A) :
  l1 ≡ₚ l2 -> length (List.filter f l1) = length (List.filter f l2).
Proof.
  induction 1 as [|x l1 l2 _ IH|x y l|l1 l2 l3 _ IH1 _ IH2]; cbn [List.filter].
  - done.
  - destruct (f x); cbn [length]; by rewrite IH.
  - by destruct (f x), (f y).
  - by rewrite IH1.
Qed.

Lemma filter_map_length {A B} (g : A -> B) (f : B -> bool) (l : list A) :
  length (List.filter f (map g l)) = length (List.filter (fun x => f (g x)) l).
Proof.
  induction l as [|x l IH]; [done|]. cbn [map List.filter].
  destruct (f (g x)); cbn [length]; by rewrite IH.
Qed.

Lemma filter_filter_length {A} (f g : A -> bool) (l : list A) :
  length (List.filter f (List.filter g l))
  = length (List.filter (fun x => g x && f x) l).
Proof.
  induction l as [|x l IH]; [done|]. cbn [List.filter].
  destruct (g x); cbn [andb List.filter]; [|done].
  destruct (f x); cbn [length]; by rewrite IH.
Qed.

(** X11.  Rows are not deduplicated: a number gets as many sends as there
    are eligible rows that carry it, and none when the rows that carry it
    are not eligible. *)
Theorem one_send_per_eligible_row {P} (client : Client P)
    (customer_data : option (list row)) (opted_out_numbers : gset pystr)
    (w : widgets) (sched_workers sched_completed : list nat) (p : P)
    (phone : pystr) :
  started (trace_of (send_sms client customer_data opted_out_numbers w
                       sched_workers sched_completed p)) = true ->
  exists rows,
    customer_data = Some rows /\
    length (List.filter (fun c => pystr_eqb (create_to c) phone)
              (creates (trace_of (send_sms client customer_data opted_out_numbers w
                                    sched_workers sched_completed p))))
    = length (List.filter
                (fun r => eligible opted_out_numbers r
                          && pystr_eqb (Phone_Number r) phone) rows).
Proof.
  intros Hstarted.
  destruct (started_anatomy client _ _ _ _ _ _ Hstarted)
    as (rows & answered & checked & Hdata & Ha & _ & _ & ->).
  exists rows. split; [done|].
  change (creates (Called ?c ?a :: ?t)) with (creates t). rewrite creates_run.
  rewrite <- (filter_map_length create_to (fun to => pystr_eqb to phone)).
  rewrite creates_to_workers.
  rewrite (filter_length_perm _ _ _
             (Permutation_map job_phone (answered_jobs _ _ _ Ha))).
  rewrite jobs_of_phones, filter_map_length. apply filter_filter_length.
Qed.

Lemma one_send_per_eligible_row_witness :
  exists rows,
    Some [alice; carl; alice] = Some rows /\
    length (List.filter (fun c => pystr_eqb (create_to c) (py "+15551234567"))
              (creates (trace_of (send_sms (scripted (py "AC1") [] (always "sent"))
                                    (Some [alice; carl; alice]) ∅ sample_widgets
                                    [2%nat] [] 0%nat))))
    = length (List.filter
                (fun r => eligible ∅ r
                          && pystr_eqb (Phone_Number r) (py "+15551234567")) rows).
Proof.
  apply (one_send_per_eligible_row
           (scripted (py "AC1") [] (always "sent"))
           (Some [alice; carl; alice]) ∅ sample_widgets [2%nat] [] 0%nat
           (py "+15551234567")).
  vm_compute. reflexivity.
Defined.

(** The witness of [one_status_check_per_sent_message]: one send is
    refused, the other gets the one status check of the run. *)
Lemma one_status_check_per_sent_message_witness :
  length (delivery_outcomes (trace_of rejecting_run))
  = length (sent_sids (trace_of rejecting_run))
  /\ forall f,
      f ∈ fetches (trace_of rejecting_run) ->
      fst f ∈ sent_sids (trace_of rejecting_run).
Proof.
  apply (one_status_check_per_sent_message
           (scripted (py "AC1") [py "+15551234567"] (always "delivered"))
           (Some [alice; carl]) ∅ sample_widgets [] [] 0%nat).
  vm_compute. reflexivity.
Defined.

(** ** [load_customer_data] *)

(** X12.  Loading returns a frame exactly when a file was chosen, it could
    be read, and it has both a [Name] and a [Phone Number] column; the
    global then holds that frame, a success box is shown and the button
    reads "Data Loaded". *)
Theorem load_returns_only_a_complete_frame (chosen : pystr)
    (read_excel : pystr -> result frame) (customer_data : option frame)
    (loaded : frame) :
  (fst (fst (load_customer_data chosen read_excel customer_data)) = Some loaded <->
   chosen <> [] /\ read_excel chosen = Ret loaded /\
   py "Name" ∈ columns loaded /\ py "Phone Number" ∈ columns loaded) /\
  (fst (fst (load_customer_data chosen read_excel customer_data)) = Some loaded ->
   snd (fst (load_customer_data chosen read_excel customer_data)) = Some loaded /\
   load_boxes (snd (load_customer_data chosen read_excel customer_data))
     = [LoadShowInfo (py "Success") (py "Customer data loaded successfully!")] /\
   button_left (snd (load_customer_data chosen read_excel customer_data))
     = Some (py "Data Loaded", py "green")).
Proof.
  unfold load_customer_data, load_body. rewrite <- falsy_false.
  destruct (falsy chosen); [cbn; split; [split; [done|by intros (? & _)]|done]|].
  destruct (read_excel chosen) as [f|e];
    [|cbn; split; [split; [done|by intros (_ & ? & _)]|done]].
  destruct (bool_decide (py "Name" ∈ columns f)) eqn:Hname; cbn [negb orb].
  - destruct (bool_decide (py "Phone Number" ∈ columns f)) eqn:Hphone; cbn [negb].
    + apply bool_decide_eq_true in Hname, Hphone. cbn [fst snd]. split.
      * split; [by intros [= <-]|]. by intros (_ & [= <-] & _).
      * by intros [= <-].
    + apply bool_decide_eq_false in Hphone. cbn [fst snd]. split; [|done].
      split; [done|]. by intros (_ & [= <-] & _ & ?).
  - apply bool_decide_eq_false in Hname. cbn [fst snd]. split; [|done].
    split; [done|]. by intros (_ & [= <-] & ? & _).
Qed.

Lemma load_returns_only_a_complete_frame_witness :
  snd (fst (load_customer_data (py "good.xlsx") sample_disk None)) = Some good_frame /\
  load_boxes (snd (load_customer_data (py "good.xlsx") sample_disk None))
    = [LoadShowInfo (py "Success") (py "Customer data loaded successfully!")] /\
  button_left (snd (load_customer_data (py "good.xlsx") sample_disk None))
    = Some (py "Data Loaded", py "green").
Proof.
  apply (proj2 (load_returns_only_a_complete_frame
                  (py "good.xlsx") sample_disk None good_frame)).
  reflexivity.
Defined.

(** X13.  The global is assigned before the columns are checked: a sheet
    that was read replaces the data loaded before, also when it lacks a
    required column and loading fails.  In that case the function returns
    nothing, shows and logs the error about the columns, and leaves in
    [customer_data] a frame without the required columns. *)
Theorem failed_load_replaces_the_data (chosen : pystr)
    (read_excel : pystr -> result frame) (customer_data : option frame)
    (loaded : frame) :
  chosen <> [] ->
  read_excel chosen = Ret loaded ->
  snd (fst (load_customer_data chosen read_excel customer_data)) = Some loaded /\
  (fst (fst (load_customer_data chosen read_excel customer_data)) = None <->
   py "Name" ∉ columns loaded \/ py "Phone Number" ∉ columns loaded) /\
  (fst (fst (load_customer_data chosen read_excel customer_data)) = None ->
   load_boxes (snd (load_customer_data chosen read_excel customer_data))
     = [LoadShowError (py "Error")
          (py "Failed to load data: " ++ missing_columns_message)] /\
   LoadLoggedError (py "Failed to load data: " ++ missing_columns_message)
     ∈ snd (load_customer_data chosen read_excel customer_data) /\
   button_left (snd (load_customer_data chosen read_excel customer_data))
     = Some (py "Load Failed", py "red")).
Proof.
  intros Hchosen%falsy_false Hread. unfold load_customer_data, load_body.
  rewrite Hchosen, Hread.
  destruct (bool_decide (py "Name" ∈ columns loaded)) eqn:Hname; cbn [negb orb].
  - destruct (bool_decide (py "Phone Number" ∈ columns loaded)) eqn:Hphone;
      cbn [negb fst snd].
    + apply bool_decide_eq_true in Hname, Hphone.
      split_and!; [done| |done]. split; [done|]. by intros [?|?].
    + apply bool_decide_eq_false in Hphone.
      split_and!; [done| |]; [split; [by right|done]|].
      intros _. split_and!; [done| |done].
      apply elem_of_app. right. apply list_elem_of_further, list_elem_of_here.
  - apply bool_decide_eq_false in Hname. cbn [fst snd].
    split_and!; [done| |]; [split; [by left|done]|].
    intros _. split_and!; [done| |done].
    apply elem_of_app. right. apply list_elem_of_further, list_elem_of_here.
Qed.

Lemma failed_load_replaces_the_data_witness :
  snd (fst (load_customer_data (py "bad.xlsx") sample_disk (Some good_frame)))
    = Some bad_frame /\
  fst (fst (load_customer_data (py "bad.xlsx") sample_disk (Some good_frame))) = None.
Proof.
  destruct (failed_load_replaces_the_data (py "bad.xlsx") sample_disk
              (Some good_frame) bad_frame) as (Hglobal & Hreturned & _);
    [discriminate|reflexivity|].
  split; [exact Hglobal|]. apply Hreturned. left.
  vm_compute. intros H. inversion H as [|? ? ? H']; subst.
  inversion H' as [|? ? ? H'']; subst. inversion H''.
Defined.

(** X14.  A file that cannot be read leaves the loaded data as it was:
    the function returns nothing, shows and logs the reader's error, and
    the button reads "Load Failed". *)
Theorem unreadable_file_keeps_the_data (chosen : pystr)
    (read_excel : pystr -> result frame) (customer_data : option frame)
    (e : pystr) :
  chosen <> [] ->
  read_excel chosen = Exc e ->
  fst (fst (load_customer_data chosen read_excel customer_data)) = None /\
  snd (fst (load_customer_data chosen read_excel customer_data)) = customer_data /\
  load_boxes (snd (load_customer_data chosen read_excel customer_data))
    = [LoadShowError (py "Error") (py "Failed to load data: " ++ e)] /\
  LoadLoggedError (py "Failed to load data: " ++ e)
    ∈ snd (load_customer_data chosen read_excel customer_data) /\
  button_left (snd (load_customer_data chosen read_excel customer_data))
    = Some (py "Load Failed", py "red").
Proof.
  intros Hchosen%falsy_false Hread. unfold load_customer_data, load_body.
  rewrite Hchosen, Hread. cbn [fst snd]. split_and!; [done..| |done].
  apply elem_of_app. right. apply list_elem_of_further, list_elem_of_here.
Qed.

Lemma unreadable_file_keeps_the_data_witness :
  fst (fst (load_customer_data (py "gone.xlsx") sample_disk (Some good_frame))) = None /\
  snd (fst (load_customer_data (py "gone.xlsx") sample_disk (Some good_frame)))
    = Some good_frame /\
  load_boxes (snd (load_customer_data (py "gone.xlsx") sample_disk (Some good_frame)))
    = [LoadShowError (py "Error")
         (py "Failed to load data: " ++ py "[Errno 2] No such file or directory")] /\
  LoadLoggedError (py "Failed to load data: "
                   ++ py "[Errno 2] No such file or directory")
    ∈ snd (load_customer_data (py "gone.xlsx") sample_disk (Some good_frame)) /\
  button_left (snd (load_customer_data (py "gone.xlsx") sample_disk (Some good_frame)))
    = Some (py "Load Failed", py "red").
Proof.
  apply (unreadable_file_keeps_the_data (py "gone.xlsx") sample_disk
           (Some good_frame) (py "[Errno 2] No such file or directory")).
  - discriminate.
  - reflexivity.
Defined.

(** X15.  The button is set to "Loading..." before the file dialog opens
    and is not set back when the dialog is cancelled: it is left reading
    "Loading..." exactly when no file was chosen.  A cancelled dialog reads
    no file, shows no box and leaves the loaded data as it was. *)
Theorem cancelled_dialog_leaves_the_button_loading (chosen : pystr)
    (read_excel : pystr -> result frame) (customer_data : option frame) :
  (button_left (snd (load_customer_data chosen read_excel customer_data))
     = Some (py "Loading...", py "orange") <-> chosen = []) /\
  (chosen = [] ->
   load_customer_data chosen read_excel customer_data
   = (None, customer_data,
      [LoadButton (py "Loading...") (py "orange"); LoadUpdateIdletasks;
       AskOpenFilename])).
Proof.
  unfold load_customer_data, load_body. destruct chosen as [|c chosen].
  { cbn. by split. }
  cbn [falsy]. split; [|done]. split; [|done].
  destruct (read_excel (c :: chosen)) as [f|e]; [|by cbn].
  by destruct (negb (bool_decide (py "Name" ∈ columns f))
               || negb (bool_decide (py "Phone Number" ∈ columns f))).
Qed.

(** ** [send_sms] on the loaded frame *)

Lemma position_None (key : pystr) (keys : list pystr) :
  position key keys = None <-> key ∉ keys.
Proof.
  induction keys as [|k keys IH]; cbn [position].
  - split; [intros _; apply not_elem_of_nil | done].
  - rewrite not_elem_of_cons.
    destruct (bool_decide_reflect (key = k)) as [->|Hne].
    + split; [done | by intros [? _]].
    + destruct (position key keys) as [i|]; cbn [option_map].
      * split; [done|]. intros [_ Hnot]. by apply IH in Hnot.
      * split; [|done]. intros _. split; [done|]. by apply IH.
Qed.

(** Every row of a frame has a cell under every column of the frame, and
    under no other label. *)
Lemma has_cell_row_at (data : frame) (cs : list cell) (key : pystr) :
  has_cell key (row_at data cs) = bool_decide (key ∈ columns data).
Proof.
  unfold has_cell, cell_of, row_at. cbn [index cells].
  destruct (position key (columns data)) as [i|] eqn:Hposition;
    cbn [option_map]; symmetry.
  - apply bool_decide_eq_true. destruct (decide (key ∈ columns data)) as [|Hnot];
      [done|]. apply position_None in Hnot. congruence.
  - apply bool_decide_eq_false. by apply position_None.
Qed.

Lemma has_cells_row_at (data : frame) (cs : list cell) :
  py "Name" ∈ columns data ->
  py "Phone Number" ∈ columns data ->
  has_cells (row_at data cs) = true.
Proof.
  intros Hname Hphone. unfold has_cells. rewrite !has_cell_row_at.
  by rewrite !bool_decide_eq_true_2.
Qed.

Lemma jobs_of_cons (opted_out_numbers : gset pystr) (message_template : pystr)
    (r : row) (rows : list row) :
  jobs_of opted_out_numbers message_template (r :: rows)
  = (if eligible opted_out_numbers r then [job_of message_template r] else [])
    ++ jobs_of opted_out_numbers message_template rows.
Proof.
  unfold jobs_of. cbn [List.filter]. by destruct (eligible opted_out_numbers r).
Qed.

Lemma skips_of_cons (opted_out_numbers : gset pystr) (r : row) (rows : list row) :
  skips_of opted_out_numbers (r :: rows)
  = skips_of opted_out_numbers [r] ++ skips_of opted_out_numbers rows.
Proof.
  unfold skips_of. cbn [omap list_omap].
  by destruct (skip_record opted_out_numbers r).
Qed.

Lemma last_map {A B} (f : A -> B) (l : list A) :
  last (map f l) = option_map f (last l).
Proof.
  induction l as [|a l IH]; [done|].
  cbn [map]. rewrite !last_cons, IH. by destruct (last l).
Qed.

Lemma load_customer_data_returned (chosen : pystr)
    (read_excel : pystr -> result frame) (customer_data : option frame)
    (loaded : frame) :
  fst (fst (load_customer_data chosen read_excel customer_data)) = Some loaded ->
  snd (fst (load_customer_data chosen read_excel customer_data)) = Some loaded /\
  py "Name" ∈ columns loaded /\ py "Phone Number" ∈ columns loaded.
Proof.
  unfold load_customer_data, load_body.
  destruct (falsy chosen); [done|].
  destruct (read_excel chosen) as [f|e]; [|done].
  destruct (bool_decide (py "Name" ∈ columns f)) eqn:Hname; [|done].
  destruct (bool_decide (py "Phone Number" ∈ columns f)) eqn:Hphone; [|done].
  apply bool_decide_eq_true in Hname, Hphone. cbn. by intros [= <-].
Qed.

Lemma load_customer_data_global (chosen : pystr)
    (read_excel : pystr -> result frame) (customer_data : option frame)
    (loaded : frame) :
  chosen <> [] ->
  read_excel chosen = Ret loaded ->
  snd (fst (load_customer_data chosen read_excel customer_data)) = Some loaded.
Proof.
  intros Hchosen%falsy_false Hread. unfold load_customer_data, load_body.
  rewrite Hchosen, Hread.
  by destruct (negb (bool_decide (py "Name" ∈ columns loaded))
               || negb (bool_decide (py "Phone Number" ∈ columns loaded))).
Qed.

Section FrameFacts.

Context {P : Type} (client : Client P).

(** A row that has its cells and can be handled is handled as the row of
    text it stands for. *)
Lemma submit_row_typed (opted_out_numbers : gset pystr) (message_template : pystr)
    (s : series) (p : P) :
  has_cells s = true ->
  renders opted_out_numbers s = true ->
  submit_row opted_out_numbers message_template s p
  = (Ret (if eligible opted_out_numbers (row_of s)
          then Some (job_of message_template (row_of s)) else None), p,
     map Logged (skips_of opted_out_numbers [row_of s])).
Proof.
  unfold has_cells, has_cell, renders, text_name, row_of, submit_row, getitem.
  destruct (cell_of s (py "Name")) as [name|]; [|done].
  destruct (cell_of s (py "Phone Number")) as [phone|]; [|done].
  intros _. unfold eligible, skips_of, skip_record, job_of.
  cbn [default from_option id Name Phone_Number omap list_omap].
  do 2 (rewrite bind_run; cbn [ret app]).
  destruct (is_valid_phone_number (str_of phone)); cbn [negb andb].
  - destruct (bool_decide (str_of phone ∈ opted_out_numbers)); cbn [negb].
    + by intros _.
    + rewrite orb_false_r. by destruct name as [name|type_name text].
  - by intros _.
Qed.


Lemma submit_row_key_error (opted_out_numbers : gset pystr)
    (message_template : pystr) (s : series) (p : P) :
  has_cells s = false ->
  submit_row opted_out_numbers message_template s p
  = (Exc (key_error (if has_cell (py "Name") s
                     then py "Phone Number" else py "Name")), p, []).
Proof.
  unfold has_cells, has_cell, submit_row, getitem.
  destruct (cell_of s (py "Name")) as [name|]; [|done].
  by destruct (cell_of s (py "Phone Number")) as [phone|].
Qed.

End FrameFacts.

Section FrameRuns.

Context {P : Type} (client : Client P).

(** The rows that can be handled are handled as the typed loop handles
    the rows of text they stand for; the loop goes on with the rest of the
    frame. *)
Lemma submit_loop_on_frame_app (opted_out_numbers : gset pystr)
    (message_template : pystr) (before rest : list series)
    (row_var : option series) (futures : list job) (p : P) :
  Forall (fun s => has_cells s = true /\ renders opted_out_numbers s = true)
    before ->
  submit_loop_on_frame opted_out_numbers message_template (before ++ rest)
    row_var futures p
  = let '(r, p', t) :=
      submit_loop_on_frame opted_out_numbers message_template rest
        (from_option Some row_var (last before))
        (futures ++ jobs_of opted_out_numbers message_template (map row_of before)) p
    in (r, p', map Logged (skips_of opted_out_numbers (map row_of before)) ++ t).
Proof.
  intros Hrows. revert row_var futures.
  induction Hrows as [|s before [Hcells Hrenders] _ IH]; intros row_var futures.
  - cbn. rewrite app_nil_r. by destruct (submit_loop_on_frame _ _ _ _ _ _) as [[? ?] ?].
  - assert (from_option Some (Some s) (last before)
            = from_option Some row_var (last (s :: before))) as Hlast.
    { rewrite last_cons. by destruct (last before). }
    cbn [app submit_loop_on_frame map]. rewrite bind_run. unfold attempt.
    rewrite submit_row_typed by done.
    rewrite jobs_of_cons, (skips_of_cons _ _ (map row_of before)), map_app.
    destruct (eligible opted_out_numbers (row_of s)).
    + rewrite IH, Hlast, (app_assoc futures).
      destruct (submit_loop_on_frame _ _ _ _ _ _) as [[? ?] ?].
      by rewrite app_assoc.
    + cbn [app]. rewrite IH, Hlast.
      destruct (submit_loop_on_frame _ _ _ _ _ _) as [[? ?] ?].
      by rewrite app_assoc.
Qed.

Lemma completed_loop_on_frame_typed (completed : list future)
    (row_var : option series)
    (message_sids : list frame_entry_t) (value : nat) (p : P) :
  (forall s, row_var = Some s -> has_cells s = true) ->
  map_run (map entry_text)
    (completed_loop_on_frame completed row_var message_sids value p)
  = completed_loop completed (option_map row_of row_var)
      (map entry_text message_sids) value p.
Proof.
  intros Hcells. revert message_sids value p.
  induction completed as [|[i r] completed IH]; intros message_sids value p; [done|].
  cbn [completed_loop_on_frame completed_loop snd].
  rewrite !(bind_run (reraise r)).
  destruct r as [o|e]; [|done]. cbn [reraise ret].
  destruct (truthy o).
  - destruct row_var as [s|]; [|done].
    specialize (Hcells s eq_refl). unfold has_cells, has_cell in Hcells.
    cbn [option_map read_row read_row_on_frame]. unfold getitem, row_of.
    destruct (cell_of s (py "Name")) as [name|] eqn:Hname; [|done].
    destruct (cell_of s (py "Phone Number")) as [phone|] eqn:Hphone; [|done].
    unfold bind, ret, emit. cbn [default from_option id Name Phone_Number app].
    specialize (IH (message_sids ++ [(default [] o, name, phone)]) (S value) p).
    rewrite map_app in IH. cbn [map option_map] in IH.
    change (entry_text (default [] o, name, phone))
      with (default [] o, str_of name, str_of phone) in IH.
    unfold row_of in IH. rewrite Hname, Hphone in IH.
    cbn [default from_option id] in IH.
    match goal with
    | |- context [completed_loop ?a ?b ?c ?d ?e] =>
        replace (completed_loop a b c d e)
          with (map_run (map entry_text)
                  (completed_loop_on_frame completed (Some s)
                     (message_sids ++ [(default [] o, name, phone)]) (S value) p))
          by exact IH
    end.
    by destruct (completed_loop_on_frame _ _ _ _ _) as [[[?|?] ?] ?].
  - unfold bind, ret, emit. rewrite <- IH.
    by destruct (completed_loop_on_frame _ _ _ _ _) as [[[?|?] ?] ?].
Qed.

Lemma run_on_frame_typed (opted_out_numbers : gset pystr) (data : frame)
    (twilio_phone_number message_template : pystr)
    (sched_workers sched_completed : list nat) (p : P) :
  Forall (fun s => has_cells s = true /\ renders opted_out_numbers s = true)
    (iterrows data) ->
  map_run (map entry_text)
    (run_on_frame client opted_out_numbers data twilio_phone_number
       message_template sched_workers sched_completed p)
  = run client opted_out_numbers (map row_of (iterrows data)) twilio_phone_number
      message_template sched_workers sched_completed p.
Proof.
  intros Hrows.
  pose proof (submit_loop_on_frame_app opted_out_numbers message_template
                (iterrows data) [] None [] p Hrows) as Hsubmit.
  rewrite app_nil_r in Hsubmit. cbn in Hsubmit.
  assert (forall s, from_option Some None (last (iterrows data)) = Some s ->
                    has_cells s = true) as Hlast.
  { intros s Hs. destruct (last (iterrows data)) as [s'|] eqn:Hs'; [|done].
    cbn in Hs. injection Hs as ->.
    rewrite Forall_forall in Hrows. by apply Hrows, last_Some_elem_of. }
  unfold run_on_frame, run. rewrite !bind_log_run, !bind_emit_run.
  unfold iterrows at 3. rewrite !length_map.
  rewrite (bind_run (submit_loop_on_frame _ _ _ _ _)), Hsubmit.
  rewrite (bind_run (submit_loop _ _ _ _ _)), submit_loop_run.
  cbn [fst snd app]. rewrite app_nil_r.
  rewrite !(bind_run (run_workers _ _ _)).
  destruct (run_workers client twilio_phone_number _ p) as [[[futures|e] p1] t1];
    [|done].
  rewrite (bind_run (reraise _)). cbn [reraise ret app].
  rewrite (bind_run (completed_loop_on_frame _ _ _ _)).
  rewrite (bind_run (completed_loop _ _ _ _)).
  pose proof (completed_loop_on_frame_typed (as_scheduled sched_completed futures)
                _ [] 0 p1 Hlast) as Hcompleted.
  rewrite last_row_None, last_map.
  replace (option_map row_of (last (iterrows data)))
    with (option_map row_of (from_option Some None (last (iterrows data))))
    by (by destruct (last (iterrows data))).
  cbn [map] in Hcompleted. rewrite <- Hcompleted.
  destruct (completed_loop_on_frame _ _ _ _ _) as [[[message_sids|e] p2] t2];
    [|done].
  cbn [map_run map_result]. rewrite !bind_run.
  destruct (check_loop client (map entry_text message_sids) p2) as [[[[]|e] p3] t3];
    [|done].
  by rewrite !bind_log_run, !bind_emit_run.
Qed.


Lemma send_sms_on_frame_checked (data : frame) (opted_out_numbers : gset pystr)
    (w : widgets) (sched_workers sched_completed : list nat) (p p1 : P) :
  sid_entry w <> [] -> token_entry w <> [] -> phone_entry w <> [] ->
  message_entry w <> [] ->
  accounts_fetch client (sid_entry w) (token_entry w) p = (Ret tt, p1) ->
  send_sms_on_frame client (Some data) opted_out_numbers w
    sched_workers sched_completed p
  = let '(r, p', t) :=
      run_on_frame client opted_out_numbers data (phone_entry w) (message_entry w)
        sched_workers sched_completed p1 in
    (match r with Ret message_sids => Ret (Some message_sids) | Exc e => Exc e end,
     p', Called (AccountsFetch (sid_entry w) (token_entry w)) (Ret []) :: t).
Proof.
  intros Hsid%falsy_false Htoken%falsy_false Hphone%falsy_false
    Hmessage%falsy_false Hauth.
  unfold send_sms_on_frame. rewrite Hsid, Htoken, Hphone, Hmessage. cbn [orb].
  rewrite bind_run. unfold attempt, authenticate. rewrite Hauth. cbn [fst].
  rewrite bind_run.
  destruct (run_on_frame client opted_out_numbers data (phone_entry w)
              (message_entry w) sched_workers sched_completed p1)
    as [[[message_sids|e] p'] t]; cbn [ret app]; by rewrite ?app_nil_r.
Qed.

Lemma send_sms_on_frame_typed (data : frame)
    (opted_out_numbers : gset pystr) (w : widgets)
    (sched_workers sched_completed : list nat) (p : P) :
  Forall (fun s => has_cells s = true /\ renders opted_out_numbers s = true)
    (iterrows data) ->
  map_run (option_map (map entry_text))
    (send_sms_on_frame client (Some data) opted_out_numbers w
       sched_workers sched_completed p)
  = send_sms client (Some (map row_of (iterrows data))) opted_out_numbers w
      sched_workers sched_completed p.
Proof.
  intros Hrows. unfold send_sms_on_frame, send_sms.
  destruct (falsy (sid_entry w) || falsy (token_entry w) || falsy (phone_entry w));
    [done|].
  destruct (falsy (message_entry w)); [done|].
  rewrite !(bind_run (attempt _)).
  destruct (attempt (authenticate client (sid_entry w) (token_entry w)) p)
    as [[[[[]|e] | e] p1] t1]; [|done..].
  rewrite (bind_run (run_on_frame _ _ _ _ _ _ _)), (bind_run (run _ _ _ _ _ _ _)).
  rewrite <- run_on_frame_typed by done.
  by destruct (run_on_frame _ _ _ _ _ _ _ _) as [[[message_sids|e] p2] t2].
Qed.

End FrameRuns.




Lemma rows_handled (opted_out_numbers : gset pystr) (data : frame)
    (rows : list (list cell)) :
  py "Name" ∈ columns data ->
  py "Phone Number" ∈ columns data ->
  Forall (fun s => renders opted_out_numbers s = true) (map (row_at data) rows) ->
  Forall (fun s => has_cells s = true /\ renders opted_out_numbers s = true)
    (map (row_at data) rows).
Proof.
  intros Hname Hphone. induction rows as [|cs rows IH]; [done|].
  cbn [map]. intros [Hcs Hrows]%Forall_cons. constructor; [|by apply IH].
  split; [|done]. by apply has_cells_row_at.
Qed.

(** X16.  Loading and sending compose.  Once a sheet has been loaded with
    success, and every row of it that is to get a message has text for its
    name, [send_sms] on the global that the loader has set does, on every
    provider and schedule, what the run does over the rows of text of the
    sheet, the [str] of the name and of the number of each row: the same
    calls, records, boxes and entries.  A number cell that is not text is
    judged by its [str], so a column of plain numbers is skipped as
    invalid. *)
Theorem loaded_sheet_is_sent_row_by_row {P} (client : Client P)
    (chosen : pystr) (read_excel : pystr -> result frame)
    (customer_data : option frame) (loaded : frame)
    (opted_out_numbers : gset pystr) (w : widgets)
    (sched_workers sched_completed : list nat) (p : P) :
  fst (fst (load_customer_data chosen read_excel customer_data)) = Some loaded ->
  Forall (fun s => renders opted_out_numbers s = true) (iterrows loaded) ->
  map_run (option_map (map entry_text))
    (send_sms_on_frame client
       (snd (fst (load_customer_data chosen read_excel customer_data)))
       opted_out_numbers w sched_workers sched_completed p)
  = send_sms client (Some (map row_of (iterrows loaded))) opted_out_numbers w
      sched_workers sched_completed p.
Proof.
  intros (-> & Hname & Hphone)%load_customer_data_returned Hrows.
  apply send_sms_on_frame_typed. by apply rows_handled.
Qed.

Lemma loaded_sheet_is_sent_row_by_row_witness :
  map_run (option_map (map entry_text))
    (send_sms_on_frame (scripted (py "AC1") [] (always "delivered"))
       (snd (fst (load_customer_data (py "numbers.xlsx") sample_disk None)))
       ∅ sample_widgets [] [] 0%nat)
  = send_sms (scripted (py "AC1") [] (always "delivered"))
      (Some (map row_of (iterrows numbers_frame))) ∅ sample_widgets [] [] 0%nat.
Proof.
  apply (loaded_sheet_is_sent_row_by_row
           (scripted (py "AC1") [] (always "delivered"))
           (py "numbers.xlsx") sample_disk None numbers_frame).
  - reflexivity.
  - repeat (constructor; [vm_compute; reflexivity|]). constructor.
Defined.



(** X18.  After a load that failed for a missing column, [customer_data]
    is not [None]: [send_sms] does not ask for the data to be loaded but
    authenticates, starts the run and raises the [KeyError] of the missing
    column at the first row, before any message is sent. *)
Theorem send_after_a_failed_load_raises {P} (client : Client P)
    (chosen : pystr) (read_excel : pystr -> result frame)
    (customer_data : option frame) (loaded : frame)
    (opted_out_numbers : gset pystr) (w : widgets)
    (sched_workers sched_completed : list nat) (p p1 : P) :
  chosen <> [] ->
  read_excel chosen = Ret loaded ->
  records loaded <> [] ->
  py "Name" ∉ columns loaded \/ py "Phone Number" ∉ columns loaded ->
  sid_entry w <> [] -> token_entry w <> [] -> phone_entry w <> [] ->
  message_entry w <> [] ->
  accounts_fetch client (sid_entry w) (token_entry w) p = (Ret tt, p1) ->
  fst (fst (load_customer_data chosen read_excel customer_data)) = None /\
  send_sms_on_frame client
    (snd (fst (load_customer_data chosen read_excel customer_data)))
    opted_out_numbers w sched_workers sched_completed p
  = (Exc (key_error (if bool_decide (py "Name" ∈ columns loaded)
                     then py "Phone Number" else py "Name")), p1,
     [Called (AccountsFetch (sid_entry w) (token_entry w)) (Ret []);
      Logged SendingStarted; ProgressMaximum (length (records loaded));
      ProgressValue 0]).
Proof.
  intros Hchosen Hread Hrows Hmissing Hsid Htoken Hphone Hmessage Hauth.
  split.
  { destruct (load_customer_data chosen read_excel customer_data)
      as [[[returned|] global] t] eqn:Hload; [|done]. exfalso.
    destruct (load_customer_data_returned chosen read_excel customer_data returned)
      as (Hglobal & Hname & Hcol); [by rewrite Hload|].
    rewrite (load_customer_data_global chosen read_excel customer_data loaded)
      in Hglobal by done.
    injection Hglobal as <-. by destruct Hmissing. }
  rewrite (load_customer_data_global chosen read_excel customer_data loaded) by done.
  rewrite (send_sms_on_frame_checked client loaded opted_out_numbers w
             sched_workers sched_completed p p1) by done.
  unfold run_on_frame, iterrows.
  destruct (records loaded) as [|cs rest]; [done|].
  assert (has_cells (row_at loaded cs) = false) as Hcells.
  { unfold has_cells. rewrite !has_cell_row_at.
    destruct Hmissing as [H|H]; rewrite (bool_decide_eq_false_2 _ H);
      [done|apply andb_false_r]. }
  rewrite !bind_log_run, !bind_emit_run.
  rewrite (bind_run (submit_loop_on_frame _ _ _ _ _)).
  cbn [map submit_loop_on_frame]. rewrite (bind_run (attempt _)).
  unfold attempt. rewrite submit_row_key_error by done. cbn [ret fst snd app].
  rewrite (bind_run (run_workers _ _ _)). cbn [enumerate_from].
  rewrite as_scheduled_nil. cbn [run_workers ret app].
  by rewrite has_cell_row_at.
Qed.

Lemma send_after_a_failed_load_raises_witness :
  fst (fst (load_customer_data (py "bad.xlsx") sample_disk None)) = None /\
  send_sms_on_frame (scripted (py "AC1") [] (always "delivered"))
    (snd (fst (load_customer_data (py "bad.xlsx") sample_disk None)))
    ∅ sample_widgets [] [] 0%nat
  = (Exc (key_error (if bool_decide (py "Name" ∈ columns bad_frame)
                     then py "Phone Number" else py "Name")), 0%nat,
     [Called (AccountsFetch (sid_entry sample_widgets) (token_entry sample_widgets))
        (Ret []);
      Logged SendingStarted; ProgressMaximum (length (records bad_frame));
      ProgressValue 0]).
Proof.
  apply (send_after_a_failed_load_raises
           (scripted (py "AC1") [] (always "delivered"))
           (py "bad.xlsx") sample_disk None bad_frame ∅ sample_widgets [] [] 0%nat).
  - discriminate.
  - reflexivity.
  - discriminate.
  - left. vm_compute. intros H. inversion H as [|? ? ? H']; subst.
    inversion H' as [|? ? ? H'']; subst. inversion H''.
  - discriminate.
  - discriminate.
  - discriminate.
  - discriminate.
  - reflexivity.
Defined.

(** Numbers typed as plain numbers have no plus sign in their [str]: the
    rows are skipped as invalid, and the blank name of a skipped row does
    no harm. *)
Example plain_numbers_are_skipped :
  logged (trace_of (send_sms_on_frame (scripted (py "AC1") [] (always "delivered"))
                      (Some numbers_frame) ∅ sample_widgets [] [] 0%nat))
  = [ SendingStarted;
      InvalidPhoneSkipped (py "15559876543");
      InvalidPhoneSkipped (py "15550001111");
      MessageSent (py "Alice") (py "+15551234567") (py "SM+15551234567");
      MessageDelivered (py "Dora") (py "15550001111");
      SendingFinished ].
Proof. vm_compute. reflexivity. Qed.

Example scenario_run :
  send_sms (scripted (py "AC1") [] (always "delivered"))
    (Some [alice; bob; carl]) {[ py "+15559876543" ]} sample_widgets [] [] 0%nat
  = (Ret (Some [(py "SM+15551234567", py "Carl", py "+15559876543")]), 1%nat,
     [ Called (AccountsFetch (py "AC1") (py "secret")) (Ret []);
       Logged SendingStarted; ProgressMaximum 3; ProgressValue 0;
       Logged (InvalidPhoneSkipped (py "bad-phone"));
       Logged (SkippingOptedOut (py "+15559876543"));
       Called (MessagesCreate (py "Hi Alice!") (py "+15550000000") (py "+15551234567"))
              (Ret (py "SM+15551234567"));
       Logged (MessageSent (py "Alice") (py "+15551234567") (py "SM+15551234567"));
       ProgressValue 1; UpdateIdletasks;
       Called (MessagesFetch (py "SM+15551234567")) (Ret (py "delivered"));
       Logged (MessageDelivered (py "Carl") (py "+15559876543"));
       Printed (py "Message sent");
       Logged SendingFinished;
       ShowInfo (py "Success") (py "SMS messages processed!");
       SendButton (py "Messages Processed") (py "green") ]).
Proof. vm_compute. reflexivity. Qed.
